(** * Ollama local LLM benchmark: orchestration, telemetry and aggregation

    A shallow embedding of [ollama_benchmark_setup.py]: the command
    executor ([run_cmd], [ollama_exec]), the model lifecycle loop of
    [run_tests_for_models], one sampling tick of each backend of
    [telemetry_worker], and the aggregation stage of
    [generate_master_dashboard] (group statistics, telemetry column
    resolution, payload assembly).

    Conventions.  Python [str] is [string]; [None] is [option]; wall-clock
    seconds are rationals ([Q]), so float rounding is outside the model;
    the operating system is an oracle ([World]) that says how the n-th
    spawned process behaves.  The progress bar and the debug log lines are
    display only and are left out of the recorded trace. *)

From Stdlib Require Import String Ascii List ZArith QArith Lia Bool Arith.
From Stdlib Require Import Permutation DecimalString DecimalPos Sorted OrderedTypeEx Qround Lqa.
Import ListNotations.

Local Open Scope list_scope.
Local Open Scope string_scope.

(** ** Configuration constants (the CONFIG block) *)

Module Config.
Definition PING_RETRIES : nat := 3.
Definition PING_RETRY_WAIT : Q := 6.
Definition MAX_RESPONSE_TIME : Q := 180.
Definition MAX_OUTPUT_CHARS : nat := 5000.
Definition TEST_WAIT : Q := 15.
Definition COOLDOWN_AFTER_MODEL : nat := 15.
Definition GPU_LOG_INTERVAL : Q := 2.
End Config.

(** ** Python string primitives used by the program *)

Module PyStr.

(** [str.isspace] on one character (code points below 256). *)
Definition is_space (c : ascii) : bool :=
  let n := nat_of_ascii c in
  (((9 <=? n) && (n <=? 13)) || ((28 <=? n) && (n <=? 32))
   || (n =? 133) || (n =? 160))%nat.

Fixpoint lstrip (s : string) : string :=
  match s with
  | EmptyString => EmptyString
  | String c s' => if is_space c then lstrip s' else s
  end.

(** [rstrip]: a character is dropped when it is a space and everything
    after it has been dropped. *)
Fixpoint rstrip (s : string) : string :=
  match s with
  | EmptyString => EmptyString
  | String c s' =>
      match rstrip s' with
      | EmptyString => if is_space c then EmptyString else String c EmptyString
      | r => String c r
      end
  end.

Definition strip (s : string) : string := rstrip (lstrip s).

(** Truth value of a string: non-empty. *)
Definition truthy (s : string) : bool :=
  match s with EmptyString => false | _ => true end.

(** [needle in hay]. *)
Fixpoint contains (needle hay : string) : bool :=
  String.prefix needle hay
  || match hay with
     | EmptyString => false
     | String _ hay' => contains needle hay'
     end.

Definition lower_char (c : ascii) : ascii :=
  let n := nat_of_ascii c in
  if (((65 <=? n) && (n <=? 90))
      || ((192 <=? n) && (n <=? 222) && negb (n =? 215)))%nat
  then ascii_of_nat (n + 32)%nat else c.

Fixpoint lower (s : string) : string :=
  match s with
  | EmptyString => EmptyString
  | String c s' => String (lower_char c) (lower s')
  end.

(** [s.split(sep)] for a one-character separator. *)
Fixpoint split (sep : ascii) (s : string) : list string :=
  match s with
  | EmptyString => [EmptyString]
  | String c s' =>
      if Ascii.eqb c sep then EmptyString :: split sep s'
      else match split sep s' with
           | [] => [String c EmptyString]
           | w :: ws => String c w :: ws
           end
  end.

(** [s[:n]]. *)
Fixpoint take (n : nat) (s : string) : string :=
  match n, s with
  | S n', String c s' => String c (take n' s')
  | _, _ => EmptyString
  end.

(** [s.replace(old, new)] for a non-empty [old]: occurrences are replaced
    left to right without overlap; [skip] counts the characters of a
    matched occurrence still to be dropped. *)
Fixpoint replace_from (old new : string) (skip : nat) (s : string) : string :=
  match s with
  | EmptyString => EmptyString
  | String c s' =>
      match skip with
      | S k => replace_from old new k s'
      | O =>
          if String.prefix old s
          then new ++ replace_from old new (String.length old - 1)%nat s'
          else String c (replace_from old new 0 s')
      end
  end.

Definition replace (old new s : string) : string := replace_from old new 0 s.

Definition join (sep : string) (l : list string) : string := String.concat sep l.

(** [s.split(sep, 1)]: split at the first separator only. *)
Fixpoint split1 (sep : ascii) (s : string) : list string :=
  match s with
  | EmptyString => [EmptyString]
  | String c s' =>
      if Ascii.eqb c sep then [EmptyString; s']
      else match split1 sep s' with
           | [] => [String c EmptyString]
           | w :: ws => String c w :: ws
           end
  end.

(** Line boundaries of [str.splitlines] (code points below 256). *)
Definition is_linebreak (c : ascii) : bool :=
  let n := nat_of_ascii c in
  (((10 <=? n) && (n <=? 13)) || ((28 <=? n) && (n <=? 30)) || (n =? 133))%nat.

(** [s.splitlines()]: a carriage return followed by a line feed is one
    boundary ([after_cr] says the previous character was a carriage
    return); there is no empty last line. *)
Fixpoint splitlines_from (after_cr : bool) (s : string) : list string :=
  match s with
  | EmptyString => []
  | String c s' =>
      if after_cr && (nat_of_ascii c =? 10)%nat then splitlines_from false s'
      else if is_linebreak c
           then EmptyString :: splitlines_from (nat_of_ascii c =? 13)%nat s'
           else match splitlines_from false s' with
                | [] => [String c EmptyString]
                | w :: ws => String c w :: ws
                end
  end.

Definition splitlines (s : string) : list string := splitlines_from false s.

Definition is_ascii_digit (c : ascii) : bool :=
  let n := nat_of_ascii c in ((48 <=? n) && (n <=? 57))%nat.

Definition digit_value (c : ascii) : Z := Z.of_nat (nat_of_ascii c - 48).

(** [str.isdigit] on one character: the decimal digits and the
    superscripts two, three and one. *)
Definition is_digit_char (c : ascii) : bool :=
  let n := nat_of_ascii c in
  (is_ascii_digit c || (n =? 178) || (n =? 179) || (n =? 185))%nat.

Fixpoint all_chars (f : ascii -> bool) (s : string) : bool :=
  match s with
  | EmptyString => true
  | String c s' => f c && all_chars f s'
  end.

(** [s.isdigit()]. *)
Definition isdigit (s : string) : bool := truthy s && all_chars is_digit_char s.

(** The digits of an integer literal: decimal digits, single underscores
    allowed between two digits; [prev_digit] says the previous character
    was a digit. *)
Fixpoint parse_digits (acc : Z) (prev_digit : bool) (s : string) : option Z :=
  match s with
  | EmptyString => if prev_digit then Some acc else None
  | String c s' =>
      if is_ascii_digit c then parse_digits (acc * 10 + digit_value c) true s'
      else if (nat_of_ascii c =? 95)%nat && prev_digit then parse_digits acc false s'
      else None
  end.

(** [int(s)]; [None] is [ValueError]. *)
Definition int_of_str (s : string) : option Z :=
  match strip s with
  | String c r =>
      if (nat_of_ascii c =? 43)%nat then parse_digits 0 false r
      else if (nat_of_ascii c =? 45)%nat then option_map Z.opp (parse_digits 0 false r)
      else parse_digits 0 false (String c r)
  | EmptyString => None
  end.

(** [str(i)] for an integer. *)
Definition str_of_Z (i : Z) : string :=
  DecimalString.NilZero.string_of_int (Z.to_int i).

End PyStr.

(** ** Command executor: [run_cmd] *)

Module CommandExecutor.

(** How a spawned process behaves: what it prints, its exit status and
    how long it runs. *)
Record Process : Type := mkProcess {
  p_stdout : string;
  p_stderr : string;
  p_returncode : Z;
  p_runtime : Q
}.

(** Result of [subprocess.run(..., timeout=t)]: the completed process, or
    the [TimeoutExpired] exception. *)
Inductive RunResult : Type :=
| CompletedProcess (stdout stderr : string) (returncode : Z)
| TimeoutExpired.

(** The process completes within the timeout when there is none or when
    its run time does not exceed it. *)
Definition completes_within (p : Process) (timeout : option Q) : bool :=
  match timeout with
  | None => true
  | Some t => Qle_bool (p_runtime p) t
  end.

Definition subprocess_run (p : Process) (timeout : option Q) : RunResult :=
  if completes_within p timeout
  then CompletedProcess (p_stdout p) (p_stderr p) (p_returncode p)
  else TimeoutExpired.

(** Wall-clock time the call takes. *)
Definition elapsed (p : Process) (timeout : option Q) : Q :=
  match timeout with
  | None => p_runtime p
  | Some t => if Qle_bool (p_runtime p) t then p_runtime p else t
  end.

(** The triple [(stdout, stderr, rc)]; [stdout] is [None] on timeout. *)
Definition CmdResult : Type := option string * string * Z.

(** The timeout under which the child process is actually run: the
    capturing branch hands [timeout] to [subprocess.run], the other
    branch calls [subprocess.call] without one. *)
Definition subprocess_timeout (capture : bool) (timeout : option Q) : option Q :=
  if capture then timeout else None.

Definition run_cmd (p : Process) (timeout : option Q) (capture : bool) : CmdResult :=
  if capture then
    match subprocess_run p timeout with
    | CompletedProcess out err rc => (Some (PyStr.strip out), PyStr.strip err, rc)
    | TimeoutExpired => (None, "TIMEOUT", 124%Z)
    end
  else
    match subprocess_run p None with
    | CompletedProcess _ _ rc => (Some "", "", rc)
    | TimeoutExpired => (None, "TIMEOUT", 124%Z)
    end.

Definition run_cmd_elapsed (p : Process) (timeout : option Q) (capture : bool) : Q :=
  elapsed p (subprocess_timeout capture timeout).

Definition res_stdout (r : CmdResult) : option string := fst (fst r).
Definition res_stderr (r : CmdResult) : string := snd (fst r).
Definition res_rc (r : CmdResult) : Z := snd r.

(** The outcome reserved for a timeout. *)
Definition timeout_outcome : CmdResult := (None, "TIMEOUT", 124%Z).

End CommandExecutor.

(** ** Model lifecycle controller and run recorder: [run_tests_for_models] *)

Module Lifecycle.
Import CommandExecutor.

(** What the program asks the operating system to run: a shell command
    line ([run_cmd]) or an argument vector with the prompt on standard
    input (the test invocation). *)
Inductive Request : Type :=
| ReqShell (cmd : string)
| ReqArgv (argv : list string) (input : string).

(** The n-th process spawned during the run behaves as [w n req]. *)
Definition World : Type := nat -> Request -> Process.

(** One row of the results CSV. *)
Record ResultRecord : Type := mkResult {
  r_timestamp : Q;
  r_model : string;
  r_test_case : string;
  r_duration_s : Q;
  r_output_chars : nat;
  r_output : string
}.

Inductive Event : Type :=
| EvExec (req : Request) (timeout : option Q)
| EvSleep (secs : Q)
| EvLog (msg : string)
| EvAppend (row : ResultRecord).

(** Clock, number of processes spawned so far, what has happened so far
    (oldest first) and the rows of the results CSV (in file order). *)
Record State : Type := mkState {
  now : Q;
  spawned : nat;
  trace : list Event;
  results_csv : list ResultRecord
}.

Definition sleep (secs : Q) (s : State) : State :=
  mkState (now s + secs) (spawned s) (trace s ++ [EvSleep secs])%list (results_csv s).

Definition write_benchmark_log (msg : string) (s : State) : State :=
  mkState (now s) (spawned s) (trace s ++ [EvLog msg])%list (results_csv s).

(** [df.to_csv(results_csv_path, mode='a', header=False)]. *)
Definition append_row (row : ResultRecord) (s : State) : State :=
  mkState (now s) (spawned s) (trace s ++ [EvAppend row])%list (results_csv s ++ [row])%list.

Definition spawn (w : World) (req : Request) (timeout : option Q) (s : State)
  : Process * State :=
  let p := w (spawned s) req in
  (p, mkState (now s + elapsed p timeout) (S (spawned s))
              (trace s ++ [EvExec req timeout])%list (results_csv s)).

Definition dq : string := String (ascii_of_nat 34) EmptyString.

(** The command line [ollama_exec] hands to [run_cmd]. *)
Definition ollama_exec_cmd (cmd host : string) : string :=
  let cmd' :=
    if PyStr.contains "ollama run" cmd && negb (String.prefix "/usr/local/bin/" cmd)
    then PyStr.replace "ollama run" "/usr/local/bin/ollama run" cmd
    else cmd in
  let env_str :=
    PyStr.join " "
      [ "OLLAMA_HOST=" ++ dq ++ host ++ dq;
        "PATH=" ++ dq ++ "/usr/local/sbin:/usr/local/bin:/usr/sbin:/usr/bin:/sbin:/bin" ++ dq;
        "HOME=" ++ dq ++ "/var/lib/ollama" ++ dq;
        "OLLAMA_MODELS=" ++ dq ++ "/data/ollama/models" ++ dq ] in
  "sudo -E -u ollama env " ++ env_str ++ " " ++ cmd'.

(** [ollama_exec(cmd, host, capture=True, timeout=timeout)]. *)
Definition ollama_exec (w : World) (cmd host : string) (timeout : option Q)
                       (s : State) : CmdResult * State :=
  let req := ReqShell (ollama_exec_cmd cmd host) in
  let '(p, s') := spawn w req (subprocess_timeout true timeout) s in
  (run_cmd p timeout true, s').

(** [int(x)]: truncation towards zero. *)
Definition py_int (x : Q) : Z := Z.quot (Qnum x) (Zpos (Qden x)).

Definition estimate_load_time_mb (size_mb : option Q) : Z :=
  match size_mb with
  | None => 30
  | Some sz =>
      if Qeq_bool sz 0 then 30%Z
      else Z.max 15 (py_int (10 + (sz / 1024) * 8))
  end.

(** What the run reads from the file system: the model size table
    ([MODEL_META], absent or unreadable as [None]), the size of the first
    blob found by [find_model_file_size], and the [*.txt] files of the
    test directory. *)
Record TestFile : Type := mkTestFile { tf_name : string; tf_text : string }.

Record Env : Type := mkEnv {
  world : World;
  model_meta : option (list (string * option Q));
  blob_size_mb : option Q;
  test_dir_path : string;
  test_dir : list TestFile
}.

Fixpoint dict_get {V : Type} (d : list (string * V)) (k : string) : option V :=
  match d with
  | [] => None
  | (k', v) :: d' => if String.eqb k' k then Some v else dict_get d' k
  end.

Definition model_size_mb (e : Env) (model : string) : option Q :=
  let size_mb :=
    match model_meta e with
    | Some d => match dict_get d model with Some v => v | None => None end
    | None => None
    end in
  match size_mb with
  | Some v => Some v
  | None => blob_size_mb e
  end.

(** [sorted(TEST_DIR.glob("*.txt"))]: files in the order of their names. *)
Fixpoint insert_by_name (f : TestFile) (l : list TestFile) : list TestFile :=
  match l with
  | [] => [f]
  | g :: l' =>
      if String.leb (tf_name f) (tf_name g) then f :: l
      else g :: insert_by_name f l'
  end.

Fixpoint sorted (l : list TestFile) : list TestFile :=
  match l with
  | [] => []
  | f :: l' => insert_by_name f (sorted l')
  end.

Definition pull_cmd (model : string) : string := "/usr/local/bin/ollama pull " ++ model.
Definition ping_cmd (model : string) : string := "/usr/local/bin/ollama run " ++ model ++ " Hello".

(** The body of [for attempt in range(PING_RETRIES)], [n] attempts left;
    returns [ping_ok]. *)
Fixpoint ping_loop (n : nat) (w : World) (host model : string) (est : Z) (s : State)
  : bool * State :=
  match n with
  | O => (false, s)
  | S n' =>
      let '(r, s1) := ollama_exec w (pull_cmd model) host (Some 300) s in
      if negb (Z.eqb (res_rc r) 0)
      then ping_loop n' w host model est (sleep Config.PING_RETRY_WAIT s1)
      else
        let '(r2, s2) :=
          ollama_exec w (ping_cmd model) host (Some (inject_Z est + 30)) s1 in
        if Z.eqb (res_rc r2) 0
           && match res_stdout r2 with
              | Some out => PyStr.truthy out && PyStr.truthy (PyStr.strip out)
              | None => false
              end
        then (true, s2)
        else ping_loop n' w host model est (sleep Config.PING_RETRY_WAIT s2)
  end.

Definition test_request (host model : string) (tf : TestFile) : Request :=
  ReqArgv [ "sudo"; "-E"; "-u"; "ollama"; "env"; "OLLAMA_HOST=" ++ host;
            "/usr/local/bin/ollama"; "run"; model ] (tf_text tf).

(** The row built after a test invocation: the [try] body for a completed
    process, the [except subprocess.TimeoutExpired] body otherwise. *)
Definition result_data (model : string) (tf : TestFile) (start_time duration : Q)
                       (res : RunResult) : ResultRecord :=
  match res with
  | CompletedProcess out _ _ =>
      mkResult start_time model (tf_name tf) duration
               (if PyStr.truthy out then String.length out else 0%nat)
               (if PyStr.truthy out then PyStr.take Config.MAX_OUTPUT_CHARS out else "")
  | TimeoutExpired =>
      mkResult start_time model (tf_name tf) duration 0%nat "TIMEOUT"
  end.

(** One iteration of [for tfile in test_files]. *)
Definition run_test (w : World) (host model : string) (tf : TestFile) (s : State)
  : State :=
  let start_time := now s in
  let '(p, s1) := spawn w (test_request host model tf) (Some Config.MAX_RESPONSE_TIME) s in
  let res := subprocess_run p (Some Config.MAX_RESPONSE_TIME) in
  let duration := now s1 - start_time in
  sleep Config.TEST_WAIT (append_row (result_data model tf start_time duration res) s1).

Fixpoint test_loop (w : World) (host model : string) (tfs : list TestFile) (s : State)
  : State :=
  match tfs with
  | [] => s
  | tf :: tfs' => test_loop w host model tfs' (run_test w host model tf s)
  end.

(** [for _ in range(n)]: sleep 3, list the active models, stop polling
    once the model is no longer listed. *)
Fixpoint verify_stop (n : nat) (w : World) (host model : string) (s : State)
  : bool * State :=
  match n with
  | O => (false, s)
  | S n' =>
      let s1 := sleep 3 s in
      let '(r, s2) := ollama_exec w "ollama ps" host None s1 in
      let ps_out := match res_stdout r with Some o => o | None => "" end in
      if negb (PyStr.contains model ps_out) then (true, s2)
      else verify_stop n' w host model s2
  end.

Fixpoint cooldown (n : nat) (s : State) : State :=
  match n with
  | O => s
  | S n' => cooldown n' (sleep 1 s)
  end.

(** How the per-model sequence ended: warm-up never succeeded, no test
    files, or tests run and model retired. *)
Inductive ModelStatus : Type := Failed | NoTests | Done.

(** The body of [for mi, model in enumerate(models, start=1)]. *)
Definition model_lifecycle (e : Env) (host model : string) (s : State)
  : ModelStatus * State :=
  let w := world e in
  let est := estimate_load_time_mb (model_size_mb e model) in
  let '(ping_ok, s1) := ping_loop Config.PING_RETRIES w host model est s in
  if negb ping_ok
  then (Failed, write_benchmark_log ("Model " ++ model ++ " ping failed") s1)
  else
    let test_files := sorted (test_dir e) in
    match test_files with
    | [] => (NoTests,
             write_benchmark_log ("No test files found in " ++ test_dir_path e
                                  ++ ". Aborting tests for model " ++ model ++ ".") s1)
    | _ =>
        let s2 := test_loop w host model test_files s1 in
        let '(_, s3) := ollama_exec w ("ollama stop " ++ model) host None s2 in
        let '(_, s4) := verify_stop 6 w host model s3 in
        (Done, cooldown Config.COOLDOWN_AFTER_MODEL s4)
    end.

Fixpoint run_models (e : Env) (host : string) (models : list string) (s : State)
  : list (string * ModelStatus) * State :=
  match models with
  | [] => ([], s)
  | model :: rest =>
      let '(st, s1) := model_lifecycle e host model s in
      let '(sts, s2) := run_models e host rest s1 in
      ((model, st) :: sts, s2)
  end.

(** The rows added to the results CSV between two states. *)
Definition rows_since (s s' : State) : list ResultRecord :=
  skipn (List.length (results_csv s)) (results_csv s').

(** Number of rows for a (model, test case) pair. *)
Definition count_rows (model test_case : string) (rows : list ResultRecord) : nat :=
  List.length
    (filter (fun r => String.eqb (r_model r) model
                      && String.eqb (r_test_case r) test_case) rows).

(** The pull command of a model fails whenever it is issued. *)
Definition pull_always_fails (w : World) (host model : string) : Prop :=
  forall n : nat,
    res_rc (run_cmd (w n (ReqShell (ollama_exec_cmd (pull_cmd model) host)))
                    (Some 300) true) <> 0%Z.

(** Warm-up is answered: whenever they are issued, the pull of the model
    exits with status 0 and the ping exits with status 0 with output that
    is not blank, both within their timeouts. *)
Definition warm_up_answers (e : Env) (host model : string) : Prop :=
  forall n : nat,
    let pull := run_cmd (world e n (ReqShell (ollama_exec_cmd (pull_cmd model) host)))
                        (Some 300) true in
    let ping := run_cmd (world e n (ReqShell (ollama_exec_cmd (ping_cmd model) host)))
                        (Some (inject_Z (estimate_load_time_mb (model_size_mb e model)) + 30))
                        true in
    res_rc pull = 0%Z
    /\ res_rc ping = 0%Z
    /\ exists out : string, res_stdout ping = Some out /\ PyStr.strip out <> EmptyString.

Definition pull_event (host model : string) : Event :=
  EvExec (ReqShell (ollama_exec_cmd (pull_cmd model) host)) (Some 300).

(** A row is the record of the test invocation that was the [n]-th
    process of the run and started at [start]: either the success row of
    a completed process or the timeout row. *)
Definition records_invocation (w : World) (host model : string) (tf : TestFile)
                              (r : ResultRecord) : Prop :=
  exists (n : nat) (start : Q),
    let p := w n (test_request host model tf) in
    r_timestamp r = start
    /\ r_model r = model
    /\ r_test_case r = tf_name tf
    /\ r_duration_s r = (start + elapsed p (Some Config.MAX_RESPONSE_TIME) - start)%Q
    /\ (if completes_within p (Some Config.MAX_RESPONSE_TIME)
        then r_output r = PyStr.take Config.MAX_OUTPUT_CHARS (p_stdout p)
             /\ r_output_chars r = String.length (p_stdout p)
        else r_output r = "TIMEOUT"
             /\ r_output_chars r = 0%nat
             /\ (r_duration_s r == Config.MAX_RESPONSE_TIME)%Q).

(** The rows a model contributes to the results CSV: none when warm-up
    failed, otherwise one recorded invocation per test file, in the order
    of the sorted test directory. *)
Definition model_block (e : Env) (host : string) (ms : string * ModelStatus)
                       (block : list ResultRecord) : Prop :=
  match snd ms with
  | Failed => block = []
  | _ => Forall2 (records_invocation (world e) host (fst ms)) (sorted (test_dir e)) block
  end.

End Lifecycle.

(** ** Telemetry sampler: one tick of each backend of [telemetry_worker] *)

Module Telemetry.
Import CommandExecutor.

(** A number written to the sink: a Python [int] or [float]. *)
Inductive Num : Type :=
| Int (z : Z)
| Float (q : Q).

Record Utilization : Type := mkUtil { gpu : Z; memory : Z }.
Record MemoryInfo : Type := mkMem { used : Z; total : Z }.

(** What the NVML queries answer for one device at one tick; [None] is a
    query that raises. *)
Record Device : Type := mkDevice {
  handle_by_index : option unit;
  utilization_rates : option Utilization;
  memory_info : option MemoryInfo;
  temperature : option Z;
  power_usage : option Z;
  power_management_limit : option Z;
  clock_graphics : option Z;
  clock_mem : option Z;
  clock_sm : option Z;
  fan_speed : option Z;
  pcie_throughput_tx : option Z;
  pcie_throughput_rx : option Z;
  encoder_utilization : option (Z * Z);
  decoder_utilization : option (Z * Z)
}.

Definition fieldnames : list string :=
  [ "timestamp"; "gpu_index"; "util_gpu_pct"; "util_memory_pct";
    "mem_used_MiB"; "mem_total_MiB"; "mem_free_MiB";
    "temp_C"; "power_W"; "power_limit_W";
    "clock_core_MHz"; "clock_memory_MHz"; "clock_sm_MHz";
    "fan_speed_pct"; "pcie_tx_MBps"; "pcie_rx_MBps";
    "encoder_util_pct"; "decoder_util_pct" ].

Record Row : Type := mkRow {
  timestamp : Q;
  gpu_index : nat;
  util_gpu_pct : Z;
  util_memory_pct : Z;
  mem_used_MiB : Z;
  mem_total_MiB : Z;
  mem_free_MiB : Z;
  temp_C : Z;
  power_W : Num;
  power_limit_W : Num;
  clock_core_MHz : Z;
  clock_memory_MHz : Z;
  clock_sm_MHz : Z;
  fan_speed_pct : Z;
  pcie_tx_MBps : Num;
  pcie_rx_MBps : Num;
  encoder_util_pct : Z;
  decoder_util_pct : Z
}.

(** [try: x = query() except: x = 0]. *)
Definition guarded (q : option Z) : Z :=
  match q with Some v => v | None => 0%Z end.

(** [try: x = query() / d except: x = 0]. *)
Definition guarded_div (q : option Z) (d : Q) : Num :=
  match q with Some v => Float (inject_Z v / d) | None => Int 0 end.

Definition MiB : Z := 1024 * 1024.

(** The body of [for i in range(device_count)]: the handle and the three
    basic metrics are queried bare; the remaining queries sit in their
    own [try] blocks, the two PCIe queries sharing one and the encoder
    and decoder queries sharing one.  [None]: an exception leaves the
    body before [writer.writerow]. *)
Definition collect_row (now : Q) (i : nat) (d : Device) : option Row :=
  match handle_by_index d with
  | None => None
  | Some _ =>
  match utilization_rates d with
  | None => None
  | Some util =>
  match memory_info d with
  | None => None
  | Some mem =>
  match temperature d with
  | None => None
  | Some temp =>
      let power := guarded_div (power_usage d) 1000 in
      let power_limit := guarded_div (power_management_limit d) 1000 in
      let clock_core := guarded (clock_graphics d) in
      let clock_memory := guarded (clock_mem d) in
      let clock_sm' := guarded (clock_sm d) in
      let fan := guarded (fan_speed d) in
      let '(pcie_tx, pcie_rx) :=
        match pcie_throughput_tx d, pcie_throughput_rx d with
        | Some tx, Some rx =>
            (Float (inject_Z tx / inject_Z MiB), Float (inject_Z rx / inject_Z MiB))
        | _, _ => (Int 0, Int 0)
        end in
      let '(encoder_util, decoder_util) :=
        match encoder_utilization d, decoder_utilization d with
        | Some enc, Some dec => (fst enc, fst dec)
        | _, _ => (0%Z, 0%Z)
        end in
      Some (mkRow now i (gpu util) (memory util)
                  (used mem / MiB) (total mem / MiB) ((total mem - used mem) / MiB)
                  temp power power_limit clock_core clock_memory clock_sm' fan
                  pcie_tx pcie_rx encoder_util decoder_util)
  end end end end.

(** One sampling tick of the primary backend, from device [i] on: the
    rows written, and the index of the device at which an exception ended
    the [for] loop (logged by the enclosing [except]). *)
Fixpoint tick_from (now : nat -> Q) (i : nat) (devs : list Device)
  : list Row * option nat :=
  match devs with
  | [] => ([], None)
  | d :: devs' =>
      match collect_row (now i) i d with
      | None => ([], Some i)
      | Some row =>
          let '(rows, err) := tick_from now (S i) devs' in
          (row :: rows, err)
      end
  end.

Definition tick (now : nat -> Q) (devs : list Device) : list Row * option nat :=
  tick_from now 0 devs.

(** *** The nvidia-smi fallback *)

Definition fallback_fieldnames : list string :=
  [ "timestamp"; "gpu_index"; "utilization.gpu"; "utilization.memory";
    "memory.used"; "memory.total"; "temperature.gpu"; "power.draw";
    "clocks.current.graphics"; "clocks.current.memory"; "clocks.current.sm";
    "fan.speed"; "pcie.link.gen.current"; "pcie.link.width.current";
    "encoder.stats.sessionCount"; "encoder.stats.averageFps";
    "decoder.stats.sessionCount"; "decoder.stats.averageFps" ].

(** The fields of [--query-gpu=...], in the order nvidia-smi prints
    them on each output line. *)
Definition query_fields : list string :=
  [ "timestamp"; "index"; "utilization.gpu"; "utilization.memory";
    "memory.used"; "memory.total"; "temperature.gpu"; "power.draw";
    "clocks.current.graphics"; "clocks.current.memory"; "clocks.current.sm";
    "fan.speed"; "pcie.link.gen.current"; "pcie.link.width.current";
    "encoder.stats.sessionCount"; "encoder.stats.averageFps";
    "decoder.stats.sessionCount"; "decoder.stats.averageFps" ].

(** [parts[k] if len(parts) > k else default]. *)
Definition part_or (parts : list string) (k : nat) (default : string) : string :=
  if (k <? List.length parts)%nat then nth k parts "" else default.

Definition str_of_nat (n : nat) : string :=
  DecimalString.NilZero.string_of_uint (Nat.to_uint n).

(** The cells of the line written for one output line that has at least
    18 comma-separated parts; [now_iso] is [datetime.now().isoformat()]. *)
Definition fallback_cells (now_iso : string) (i : nat) (parts : list string)
  : list string :=
  let gpu_index := part_or parts 2 (str_of_nat i) in
  let util_gpu := part_or parts 3 "0" in
  let util_mem := part_or parts 4 "0" in
  let mem_used := part_or parts 5 "0" in
  let mem_total := part_or parts 6 "0" in
  let temp := part_or parts 7 "0" in
  let power := part_or parts 8 "0" in
  let clock_core := part_or parts 9 "0" in
  let clock_mem := part_or parts 10 "0" in
  let clock_sm := part_or parts 11 "0" in
  let fan_speed := part_or parts 12 "0" in
  let pcie_gen := part_or parts 13 "0" in
  let pcie_width := part_or parts 14 "0" in
  let encoder_sessions := part_or parts 15 "0" in
  let encoder_fps := part_or parts 16 "0" in
  let decoder_sessions := part_or parts 17 "0" in
  let decoder_fps := part_or parts 18 "0" in
  [ now_iso; gpu_index; util_gpu; util_mem; mem_used; mem_total; temp; power;
    clock_core; clock_mem; clock_sm; fan_speed; pcie_gen; pcie_width;
    encoder_sessions; encoder_fps; decoder_sessions; decoder_fps ].

Definition newline : ascii := ascii_of_nat 10.
Definition comma : ascii := ascii_of_nat 44.

(** The text [csvfile.write] appends for one output line, without the
    final line feed. *)
Definition fallback_line (now_iso : string) (i : nat) (parts : list string) : string :=
  PyStr.join "," (fallback_cells now_iso i parts).

(** The rows (as cell lists) one fallback tick appends for the lines of
    the command output, [i] being the index of the first line. *)
Fixpoint fallback_lines (now_iso : string) (i : nat) (lines : list string)
  : list (list string) :=
  match lines with
  | [] => []
  | line :: lines' =>
      let rest := fallback_lines now_iso (S i) lines' in
      if PyStr.truthy (PyStr.strip line) then
        let parts := PyStr.split comma line in
        if (18 <=? List.length parts)%nat
        then fallback_cells now_iso i parts :: rest
        else rest
      else rest
  end.

(** One sampling tick of the fallback backend, given what [run_cmd]
    returned for the nvidia-smi query. *)
Definition fallback_tick (now_iso : string) (r : CmdResult) : list (list string) :=
  match res_stdout r with
  | Some out =>
      if Z.eqb (res_rc r) 0 && PyStr.truthy out
      then fallback_lines now_iso 0 (PyStr.split newline (PyStr.strip out))
      else []
  | None => []
  end.

(** Position of a column in a header, and the cell of a row under it (the
    sink is read back by position). *)
Fixpoint column_index (header : list string) (col : string) : option nat :=
  match header with
  | [] => None
  | h :: header' =>
      if String.eqb h col then Some 0%nat
      else option_map S (column_index header' col)
  end.

Definition cell_under (header cells : list string) (col : string) : option string :=
  match column_index header col with
  | Some k => nth_error cells k
  | None => None
  end.

(** The value nvidia-smi printed for a queried field on a line. *)
Definition queried_value (parts : list string) (field : string) : option string :=
  cell_under query_fields parts field.

End Telemetry.

(** ** Aggregator: [generate_master_dashboard] *)

Module Aggregator.

(** A float cell of a data frame; [None] is NaN (an empty or
    non-numeric cell after coercion). *)
Definition PyFloat : Type := option Q.

(** A row of a results CSV as [pd.read_csv] and
    [pd.to_datetime(..., errors='coerce')] deliver it: an unparseable
    timestamp is [None] (NaT), an empty cell is [None]. *)
Record CsvRow : Type := mkCsvRow {
  c_timestamp : option Q;
  c_model : option string;
  c_test_case : option string;
  c_duration_s : PyFloat
}.

(** The telemetry file that goes with a results file: missing, present
    but failing in the [try] block, or read as a frame of named columns
    (cells after [pd.to_numeric(..., errors='coerce')]). *)
Definition Frame : Type := list (string * list PyFloat).

Inductive TelemetrySink : Type :=
| NoSink
| Unreadable
| Sink (tdf : Frame).

(** A [benchmark_results_*.csv] file of the results directory;
    [rf_rows = None] when [pd.read_csv] fails on it. *)
Record ResultFile : Type := mkResultFile {
  rf_name : string;
  rf_rows : option (list CsvRow);
  rf_sink : TelemetrySink
}.

(** [all_res]: the rows of the readable files, each tagged with its
    [run_file]. *)
Definition frames (files : list ResultFile) : list (string * list CsvRow) :=
  flat_map (fun f => match rf_rows f with
                     | Some rows => [(rf_name f, rows)]
                     | None => []
                     end) files.

Definition all_res (files : list ResultFile) : list (string * CsvRow) :=
  flat_map (fun fr => map (fun r => (fst fr, r)) (snd fr)) (frames files).

(** *** [groupby(['run_file', 'test_case', 'model']).agg(...)] *)

(** (run_file, test_case, model) *)
Definition Key : Type := (string * string * string)%type.

(** Rows with a missing key cell belong to no group. *)
Definition row_key (r : string * CsvRow) : option Key :=
  match c_test_case (snd r), c_model (snd r) with
  | Some t, Some m => Some (fst r, t, m)
  | _, _ => None
  end.

Definition key_compare (a b : Key) : comparison :=
  let '(ra, ta, ma) := a in
  let '(rb, tb, mb) := b in
  match String.compare ra rb with
  | Eq => match String.compare ta tb with
          | Eq => String.compare ma mb
          | c => c
          end
  | c => c
  end.

Definition key_eqb (a b : Key) : bool :=
  match key_compare a b with Eq => true | _ => false end.

(** Sorted list without repetitions ([sorted(x.unique())], group keys). *)
Fixpoint insert_uniq {A : Type} (cmp : A -> A -> comparison) (x : A) (l : list A)
  : list A :=
  match l with
  | [] => [x]
  | y :: l' =>
      match cmp x y with
      | Lt => x :: l
      | Eq => l
      | Gt => y :: insert_uniq cmp x l'
      end
  end.

Definition sort_uniq {A : Type} (cmp : A -> A -> comparison) (l : list A) : list A :=
  fold_right (insert_uniq cmp) [] l.

Fixpoint keys_of (rows : list (string * CsvRow)) : list Key :=
  match rows with
  | [] => []
  | r :: rows' =>
      match row_key r with
      | Some k => k :: keys_of rows'
      | None => keys_of rows'
      end
  end.

Definition group (k : Key) (rows : list (string * CsvRow)) : list CsvRow :=
  map snd
    (filter (fun r => match row_key r with
                      | Some k' => key_eqb k' k
                      | None => false
                      end) rows).

(** The non-NaN cells of a column. *)
Fixpoint dropna (l : list PyFloat) : list Q :=
  match l with
  | [] => []
  | Some v :: l' => v :: dropna l'
  | None :: l' => dropna l'
  end.

Definition Qsum (l : list Q) : Q := fold_right Qplus 0 l.

(** ['mean'] and [.mean(skipna=True)]: NaN when no cell is left. *)
Definition mean (l : list PyFloat) : PyFloat :=
  match dropna l with
  | [] => None
  | vs => Some (Qsum vs / inject_Z (Z.of_nat (List.length vs)))
  end.

Definition Qmaxb (a b : Q) : Q := if Qle_bool a b then b else a.
Definition Qminb (a b : Q) : Q := if Qle_bool a b then a else b.

(** [.max(skipna=True)] and ['min']. *)
Definition max_skipna (l : list PyFloat) : PyFloat :=
  match dropna l with
  | [] => None
  | v :: vs => Some (fold_left Qmaxb vs v)
  end.

Definition min_skipna (l : list PyFloat) : PyFloat :=
  match dropna l with
  | [] => None
  | v :: vs => Some (fold_left Qminb vs v)
  end.

(** ['count']: the number of non-null cells. *)
Definition count_notna (l : list (option Q)) : nat := List.length (dropna l).

Record AggRow : Type := mkAggRow {
  a_run_file : string;
  a_test_case : string;
  a_model : string;
  a_start_time : option Q;
  a_duration_s : PyFloat;
  a_count : nat
}.

Definition a_key (a : AggRow) : Key := (a_run_file a, a_test_case a, a_model a).

Definition agg_group (rows : list (string * CsvRow)) (k : Key) : AggRow :=
  let g := group k rows in
  let '(run_file, test_case, model) := k in
  mkAggRow run_file test_case model
           (min_skipna (map c_timestamp g))
           (mean (map c_duration_s g))
           (count_notna (map c_timestamp g)).

Definition agg (rows : list (string * CsvRow)) : list AggRow :=
  map (agg_group rows) (sort_uniq key_compare (keys_of rows)).

(** *** Telemetry aggregates *)

Fixpoint first_col_like (columns candidates : list string) : option string :=
  match candidates with
  | [] => None
  | cand :: candidates' =>
      match find (fun col => PyStr.contains cand (PyStr.lower col)) columns with
      | Some col => Some col
      | None => first_col_like columns candidates'
      end
  end.

(** [tdf[col]]. *)
Fixpoint column (tdf : Frame) (col : string) : list PyFloat :=
  match tdf with
  | [] => []
  | (name, cells) :: tdf' => if String.eqb name col then cells else column tdf' col
  end.

(** [telemetry_agg]: each key is present only when its column was
    found. *)
Record TelemetryAgg : Type := mkTelAgg {
  avg_util : option PyFloat;
  max_temp : option PyFloat;
  avg_power : option PyFloat
}.

Definition util_candidates : list string :=
  ["util"; "utilization"; "util_gpu"; "utilization.gpu"].
Definition temp_candidates : list string := ["temp"; "temperature"].
Definition power_candidates : list string := ["power"; "power.draw"; "power_w"].

(** [if col: telemetry_agg[key] = f(tdf[col])]. *)
Definition aggregate_col (tdf : Frame) (col : option string)
                         (f : list PyFloat -> PyFloat) : option PyFloat :=
  match col with
  | Some c => if PyStr.truthy c then Some (f (column tdf c)) else None
  | None => None
  end.

Definition telemetry_aggregate (tdf : Frame) : TelemetryAgg :=
  let columns := map fst tdf in
  let util_col := first_col_like columns util_candidates in
  let temp_col := first_col_like columns temp_candidates in
  let power_col := first_col_like columns power_candidates in
  mkTelAgg (aggregate_col tdf util_col mean)
           (aggregate_col tdf temp_col max_skipna)
           (aggregate_col tdf power_col mean).

(** *** Payload *)

(** An entry of a test case's model list; [me_telemetry = None] is an
    entry without a ['telemetry'] key, [Some None] is [null]. *)
Record ModelEntry : Type := mkEntry {
  me_model : string;
  me_duration_s : option Q;
  me_start_time : option Q;
  me_count : nat;
  me_telemetry : option (option TelemetryAgg)
}.

Definition Tests : Type := list (string * list ModelEntry).

Record Payload : Type := mkPayload {
  runs : list (string * Tests);
  telemetry : list (string * option TelemetryAgg)
}.

(** [d[k] = v] on an insertion-ordered dict. *)
Fixpoint dict_set {V : Type} (d : list (string * V)) (k : string) (v : V)
  : list (string * V) :=
  match d with
  | [] => [(k, v)]
  | (k', v') :: d' =>
      if String.eqb k' k then (k, v) :: d' else (k', v') :: dict_set d' k v
  end.

Fixpoint dict_get {V : Type} (d : list (string * V)) (k : string) : option V :=
  match d with
  | [] => None
  | (k', v) :: d' => if String.eqb k' k then Some v else dict_get d' k
  end.

Definition entry_of (a : AggRow) : ModelEntry :=
  mkEntry (a_model a) (a_duration_s a) (a_start_time a) (a_count a) None.

Definition tests_of_run (ag : list AggRow) (run_file : string) : Tests :=
  let run_df := filter (fun a => String.eqb (a_run_file a) run_file) ag in
  map (fun test_case =>
         (test_case,
          map entry_of (filter (fun a => String.eqb (a_test_case a) test_case) run_df)))
      (sort_uniq String.compare (map a_test_case run_df)).

Definition payload_runs (ag : list AggRow) : list (string * Tests) :=
  map (fun run_file => (run_file, tests_of_run ag run_file))
      (sort_uniq String.compare (map a_run_file ag)).

Definition payload_telemetry (files : list ResultFile)
  : list (string * option TelemetryAgg) :=
  fold_left (fun d f =>
               dict_set d (rf_name f)
                 match rf_sink f with
                 | Sink tdf => Some (telemetry_aggregate tdf)
                 | Unreadable => None
                 | NoSink => None
                 end)
            files [].

(** Truth value of [run_tel]: neither [None] nor an empty dict. *)
Definition run_tel_truthy (run_tel : option (option TelemetryAgg)) : bool :=
  match run_tel with
  | Some (Some a) =>
      match avg_util a, max_temp a, avg_power a with
      | None, None, None => false
      | _, _, _ => true
      end
  | _ => false
  end.

(** The telemetry value put into the entries of a run. *)
Definition attached (tel : list (string * option TelemetryAgg)) (run_file : string)
  : option TelemetryAgg :=
  let run_tel := dict_get tel run_file in
  if run_tel_truthy run_tel
  then match run_tel with Some v => v | None => None end
  else None.

Definition attach (tel : list (string * option TelemetryAgg)) (run_file : string)
                  (tests : Tests) : Tests :=
  map (fun t => (fst t,
                 map (fun m => mkEntry (me_model m) (me_duration_s m) (me_start_time m)
                                       (me_count m) (Some (attached tel run_file)))
                     (snd t)))
      tests.

(** What a call does: raise, or return after writing the page that embeds
    [json.dumps(payload)] ([Returns None]: no page is written). *)
Inductive DashResult : Type :=
| Raises (msg : string)
| Returns (written : option Payload).

(** The loop that copies the run-level aggregates into the entries holds
    the page construction and the [return] in its body, so the payload is
    serialised during the iteration for the first run. *)
Definition generate_master_dashboard (files : list ResultFile) : DashResult :=
  match files with
  | [] => Raises "No benchmark_results_*.csv files found"
  | _ =>
      match frames files with
      | [] => Raises "No readable result CSVs found"
      | _ =>
          let ag := agg (all_res files) in
          let tel := payload_telemetry files in
          match payload_runs ag with
          | [] => Returns None
          | (run_file, tests) :: rest =>
              Returns (Some (mkPayload ((run_file, attach tel run_file tests) :: rest) tel))
          end
      end
  end.

(** The entries of a run in a payload, over all its test cases. *)
Definition entries_of_run (p : Payload) (run_file : string) : list ModelEntry :=
  match dict_get (runs p) run_file with
  | Some tests => flat_map snd tests
  | None => []
  end.

End Aggregator.

(** ** Device, service and model selection *)

Module Selection.
Import CommandExecutor.

Record Gpu : Type := mkGpu { g_index : Z; g_name : string }.

(** [detect_gpus], given what [run_cmd] returned for the nvidia-smi
    query: one GPU per line of the form [index, name] whose index is an
    integer. *)
Definition gpu_of_line (line : string) : list Gpu :=
  match PyStr.split1 Telemetry.comma line with
  | [a; b] =>
      match PyStr.int_of_str (PyStr.strip a) with
      | Some idx => [mkGpu idx (PyStr.strip b)]
      | None => []
      end
  | _ => []
  end.

Definition detect_gpus (r : CmdResult) : list Gpu :=
  match res_stdout r with
  | Some out =>
      if PyStr.truthy out then flat_map gpu_of_line (PyStr.splitlines out) else []
  | None => []
  end.

Definition all_gpu_indices (gpus : list Gpu) : string :=
  PyStr.join "," (map (fun g => PyStr.str_of_Z (g_index g)) gpus).

(** [choose_gpu_mode_interactive]; [input1] and [input2] are the lines
    typed at the two prompts (the second is read for choice 3 only).
    [None] is CPU only, otherwise the value for CUDA_VISIBLE_DEVICES. *)
Definition choose_gpu_mode_interactive (gpus : list Gpu) (input1 input2 : string)
  : option string :=
  match gpus with
  | [] => None
  | _ =>
      let sel := PyStr.strip input1 in
      if String.eqb sel "1" then None
      else if String.eqb sel "2" then Some (all_gpu_indices gpus)
      else if String.eqb sel "3" then
        Some (PyStr.join ","
                (map PyStr.strip
                     (filter (fun p => PyStr.isdigit (PyStr.strip p))
                             (PyStr.split Telemetry.comma (PyStr.strip input2)))))
      else Some (all_gpu_indices gpus)
  end.

(** [l[idx]] with Python's negative indices; [None] is [IndexError]. *)
Definition py_index {A : Type} (l : list A) (idx : Z) : option A :=
  let n := Z.of_nat (List.length l) in
  if (0 <=? idx)%Z && (idx <? n)%Z then nth_error l (Z.to_nat idx)
  else if (- n <=? idx)%Z && (idx <? 0)%Z then nth_error l (Z.to_nat (idx + n))
  else None.

Definition default_host : string := "127.0.0.1:11434".

(** [choose_service_interactive]; [ports] holds, for each detected service
    in order, the port found in its OLLAMA_HOST setting (the result of
    [parse_service_file] and the port pattern), [input1] and [input2] are
    the lines typed at the two prompts. *)
Definition choose_service_interactive (ports : list (option string))
                                      (input1 input2 : string) : string :=
  let sel := PyStr.strip input1 in
  if String.eqb (PyStr.lower sel) "m" then PyStr.strip input2
  else if String.eqb (PyStr.lower sel) "d" || String.eqb sel EmptyString then default_host
  else
    match PyStr.int_of_str sel with
    | Some i =>
        match py_index ports (i - 1) with
        | Some chosen =>
            let port := match chosen with
                        | Some p => if PyStr.truthy p then p else "11434"
                        | None => "11434"
                        end in
            "127.0.0.1:" ++ port
        | None => default_host
        end
    | None => default_host
    end.

(** An installed model as [parse_ollama_list_with_host] returns it. *)
Record Model : Type := mkModel {
  m_name : string;
  m_id : string;
  m_size_mb : option Q;
  m_size_str : string
}.

(** [chosen.add(name)] on a set kept as a list without repetition. *)
Definition set_add (x : string) (chosen : list string) : list string :=
  if existsb (String.eqb x) chosen then chosen else (chosen ++ [x])%list.

(** [if 1 <= i <= len(models): chosen.add(models[i-1]["name"])]. *)
Definition add_index (models : list Model) (i : Z) (chosen : list string) : list string :=
  if (1 <=? i)%Z && (i <=? Z.of_nat (List.length models))%Z
  then match nth_error models (Z.to_nat (i - 1)) with
       | Some m => set_add (m_name m) chosen
       | None => chosen
       end
  else chosen.

(** [range(a, a + n)]. *)
Fixpoint range_from (a : Z) (n : nat) : list Z :=
  match n with
  | O => []
  | S n' => a :: range_from (a + 1) n'
  end.

(** One token of the answer: a range [a-b] or a single index; a token that
    is not made of integers adds nothing. *)
Definition add_token (models : list Model) (chosen : list string) (token : string)
  : list string :=
  let t := PyStr.strip token in
  if PyStr.contains "-" t then
    match PyStr.split1 (ascii_of_nat 45) t with
    | [a; b] =>
        match PyStr.int_of_str a, PyStr.int_of_str b with
        | Some a', Some b' =>
            fold_left (fun ch i => add_index models i ch)
                      (range_from a' (Z.to_nat (b' + 1 - a'))) chosen
        | _, _ => chosen
        end
    | _ => chosen
    end
  else
    match PyStr.int_of_str t with
    | Some i => add_index models i chosen
    | None => chosen
    end.

(** [choose_models_interactive]; [input1] is the line typed at the prompt.
    The result of the token branch is a Python set turned into a list: its
    members are modelled, in the order of their first selection, the order
    Python gives them is not. *)
Definition choose_models_interactive (models : list Model) (input1 : string)
  : list string :=
  match models with
  | [] => []
  | _ =>
      let sel := PyStr.strip input1 in
      if String.eqb (PyStr.lower sel) "a" then map m_name models
      else if String.eqb (PyStr.lower sel) "q" || String.eqb sel EmptyString then []
      else
        match fold_left (add_token models) (PyStr.split Telemetry.comma sel) [] with
        | [] => map m_name models
        | chosen => chosen
        end
  end.

(** [find_model_file_size]: the model directories in their fixed order,
    [None] for a directory that does not exist or cannot be listed, and for
    each blob its size in MB, [None] when [stat] fails.  The model name
    plays no part. *)
Fixpoint first_blob (blobs : list (option Q)) : option Q :=
  match blobs with
  | [] => None
  | Some size_mb :: _ => Some size_mb
  | None :: blobs' => first_blob blobs'
  end.

Fixpoint find_model_file_size (model_name : string)
                              (dirs : list (option (list (option Q)))) : option Q :=
  match dirs with
  | [] => None
  | None :: dirs' => find_model_file_size model_name dirs'
  | Some blobs :: dirs' =>
      match first_blob blobs with
      | Some size_mb => Some size_mb
      | None => find_model_file_size model_name dirs'
      end
  end.

(** [enrich_models_with_sizes]. *)
Definition enrich_model (dirs : list (option (list (option Q)))) (m : Model) : Model :=
  match m_size_mb m with
  | Some _ => m
  | None =>
      match find_model_file_size (m_name m) dirs with
      | Some size_mb =>
          if Qeq_bool size_mb 0 then m
          else mkModel (m_name m) (m_id m) (Some size_mb) (m_size_str m)
      | None => m
      end
  end.

Definition enrich_models_with_sizes (dirs : list (option (list (option Q))))
                                    (models : list Model) : list Model :=
  map (enrich_model dirs) models.

End Selection.

(** ** Test files on disk: [write_test_files] and [backup_if_exists] *)

Module TestFiles.

(** The test directory: file name to content. *)
Definition Dir : Type := list (string * string).

Definition backup_name (name ts : string) : string := "backup_" ++ name ++ "_" ++ ts.

(** [backup_if_exists] for a file; [ts] is the time stamp of the moment. *)
Definition backup_if_exists (ts name : string) (d : Dir) : Dir :=
  match Aggregator.dict_get d name with
  | Some content => Aggregator.dict_set d (backup_name name ts) content
  | None => d
  end.

(** The body of [for fname, content in language_content.items()]; [ts]
    gives the time stamp at which a file is backed up. *)
Definition write_one (ts : string -> string) (d : Dir) (entry : string * string) : Dir :=
  let '(fname, content) := entry in
  match Aggregator.dict_get d fname with
  | Some old =>
      if String.eqb (PyStr.strip old) (PyStr.strip content) then d
      else Aggregator.dict_set (backup_if_exists (ts fname) fname d) fname content
  | None => Aggregator.dict_set d fname content
  end.

(** [write_test_files]; [table] is TEST_FILES_CONTENT. *)
Definition write_test_files (table : list (string * list (string * string)))
                            (selected_language : string)
                            (ts : string -> string) (d : Dir) : Dir :=
  match Aggregator.dict_get table selected_language with
  | None => d
  | Some language_content => fold_left (write_one ts) language_content d
  end.

(** [TEST_DIR.glob("*.txt")]: the names that end in [.txt]. *)
Fixpoint ends_with (suffix s : string) : bool :=
  String.eqb s suffix
  || match s with
     | EmptyString => false
     | String _ s' => ends_with suffix s'
     end.

End TestFiles.

(** ** Sample inputs *)

Module Samples.
Import CommandExecutor Lifecycle.

(** A process that needs ten seconds. *)
Definition slow : Process := mkProcess "late" "" 0 10.

(** A process that answers [OK] after two seconds. *)
Definition ok_process : Process := mkProcess "OK" "" 0 2.

Definition ok_world : World := fun _ _ => ok_process.

(** Every command exits with status 1 after one second. *)
Definition failing_world : World := fun _ _ => mkProcess "" "pull failed" 1 1.

Definition t1 : TestFile := mkTestFile "phase1.txt" "first prompt".
Definition t2 : TestFile := mkTestFile "phase2.txt" "second prompt".

Definition env_of (w : World) : Env := mkEnv w None None "test_sets" [t2; t1].

Definition s0 : State := mkState 0 0 [] [].

(** The model answers every command at once, and [OK] after two seconds to
    the first prompt, but does not answer the second prompt in time. *)
Definition scenario_world : World :=
  fun _ req =>
    match req with
    | ReqArgv _ input =>
        if String.eqb input "second prompt"
        then mkProcess "never seen" "" 0 1000
        else mkProcess "OK" "" 0 2
    | ReqShell cmd =>
        if PyStr.contains "ollama ps" cmd then mkProcess "NAME" "" 0 0
        else mkProcess "done" "" 0 0
    end.

(** Telemetry: a device that answers every query, one whose utilization
    query raises, and one whose PCIe receive query raises. *)
Definition healthy : Telemetry.Device :=
  Telemetry.mkDevice (Some tt) (Some (Telemetry.mkUtil 45 12))
    (Some (Telemetry.mkMem 1073741824 8589934592)) (Some 55%Z)
    (Some 120500%Z) (Some 250000%Z) (Some 1500%Z) (Some 5000%Z) (Some 1500%Z)
    (Some 30%Z) (Some 2097152%Z) (Some 1048576%Z) (Some (7%Z, 100%Z)) (Some (3%Z, 100%Z)).

Definition util_fails : Telemetry.Device :=
  Telemetry.mkDevice (Some tt) None
    (Some (Telemetry.mkMem 1073741824 8589934592)) (Some 55%Z)
    (Some 120500%Z) (Some 250000%Z) (Some 1500%Z) (Some 5000%Z) (Some 1500%Z)
    (Some 30%Z) (Some 2097152%Z) (Some 1048576%Z) (Some (7%Z, 100%Z)) (Some (3%Z, 100%Z)).

Definition pcie_rx_fails : Telemetry.Device :=
  Telemetry.mkDevice (Some tt) (Some (Telemetry.mkUtil 45 12))
    (Some (Telemetry.mkMem 1073741824 8589934592)) (Some 55%Z)
    None (Some 250000%Z) (Some 1500%Z) (Some 5000%Z) (Some 1500%Z)
    (Some 30%Z) (Some 2097152%Z) None (Some (7%Z, 100%Z)) (Some (3%Z, 100%Z)).

(** One line of [nvidia-smi --query-gpu=... --format=csv,noheader,nounits]
    for device 0: 18 fields, in the order of the query. *)
Definition smi_line : string :=
  "2024/01/15 10:30:45.123, 0, 45, 12, 1024, 8192, 55, 120.50, 1500, 5000, 1500, 30, 3, 16, 0, 0, 0, 0".

Definition now_iso : string := "2024-01-15T10:30:45.200000".

(** Aggregator inputs.  A group whose only row has an unparseable
    timestamp. *)
Definition row_without_timestamp : string * Aggregator.CsvRow :=
  ("benchmark_results_A.csv", Aggregator.mkCsvRow None (Some "m1") (Some "t1.txt") (Some 2)).

(** A group with one well-formed row. *)
Definition row_ok : string * Aggregator.CsvRow :=
  ("benchmark_results_A.csv",
   Aggregator.mkCsvRow (Some 100) (Some "m1") (Some "t1.txt") (Some 2)).

(** A telemetry frame in which the memory utilization column comes before
    the GPU utilization column. *)
Definition shadowed_frame : Aggregator.Frame :=
  [ ("util_memory_pct", [Some 10]); ("util_gpu_pct", [Some 90]) ].

(** A frame with the leading columns of the primary header. *)
Definition primary_frame : Aggregator.Frame :=
  [ ("timestamp", [None; None]); ("gpu_index", [Some 0; Some 0]);
    ("util_gpu_pct", [Some 45; Some 55]); ("util_memory_pct", [Some 12; Some 14]);
    ("temp_C", [Some 55; Some 61]); ("power_W", [Some 120; Some 130]) ].

(** Two runs, each with one result row and a telemetry sink. *)
Definition file_a : Aggregator.ResultFile :=
  Aggregator.mkResultFile "benchmark_results_A.csv"
    (Some [Aggregator.mkCsvRow (Some 100) (Some "m1") (Some "t1.txt") (Some 2)])
    (Aggregator.Sink primary_frame).

Definition file_b : Aggregator.ResultFile :=
  Aggregator.mkResultFile "benchmark_results_B.csv"
    (Some [Aggregator.mkCsvRow (Some 900) (Some "m1") (Some "t1.txt") (Some 3)])
    (Aggregator.Sink primary_frame).

End Samples.

(** * Properties *)

Import CommandExecutor.

(** ** Command executor *)

Lemma run_cmd_completed_stdout :
  forall (q : Process) (timeout : option Q) (capture : bool),
    completes_within q (subprocess_timeout capture timeout) = true ->
    exists out err,
      run_cmd q timeout capture = (Some out, err, p_returncode q).
Proof.
  intros q timeout capture H.
  unfold run_cmd, subprocess_run.
  destruct capture; simpl in H.
  - rewrite H. eauto.
  - simpl. eauto.
Qed.

(** Without capture the timeout argument is not handed on: the call waits
    for the process and reports its exit status. *)
Lemma run_cmd_no_capture_ignores_timeout :
  forall (p : Process) (timeout : option Q),
    run_cmd p timeout false = (Some "", "", p_returncode p)
    /\ run_cmd_elapsed p timeout false = p_runtime p.
Proof.
  intros p timeout. split; reflexivity.
Qed.

(** The exit status and the error text alone do not tell a timeout from a
    process that exits with status 124 after printing TIMEOUT on its error
    stream; the missing standard output does. *)
Lemma run_cmd_status_124_not_reserved :
  let r := run_cmd (mkProcess "" "TIMEOUT" 124 1) (Some 5) true in
  res_rc r = res_rc timeout_outcome
  /\ res_stderr r = res_stderr timeout_outcome
  /\ res_stdout r = Some ""
  /\ r <> timeout_outcome.
Proof.
  cbv zeta. repeat split; try reflexivity. discriminate.
Qed.

(** C4. A command run under a timeout that does not complete within it makes
    [run_cmd] return (no exception leaves it) the outcome
    [(None, "TIMEOUT", 124)]; every call whose process completes, whatever
    its exit status, returns the process's status together with a standard
    output that is a string, so its outcome differs from the timeout
    outcome and a caller can tell the two apart. *)
Theorem run_cmd_timeout_is_distinguished :
  forall (p : Process) (timeout : option Q) (capture : bool) (t : Q),
    subprocess_timeout capture timeout = Some t ->
    completes_within p (Some t) = false ->
    run_cmd p timeout capture = timeout_outcome
    /\ forall (q : Process) (timeout' : option Q) (capture' : bool),
         completes_within q (subprocess_timeout capture' timeout') = true ->
         res_rc (run_cmd q timeout' capture') = p_returncode q
         /\ res_stdout (run_cmd q timeout' capture') <> None
         /\ run_cmd q timeout' capture' <> run_cmd p timeout capture.
Proof.
  intros p timeout capture t Ht Hlate.
  assert (Hp : run_cmd p timeout capture = timeout_outcome).
  { destruct capture; simpl in Ht; [| discriminate].
    subst timeout. unfold run_cmd, subprocess_run. rewrite Hlate. reflexivity. }
  split; [exact Hp |].
  intros q timeout' capture' Hq.
  destruct (run_cmd_completed_stdout q timeout' capture' Hq) as (out & err & E).
  rewrite E, Hp. unfold timeout_outcome, res_rc, res_stdout. simpl.
  repeat split; discriminate.
Qed.

Lemma run_cmd_timeout_is_distinguished_witness :
  run_cmd Samples.slow (Some 5) true = timeout_outcome
  /\ forall (q : Process) (timeout' : option Q) (capture' : bool),
       completes_within q (subprocess_timeout capture' timeout') = true ->
       res_rc (run_cmd q timeout' capture') = p_returncode q
       /\ res_stdout (run_cmd q timeout' capture') <> None
       /\ run_cmd q timeout' capture' <> run_cmd Samples.slow (Some 5) true.
Proof.
  apply (run_cmd_timeout_is_distinguished Samples.slow (Some 5) true 5);
    reflexivity.
Defined.

(** ** Run recorder: the row of one test invocation *)

Import Lifecycle.

Lemma take_length :
  forall (n : nat) (s : string),
    String.length (PyStr.take n s) = Nat.min n (String.length s).
Proof.
  induction n as [| n IH]; intros [| c s]; simpl; auto.
Qed.

(** The conditionals of the success row ([... if out else ...]) agree with
    the plain slice and length, the empty output being its own slice. *)
Lemma result_data_completed :
  forall (model : string) (tf : TestFile) (start duration : Q)
         (out err : string) (rc : Z),
    result_data model tf start duration (CompletedProcess out err rc)
    = mkResult start model (tf_name tf) duration (String.length out)
               (PyStr.take Config.MAX_OUTPUT_CHARS out).
Proof.
  intros. unfold result_data. destruct out; reflexivity.
Qed.

(** What one iteration of the test loop does to the state: one process is
    spawned, one row appended, then the inter-test pause. *)
Lemma run_test_unfold :
  forall (w : World) (host model : string) (tf : TestFile) (s : State),
    let p := w (spawned s) (test_request host model tf) in
    let tmo := Some Config.MAX_RESPONSE_TIME in
    let row := result_data model tf (now s) (now s + elapsed p tmo - now s)
                           (subprocess_run p tmo) in
    run_test w host model tf s
    = mkState (now s + elapsed p tmo + Config.TEST_WAIT)
              (S (spawned s))
              (trace s ++ [EvExec (test_request host model tf) tmo;
                           EvAppend row; EvSleep Config.TEST_WAIT])%list
              (results_csv s ++ [row])%list.
Proof.
  intros. unfold run_test, spawn, sleep, append_row. simpl.
  rewrite <- !app_assoc. reflexivity.
Qed.

(** C10. When a test invocation completes within the response bound, the
    row appended for it stores the output clipped to its first
    [MAX_OUTPUT_CHARS] = 5000 characters, while [output_chars] is the
    length of the whole output; so the stored text has
    [min 5000 output_chars] characters and is never longer than
    [output_chars] says. *)
Theorem success_row_clips_output_keeps_length :
  forall (w : World) (host model : string) (tf : TestFile) (s : State) (p : Process),
    p = w (spawned s) (test_request host model tf) ->
    completes_within p (Some Config.MAX_RESPONSE_TIME) = true ->
    exists row : ResultRecord,
      results_csv (run_test w host model tf s) = (results_csv s ++ [row])%list
      /\ r_model row = model
      /\ r_test_case row = tf_name tf
      /\ r_output row = PyStr.take 5000 (p_stdout p)
      /\ r_output_chars row = String.length (p_stdout p)
      /\ String.length (r_output row) = Nat.min 5000 (r_output_chars row)
      /\ (String.length (r_output row) <= r_output_chars row)%nat.
Proof.
  intros w host model tf s p Hp Hdone.
  rewrite run_test_unfold. cbv zeta. rewrite <- Hp.
  unfold subprocess_run. rewrite Hdone. rewrite result_data_completed.
  eexists. split; [reflexivity |].
  cbn [r_model r_test_case r_output r_output_chars results_csv].
  unfold Config.MAX_OUTPUT_CHARS.
  repeat split.
  - apply take_length.
  - rewrite take_length. apply Nat.le_min_r.
Qed.

Lemma success_row_clips_output_keeps_length_witness :
  exists row : ResultRecord,
    results_csv (run_test Samples.ok_world "127.0.0.1:11435" "m1" Samples.t1 Samples.s0)
    = (results_csv Samples.s0 ++ [row])%list
    /\ r_model row = "m1"
    /\ r_test_case row = tf_name Samples.t1
    /\ r_output row = PyStr.take 5000 (p_stdout Samples.ok_process)
    /\ r_output_chars row = String.length (p_stdout Samples.ok_process)
    /\ String.length (r_output row) = Nat.min 5000 (r_output_chars row)
    /\ (String.length (r_output row) <= r_output_chars row)%nat.
Proof.
  apply (success_row_clips_output_keeps_length
           Samples.ok_world "127.0.0.1:11435" "m1" Samples.t1 Samples.s0
           Samples.ok_process); reflexivity.
Defined.

(** ** Model lifecycle: warm-up *)

Lemma ollama_exec_unfold :
  forall (w : World) (cmd host : string) (timeout : option Q) (s : State),
    ollama_exec w cmd host timeout s
    = (run_cmd (w (spawned s) (ReqShell (ollama_exec_cmd cmd host))) timeout true,
       mkState (now s + elapsed (w (spawned s) (ReqShell (ollama_exec_cmd cmd host))) timeout)
               (S (spawned s))
               (trace s ++ [EvExec (ReqShell (ollama_exec_cmd cmd host)) timeout])%list
               (results_csv s)).
Proof. reflexivity. Qed.

Lemma ollama_exec_results_csv :
  forall (w : World) (cmd host : string) (timeout : option Q) (s : State),
    results_csv (snd (ollama_exec w cmd host timeout s)) = results_csv s.
Proof. reflexivity. Qed.

(** A failed pull costs one attempt: the ping is skipped and the loop goes
    on after the retry wait. *)
Lemma ping_loop_pull_failed :
  forall (n : nat) (w : World) (host model : string) (est : Z) (s : State),
    res_rc (fst (ollama_exec w (pull_cmd model) host (Some 300) s)) <> 0%Z ->
    ping_loop (S n) w host model est s
    = ping_loop n w host model est
        (sleep Config.PING_RETRY_WAIT (snd (ollama_exec w (pull_cmd model) host (Some 300) s))).
Proof.
  intros n w host model est s Hrc.
  cbn [ping_loop].
  destruct (ollama_exec w (pull_cmd model) host (Some 300) s) as [r s1] eqn:E.
  cbn [fst snd] in *.
  apply Z.eqb_neq in Hrc. rewrite Hrc. reflexivity.
Qed.

Lemma ping_loop_all_pulls_fail :
  forall (w : World) (host model : string) (est : Z),
    pull_always_fails w host model ->
    forall (n : nat) (s : State),
    exists s' : State,
      ping_loop n w host model est s = (false, s')
      /\ trace s'
         = (trace s
            ++ concat (repeat [pull_event host model; EvSleep Config.PING_RETRY_WAIT] n))%list
      /\ results_csv s' = results_csv s.
Proof.
  intros w host model est Hfail n.
  induction n as [| n IH]; intros s.
  - exists s. cbn [ping_loop repeat concat]. rewrite app_nil_r. auto.
  - rewrite ping_loop_pull_failed.
    + destruct (IH (sleep Config.PING_RETRY_WAIT
                      (snd (ollama_exec w (pull_cmd model) host (Some 300) s))))
        as (s' & E & Htr & Hcsv).
      exists s'. split; [exact E |]. split.
      * rewrite Htr. rewrite ollama_exec_unfold. cbn [snd sleep trace repeat concat].
        unfold pull_event. rewrite <- !app_assoc. reflexivity.
      * rewrite Hcsv. reflexivity.
    + rewrite ollama_exec_unfold. cbn [fst]. apply Hfail.
Qed.

(** C5. When every pull of a model exits with a non-zero status, the
    per-model sequence consists of exactly three pull attempts, each followed
    by the six-second retry wait, and one log line; no ping, no test
    invocation, no append to the results CSV.  The sequence returns with
    status [Failed] and the loop over the models goes on with the models
    that follow. *)
Theorem failed_pulls_skip_model :
  forall (e : Env) (host model : string) (s : State),
    pull_always_fails (world e) host model ->
    exists s' : State,
      model_lifecycle e host model s = (Failed, s')
      /\ trace s'
         = (trace s
            ++ [ pull_event host model; EvSleep 6;
                 pull_event host model; EvSleep 6;
                 pull_event host model; EvSleep 6;
                 EvLog ("Model " ++ model ++ " ping failed") ])%list
      /\ results_csv s' = results_csv s
      /\ forall rest : list string,
           run_models e host (model :: rest) s
           = ((model, Failed) :: fst (run_models e host rest s'),
              snd (run_models e host rest s')).
Proof.
  intros e host model s Hfail.
  destruct (ping_loop_all_pulls_fail (world e) host model
              (estimate_load_time_mb (model_size_mb e model)) Hfail
              Config.PING_RETRIES s) as (s1 & E & Htr & Hcsv).
  assert (L : model_lifecycle e host model s
              = (Failed, write_benchmark_log ("Model " ++ model ++ " ping failed") s1)).
  { unfold model_lifecycle. rewrite E. reflexivity. }
  exists (write_benchmark_log ("Model " ++ model ++ " ping failed") s1).
  split; [exact L |]. split; [| split].
  - cbn [write_benchmark_log trace]. rewrite Htr.
    unfold Config.PING_RETRIES, Config.PING_RETRY_WAIT.
    cbn [repeat concat app]. rewrite <- app_assoc. reflexivity.
  - cbn [write_benchmark_log results_csv]. exact Hcsv.
  - intros rest. cbn [run_models]. rewrite L.
    destruct (run_models e host rest _) as [sts s2]. reflexivity.
Qed.

Lemma failed_pulls_skip_model_witness :
  exists s' : State,
    model_lifecycle (Samples.env_of Samples.failing_world) "h" "m1" Samples.s0 = (Failed, s')
    /\ trace s'
       = (trace Samples.s0
          ++ [ pull_event "h" "m1"; EvSleep 6;
               pull_event "h" "m1"; EvSleep 6;
               pull_event "h" "m1"; EvSleep 6;
               EvLog ("Model " ++ "m1" ++ " ping failed") ])%list
    /\ results_csv s' = results_csv Samples.s0
    /\ forall rest : list string,
         run_models (Samples.env_of Samples.failing_world) "h" ("m1" :: rest) Samples.s0
         = (("m1", Failed) :: fst (run_models (Samples.env_of Samples.failing_world) "h" rest s'),
            snd (run_models (Samples.env_of Samples.failing_world) "h" rest s')).
Proof.
  apply (failed_pulls_skip_model (Samples.env_of Samples.failing_world) "h" "m1" Samples.s0).
  intros n. vm_compute. discriminate.
Defined.

(** ** Model lifecycle: the test loop and the rows of a run *)

Lemma ping_loop_results_csv :
  forall (n : nat) (w : World) (host model : string) (est : Z) (s : State),
    results_csv (snd (ping_loop n w host model est s)) = results_csv s.
Proof.
  induction n as [| n IH]; intros w host model est s; [reflexivity |].
  cbn [ping_loop]. rewrite ollama_exec_unfold.
  destruct (negb _).
  - rewrite IH. reflexivity.
  - rewrite ollama_exec_unfold.
    match goal with |- context [if ?c then _ else _] => destruct c end.
    + reflexivity.
    + rewrite IH. reflexivity.
Qed.

Lemma verify_stop_results_csv :
  forall (n : nat) (w : World) (host model : string) (s : State),
    results_csv (snd (verify_stop n w host model s)) = results_csv s.
Proof.
  induction n as [| n IH]; intros w host model s; [reflexivity |].
  cbn [verify_stop]. rewrite ollama_exec_unfold.
  destruct (negb _).
  - reflexivity.
  - rewrite IH. reflexivity.
Qed.

Lemma cooldown_results_csv :
  forall (n : nat) (s : State), results_csv (cooldown n s) = results_csv s.
Proof.
  induction n as [| n IH]; intros s; [reflexivity |].
  cbn [cooldown]. rewrite IH. reflexivity.
Qed.

(** The row appended by one iteration records that iteration's
    invocation. *)
Lemma run_test_records :
  forall (w : World) (host model : string) (tf : TestFile) (s : State),
    exists row : ResultRecord,
      results_csv (run_test w host model tf s) = (results_csv s ++ [row])%list
      /\ records_invocation w host model tf row.
Proof.
  intros w host model tf s.
  rewrite run_test_unfold. cbv zeta.
  eexists. split; [reflexivity |].
  exists (spawned s), (now s). cbv zeta.
  set (p := w (spawned s) (test_request host model tf)).
  unfold subprocess_run.
  destruct (completes_within p (Some Config.MAX_RESPONSE_TIME)) eqn:Hc.
  - rewrite result_data_completed.
    cbn [r_timestamp r_model r_test_case r_duration_s r_output r_output_chars].
    repeat split.
  - cbn [result_data r_timestamp r_model r_test_case r_duration_s r_output r_output_chars].
    repeat split.
    unfold elapsed. unfold completes_within in Hc. rewrite Hc. ring.
Qed.

Lemma test_loop_rows :
  forall (w : World) (host model : string) (tfs : list TestFile) (s : State),
    exists rows : list ResultRecord,
      results_csv (test_loop w host model tfs s) = (results_csv s ++ rows)%list
      /\ Forall2 (records_invocation w host model) tfs rows.
Proof.
  intros w host model tfs.
  induction tfs as [| tf tfs IH]; intros s.
  - exists []. cbn [test_loop]. rewrite app_nil_r. split; [reflexivity | constructor].
  - cbn [test_loop].
    destruct (run_test_records w host model tf s) as (row & Hrow & Hrec).
    destruct (IH (run_test w host model tf s)) as (rows & Hrows & Hall).
    exists (row :: rows). split.
    + rewrite Hrows, Hrow, <- app_assoc. reflexivity.
    + constructor; assumption.
Qed.

(** The rows one model adds to the results CSV. *)
Lemma model_lifecycle_block :
  forall (e : Env) (host model : string) (s : State),
    exists block : list ResultRecord,
      results_csv (snd (model_lifecycle e host model s)) = (results_csv s ++ block)%list
      /\ model_block e host (model, fst (model_lifecycle e host model s)) block.
Proof.
  intros e host model s.
  unfold model_lifecycle.
  pose proof (ping_loop_results_csv Config.PING_RETRIES (world e) host model
                (estimate_load_time_mb (model_size_mb e model)) s) as Hping.
  destruct (ping_loop _ _ _ _ _ s) as [ping_ok s1]. cbn [snd] in Hping.
  destruct ping_ok; cbn [negb].
  - destruct (sorted (test_dir e)) as [| tf tfs] eqn:Hs.
    + exists []. cbn [fst snd write_benchmark_log results_csv].
      rewrite app_nil_r. split; [exact Hping |].
      unfold model_block. cbn [fst snd]. rewrite Hs. constructor.
    + destruct (test_loop_rows (world e) host model (tf :: tfs) s1) as (rows & Hrows & Hall).
      exists rows.
      pose proof (ollama_exec_results_csv (world e) ("ollama stop " ++ model) host None
                    (test_loop (world e) host model (tf :: tfs) s1)) as Hstop.
      destruct (ollama_exec (world e) ("ollama stop " ++ model) host None _) as [r3 s3].
      pose proof (verify_stop_results_csv 6 (world e) host model s3) as Hver.
      destruct (verify_stop 6 (world e) host model s3) as [stopped s4].
      cbn [fst snd] in *. split.
      * rewrite cooldown_results_csv, Hver, Hstop, Hrows, Hping. reflexivity.
      * unfold model_block. cbn [fst snd]. rewrite Hs. exact Hall.
  - exists []. cbn [fst snd write_benchmark_log results_csv].
    rewrite app_nil_r. split; [exact Hping |]. reflexivity.
Qed.

(** The results CSV after the loop over the models: the blocks of the
    models, in the order of the model list. *)
Lemma run_models_blocks :
  forall (e : Env) (host : string) (models : list string) (s : State),
    exists blocks : list (list ResultRecord),
      results_csv (snd (run_models e host models s))
      = (results_csv s ++ concat blocks)%list
      /\ map fst (fst (run_models e host models s)) = models
      /\ Forall2 (model_block e host) (fst (run_models e host models s)) blocks.
Proof.
  intros e host models.
  induction models as [| model rest IH]; intros s.
  - exists []. cbn. rewrite app_nil_r. repeat split. constructor.
  - cbn [run_models].
    destruct (model_lifecycle_block e host model s) as (block & Hb & Hmb).
    destruct (model_lifecycle e host model s) as [st s1]. cbn [fst snd] in Hb, Hmb.
    destruct (IH s1) as (blocks & Hbs & Hfst & Hall).
    destruct (run_models e host rest s1) as [sts s2]. cbn [fst snd] in *.
    exists (block :: blocks). split; [| split].
    + rewrite Hbs, Hb. cbn [concat]. rewrite <- app_assoc. reflexivity.
    + cbn [map fst]. rewrite Hfst. reflexivity.
    + constructor; assumption.
Qed.

Lemma insert_by_name_perm :
  forall (f : TestFile) (l : list TestFile),
    Permutation (insert_by_name f l) (f :: l).
Proof.
  intros f l. induction l as [| g l IH]; cbn [insert_by_name].
  - apply Permutation_refl.
  - destruct (String.leb (tf_name f) (tf_name g)).
    + apply Permutation_refl.
    + eapply perm_trans; [apply perm_skip, IH | apply perm_swap].
Qed.

(** Sorting the test directory neither drops nor repeats a file. *)
Lemma sorted_perm :
  forall l : list TestFile, Permutation (sorted l) l.
Proof.
  induction l as [| f l IH]; cbn [sorted].
  - apply perm_nil.
  - eapply perm_trans; [apply insert_by_name_perm | apply perm_skip, IH].
Qed.

Lemma count_rows_app :
  forall (model test_case : string) (a b : list ResultRecord),
    count_rows model test_case (a ++ b)
    = (count_rows model test_case a + count_rows model test_case b)%nat.
Proof.
  intros. unfold count_rows. rewrite filter_app, length_app. reflexivity.
Qed.

Lemma count_rows_cons :
  forall (model test_case : string) (r : ResultRecord) (rows : list ResultRecord),
    count_rows model test_case (r :: rows)
    = ((if String.eqb (r_model r) model && String.eqb (r_test_case r) test_case
        then 1 else 0) + count_rows model test_case rows)%nat.
Proof.
  intros. unfold count_rows. cbn [filter].
  destruct (String.eqb (r_model r) model && String.eqb (r_test_case r) test_case);
    reflexivity.
Qed.

Lemma records_invocation_key :
  forall (w : World) (host model : string) (tf : TestFile) (r : ResultRecord),
    records_invocation w host model tf r ->
    r_model r = model /\ r_test_case r = tf_name tf.
Proof.
  intros w host model tf r (n & start & H). cbv zeta in H. tauto.
Qed.

(** In the rows of one model, a test case has one row when it is among the
    test files and none otherwise; other models have none. *)
Lemma block_count :
  forall (w : World) (host model : string) (tfs : list TestFile)
         (block : list ResultRecord),
    Forall2 (records_invocation w host model) tfs block ->
    (forall m t, m <> model -> count_rows m t block = 0%nat)
    /\ (NoDup (map tf_name tfs) ->
        forall t,
          (In t (map tf_name tfs) -> count_rows model t block = 1%nat)
          /\ (~ In t (map tf_name tfs) -> count_rows model t block = 0%nat)).
Proof.
  intros w host model tfs block H.
  induction H as [| tf r tfs block Hr _ IH].
  - split; [reflexivity |]. intros _ t. split; [intros [] | reflexivity].
  - destruct (records_invocation_key _ _ _ _ _ Hr) as [Hm Ht].
    destruct IH as [IHother IHsame]. split.
    + intros m t Hneq. rewrite count_rows_cons, Hm.
      apply not_eq_sym in Hneq. apply String.eqb_neq in Hneq. rewrite Hneq.
      cbn [andb]. rewrite IHother; [reflexivity |]. apply String.eqb_neq in Hneq.
      congruence.
    + intros Hnd t. cbn [map] in Hnd |- *. inversion Hnd as [| x xs Hnotin Hnd']; subst x xs.
      specialize (IHsame Hnd' t). destruct IHsame as [IHin IHout].
      rewrite count_rows_cons, Hm, Ht, String.eqb_refl. cbn [andb].
      destruct (String.eqb (tf_name tf) t) eqn:E.
      * apply String.eqb_eq in E. subst t. split; intros Hin.
        -- rewrite IHout; [reflexivity | exact Hnotin].
        -- exfalso. apply Hin. left. reflexivity.
      * apply String.eqb_neq in E. split; intros Hin.
        -- destruct Hin as [Heq | Hin]; [congruence |]. rewrite IHin; auto.
        -- rewrite IHout; [reflexivity |]. intros Hin'. apply Hin. right. exact Hin'.
Qed.

Lemma model_block_other :
  forall (e : Env) (host : string) (ms : string * ModelStatus)
         (block : list ResultRecord) (m t : string),
    model_block e host ms block -> m <> fst ms -> count_rows m t block = 0%nat.
Proof.
  intros e host [model st] block m t H Hneq. unfold model_block in H. cbn [fst snd] in *.
  destruct st; try (subst block; reflexivity);
    apply (proj1 (block_count _ _ _ _ _ H)); exact Hneq.
Qed.

Lemma blocks_count_absent :
  forall (e : Env) (host : string) (sts : list (string * ModelStatus))
         (blocks : list (list ResultRecord)) (m t : string),
    Forall2 (model_block e host) sts blocks ->
    ~ In m (map fst sts) ->
    count_rows m t (concat blocks) = 0%nat.
Proof.
  intros e host sts blocks m t H.
  induction H as [| ms b sts bs Hb _ IH]; intros Hnotin; [reflexivity |].
  cbn [concat]. rewrite count_rows_app. cbn [map] in Hnotin.
  rewrite (model_block_other e host ms b m t Hb).
  - apply IH. intros H. apply Hnotin. right. exact H.
  - intros H. apply Hnotin. left. symmetry. exact H.
Qed.

(** A model whose pull and ping answer passes warm-up at the first
    attempt, whatever happened before. *)
Lemma ping_loop_answered :
  forall (e : Env) (host model : string) (n : nat) (s : State),
    warm_up_answers e host model ->
    fst (ping_loop (S n) (world e) host model
           (estimate_load_time_mb (model_size_mb e model)) s) = true.
Proof.
  intros e host model n s H.
  cbn [ping_loop]. rewrite ollama_exec_unfold.
  destruct (H (spawned s)) as (Hpull & _). cbv zeta in Hpull.
  rewrite Hpull. cbn [Z.eqb negb]. rewrite ollama_exec_unfold.
  cbn [spawned].
  destruct (H (S (spawned s))) as (_ & Hrc & out & Hout & Hstrip). cbv zeta in Hrc, Hout.
  rewrite Hrc, Hout. cbn [Z.eqb andb].
  destruct out as [| c out]; [contradiction Hstrip; reflexivity |].
  cbn [PyStr.truthy andb].
  destruct (PyStr.strip (String c out)); [contradiction Hstrip; reflexivity |].
  reflexivity.
Qed.

Lemma model_lifecycle_answered :
  forall (e : Env) (host model : string) (s : State),
    warm_up_answers e host model ->
    fst (model_lifecycle e host model s) <> Failed.
Proof.
  intros e host model s H. unfold model_lifecycle.
  pose proof (ping_loop_answered e host model 2 s H) as Hp.
  unfold Config.PING_RETRIES.
  destruct (ping_loop 3 (world e) host model _ s) as [ok s1]. cbn [fst] in Hp. subst ok.
  cbn [negb]. destruct (sorted (test_dir e)); [discriminate |].
  destruct (ollama_exec _ _ _ _ _) as [r3 s3].
  destruct (verify_stop _ _ _ _ _) as [stopped s4]. discriminate.
Qed.

Lemma model_lifecycle_pulls_fail :
  forall (e : Env) (host model : string) (s : State),
    pull_always_fails (world e) host model ->
    fst (model_lifecycle e host model s) = Failed.
Proof.
  intros e host model s H. unfold model_lifecycle.
  destruct (ping_loop_all_pulls_fail (world e) host model
              (estimate_load_time_mb (model_size_mb e model)) H
              Config.PING_RETRIES s) as (s1 & E & _).
  rewrite E. reflexivity.
Qed.

(** Every status in the result of the loop over the models is the status
    of that model's sequence, started in some state. *)
Lemma run_models_status :
  forall (e : Env) (host : string) (models : list string) (s : State)
         (model : string) (st : ModelStatus),
    In (model, st) (fst (run_models e host models s)) ->
    exists s' : State, st = fst (model_lifecycle e host model s').
Proof.
  intros e host models. induction models as [| m rest IH]; intros s model st Hin.
  - destruct Hin.
  - cbn [run_models] in Hin.
    destruct (model_lifecycle e host m s) as [st1 s1] eqn:E.
    specialize (IH s1 model st).
    destruct (run_models e host rest s1) as [sts s2]. cbn [fst] in Hin, IH.
    destruct Hin as [Heq | Hin].
    + inversion Heq; subst. exists s. rewrite E. reflexivity.
    + apply IH. exact Hin.
Qed.

(** Among the blocks of distinct models, the rows of one model are those
    of its own block. *)
Lemma blocks_of_model :
  forall (e : Env) (host : string) (sts : list (string * ModelStatus))
         (blocks : list (list ResultRecord)),
    Forall2 (model_block e host) sts blocks ->
    NoDup (map fst sts) ->
    forall (model : string) (st : ModelStatus),
      In (model, st) sts ->
      exists block : list ResultRecord,
        model_block e host (model, st) block
        /\ (forall t, count_rows model t (concat blocks) = count_rows model t block)
        /\ (forall r, In r block -> In r (concat blocks)).
Proof.
  intros e host sts blocks H.
  induction H as [| ms b sts bs Hb Hall IH]; intros Hnd model st Hin; [destruct Hin |].
  cbn [map] in Hnd. inversion Hnd as [| x xs Hnotin Hnd']; subst x xs.
  destruct Hin as [Heq | Hin].
  - subst ms. cbn [fst] in Hnotin. exists b. split; [exact Hb |]. split.
    + intros t. cbn [concat]. rewrite count_rows_app.
      rewrite (blocks_count_absent e host sts bs model t Hall Hnotin). apply Nat.add_0_r.
    + intros r Hr. cbn [concat]. apply in_or_app. left. exact Hr.
  - destruct (IH Hnd' model st Hin) as (block & Hblock & Hcount & Hincl).
    exists block. split; [exact Hblock |]. split.
    + intros t. cbn [concat]. rewrite count_rows_app, Hcount.
      rewrite (model_block_other e host ms b model t Hb); [reflexivity |].
      intros Heq. apply Hnotin. rewrite <- Heq. apply (in_map fst _ _ Hin).
    + intros r Hr. cbn [concat]. apply in_or_app. right. apply Hincl. exact Hr.
Qed.

(** C1. The rows the loop over the models appends to the results CSV are
    the blocks of the models in order.  Warm-up is decided by what the pull
    and the ping answer: a model whose pull and ping answer passes it, a
    model whose pull always fails does not.  A model whose warm-up failed
    has no row at all.  A model that passed warm-up has, for every file of
    the test directory, exactly one row among the appended rows, and that
    row is the record of the invocation: the clipped output and its length
    when the process completed within 180 seconds, and output [TIMEOUT],
    [output_chars] 0 and the elapsed 180 seconds when it did not.  In
    particular every model whose pull and ping answer has exactly one row
    per test case.  (Models and file names are distinct.) *)
Theorem one_row_per_model_and_test_case :
  forall (e : Env) (host : string) (models : list string) (s : State),
    NoDup models ->
    NoDup (map tf_name (test_dir e)) ->
    exists blocks : list (list ResultRecord),
      results_csv (snd (run_models e host models s))
      = (results_csv s ++ concat blocks)%list
      /\ map fst (fst (run_models e host models s)) = models
      /\ Forall2 (model_block e host) (fst (run_models e host models s)) blocks
      /\ (forall (model : string) (st : ModelStatus),
            In (model, st) (fst (run_models e host models s)) ->
            (warm_up_answers e host model -> st <> Failed)
            /\ (pull_always_fails (world e) host model -> st = Failed)
            /\ (st = Failed ->
                forall t : string, count_rows model t (concat blocks) = 0%nat)
            /\ (st <> Failed ->
                forall tf : TestFile,
                  In tf (test_dir e) ->
                  count_rows model (tf_name tf) (concat blocks) = 1%nat
                  /\ exists r : ResultRecord,
                       In r (concat blocks)
                       /\ records_invocation (world e) host model tf r))
      /\ forall (model : string) (tf : TestFile),
           In model models ->
           warm_up_answers e host model ->
           In tf (test_dir e) ->
           count_rows model (tf_name tf) (concat blocks) = 1%nat
           /\ exists r : ResultRecord,
                In r (concat blocks)
                /\ records_invocation (world e) host model tf r.
Proof.
  intros e host models s Hmodels Hnames.
  destruct (run_models_blocks e host models s) as (blocks & Hcsv & Hfst & Hall).
  exists blocks. split; [exact Hcsv |]. split; [exact Hfst |]. split; [exact Hall |].
  assert (Hsorted : NoDup (map tf_name (sorted (test_dir e)))).
  { eapply Permutation_NoDup; [| exact Hnames].
    apply Permutation_map, Permutation_sym, sorted_perm. }
  assert (Hnd : NoDup (map fst (fst (run_models e host models s))))
    by (rewrite Hfst; exact Hmodels).
  assert (Hper : forall (model : string) (st : ModelStatus),
            In (model, st) (fst (run_models e host models s)) ->
            (warm_up_answers e host model -> st <> Failed)
            /\ (pull_always_fails (world e) host model -> st = Failed)
            /\ (st = Failed ->
                forall t : string, count_rows model t (concat blocks) = 0%nat)
            /\ (st <> Failed ->
                forall tf : TestFile,
                  In tf (test_dir e) ->
                  count_rows model (tf_name tf) (concat blocks) = 1%nat
                  /\ exists r : ResultRecord,
                       In r (concat blocks)
                       /\ records_invocation (world e) host model tf r)).
  { intros model st Hin.
    destruct (run_models_status e host models s model st Hin) as [s' Hst].
    destruct (blocks_of_model e host _ blocks Hall Hnd model st Hin)
      as (block & Hblock & Hcount & Hincl).
    unfold model_block in Hblock. cbn [fst snd] in Hblock.
    split; [| split; [| split]].
    - intros Hw. rewrite Hst. apply model_lifecycle_answered. exact Hw.
    - intros Hp. rewrite Hst. apply model_lifecycle_pulls_fail. exact Hp.
    - intros -> t. rewrite Hcount, Hblock. reflexivity.
    - intros Hne tf Htf.
      assert (HF : Forall2 (records_invocation (world e) host model)
                           (sorted (test_dir e)) block)
        by (destruct st; [congruence | exact Hblock | exact Hblock]).
      assert (Hin' : In tf (sorted (test_dir e)))
        by (eapply Permutation_in; [apply Permutation_sym, sorted_perm | exact Htf]).
      split.
      + rewrite Hcount.
        apply (proj2 (block_count _ _ _ _ _ HF) Hsorted (tf_name tf)).
        apply in_map. exact Hin'.
      + clear - HF Hin' Hincl.
        induction HF as [| tf0 r0 tfs0 b0 Hr0 _ IH0]; [destruct Hin' |].
        destruct Hin' as [-> | Hin'].
        * exists r0. split; [apply Hincl; left; reflexivity | exact Hr0].
        * apply IH0; [| exact Hin']. intros r Hr. apply Hincl. right. exact Hr. }
  split; [exact Hper |].
  intros model tf Hm Hw Htf.
  rewrite <- Hfst in Hm. apply in_map_iff in Hm. destruct Hm as ([m st] & Hmeq & Hin).
  cbn [fst] in Hmeq. subst m.
  destruct (Hper model st Hin) as (Hpass & _ & _ & Hrows).
  apply Hrows; [apply Hpass; exact Hw | exact Htf].
Qed.

Example scenario_two_test_cases :
  let r := run_models (Samples.env_of Samples.scenario_world) "h" ["m1"] Samples.s0 in
  fst r = [("m1", Done)]
  /\ map (fun x => (r_model x, r_test_case x, r_duration_s x, r_output_chars x, r_output x))
         (results_csv (snd r))
     = [ ("m1", "phase1.txt", 2, 2%nat, "OK");
         ("m1", "phase2.txt", 180, 0%nat, "TIMEOUT") ].
Proof. vm_compute. split; reflexivity. Qed.

Lemma one_row_per_model_and_test_case_witness :
  let e := Samples.env_of Samples.scenario_world in
  let rows := results_csv (snd (run_models e "h" ["m1"] Samples.s0)) in
  warm_up_answers e "h" "m1"
  /\ count_rows "m1" "phase1.txt" rows = 1%nat
  /\ count_rows "m1" "phase2.txt" rows = 1%nat
  /\ (exists r : ResultRecord,
        In r rows /\ records_invocation (world e) "h" "m1" Samples.t1 r)
  /\ (exists r : ResultRecord,
        In r rows /\ records_invocation (world e) "h" "m1" Samples.t2 r).
Proof.
  cbv zeta.
  assert (Hw : warm_up_answers (Samples.env_of Samples.scenario_world) "h" "m1").
  { intros n. cbv zeta. split; [reflexivity |]. split; [reflexivity |].
    exists "done". split; [reflexivity | discriminate]. }
  split; [exact Hw |].
  destruct (one_row_per_model_and_test_case
              (Samples.env_of Samples.scenario_world) "h" ["m1"] Samples.s0)
    as (blocks & Hcsv & _ & _ & _ & Hrows).
  - repeat constructor. simpl. tauto.
  - repeat constructor; simpl; intuition discriminate.
  - rewrite Hcsv. cbn [Samples.s0 results_csv app].
    destruct (Hrows "m1" Samples.t1 (or_introl eq_refl) Hw (or_intror (or_introl eq_refl)))
      as [H1 E1].
    destruct (Hrows "m1" Samples.t2 (or_introl eq_refl) Hw (or_introl eq_refl))
      as [H2 E2].
    split; [exact H1 |]. split; [exact H2 |]. split; [exact E1 | exact E2].
Defined.

(** ** Telemetry sampler: the primary backend *)

Import Telemetry.

Lemma collect_row_some_iff :
  forall (now : Q) (i : nat) (d : Device),
    (exists row, collect_row now i d = Some row)
    <-> (handle_by_index d <> None /\ utilization_rates d <> None
         /\ memory_info d <> None /\ temperature d <> None).
Proof.
  intros now i d. unfold collect_row.
  destruct (handle_by_index d), (utilization_rates d), (memory_info d), (temperature d);
    split;
    try (intros [row H]; discriminate);
    try (intros (H1 & H2 & H3 & H4); congruence).
  - intros _. repeat split; discriminate.
  - intros _.
    destruct (pcie_throughput_tx d), (pcie_throughput_rx d),
             (encoder_utilization d), (decoder_utilization d); eexists; reflexivity.
Qed.

Lemma collect_row_gpu_index :
  forall (now : Q) (i : nat) (d : Device) (row : Row),
    collect_row now i d = Some row -> gpu_index row = i.
Proof.
  intros now i d row. unfold collect_row.
  destruct (handle_by_index d), (utilization_rates d), (memory_info d), (temperature d);
    try discriminate.
  destruct (pcie_throughput_tx d), (pcie_throughput_rx d),
           (encoder_utilization d), (decoder_utilization d);
    intros H; inversion H; reflexivity.
Qed.

(** The devices before the first unreadable one each get a row; the tick
    goes on with the devices that follow them. *)
Lemma tick_from_readable_prefix :
  forall (now : nat -> Q) (before rest : list Device) (i : nat),
    Forall (fun b => handle_by_index b <> None /\ utilization_rates b <> None
                     /\ memory_info b <> None /\ temperature b <> None) before ->
    exists rows : list Row,
      map gpu_index rows = seq i (List.length before)
      /\ tick_from now i (before ++ rest)
         = ((rows ++ fst (tick_from now (i + List.length before) rest))%list,
            snd (tick_from now (i + List.length before) rest)).
Proof.
  intros now before rest. induction before as [| b before IH]; intros i H.
  - exists []. cbn [List.length seq map app]. rewrite Nat.add_0_r.
    split; [reflexivity |]. destruct (tick_from now i rest); reflexivity.
  - inversion H as [| x xs Hb Hrest]; subst.
    apply (collect_row_some_iff (now i) i b) in Hb. destruct Hb as [row Hrow].
    destruct (IH (S i) Hrest) as (rows & Hidx & Htick).
    exists (row :: rows). split.
    + cbn [map List.length seq]. rewrite Hidx, (collect_row_gpu_index _ _ _ _ Hrow).
      reflexivity.
    + cbn [app tick_from List.length]. rewrite Hrow, Htick, Nat.add_succ_r.
      reflexivity.
Qed.

(** C3 as the code has it.  In a sampling tick the devices are read in the
    order of their indices.  A device whose handle, utilization, memory
    and temperature queries succeed, as do those of every device before
    it, gets a row at its place.  In that row a failed power, power-limit,
    clock or fan-speed query leaves zero in its own field and nothing else
    changes; the two PCIe fields are zero as soon as either PCIe query
    fails, and the encoder and decoder fields are zero as soon as either
    of those two queries fails.  When the handle or one of the three basic
    metrics of a device cannot be read, the tick ends there: the rows of
    the devices before it are written, and neither the device nor any
    device after it gets a row in that tick. *)
Theorem guarded_metrics_zero_basic_metrics_required :
  forall (now : nat -> Q) (before after : list Device) (d : Device),
    Forall (fun b => handle_by_index b <> None /\ utilization_rates b <> None
                     /\ memory_info b <> None /\ temperature b <> None) before ->
    (handle_by_index d = None \/ utilization_rates d = None
     \/ memory_info d = None \/ temperature d = None ->
     exists rows : list Row,
       tick now (before ++ d :: after) = (rows, Some (List.length before))
       /\ map gpu_index rows = seq 0 (List.length before))
    /\ forall (util : Utilization) (mem : MemoryInfo) (temp : Z),
         handle_by_index d <> None ->
         utilization_rates d = Some util ->
         memory_info d = Some mem ->
         temperature d = Some temp ->
         exists row : Row,
           nth_error (fst (tick now (before ++ d :: after))) (List.length before) = Some row
           /\ timestamp row = now (List.length before)
           /\ gpu_index row = List.length before
           /\ util_gpu_pct row = gpu util /\ util_memory_pct row = memory util
           /\ mem_used_MiB row = (used mem / (1024 * 1024))%Z
           /\ mem_total_MiB row = (total mem / (1024 * 1024))%Z
           /\ mem_free_MiB row = ((total mem - used mem) / (1024 * 1024))%Z
           /\ temp_C row = temp
           /\ power_W row
              = match power_usage d with
                | Some mw => Float (inject_Z mw / 1000) | None => Int 0 end
           /\ power_limit_W row
              = match power_management_limit d with
                | Some mw => Float (inject_Z mw / 1000) | None => Int 0 end
           /\ clock_core_MHz row
              = match clock_graphics d with Some v => v | None => 0%Z end
           /\ clock_memory_MHz row
              = match clock_mem d with Some v => v | None => 0%Z end
           /\ clock_sm_MHz row
              = match clock_sm d with Some v => v | None => 0%Z end
           /\ fan_speed_pct row
              = match fan_speed d with Some v => v | None => 0%Z end
           /\ (pcie_tx_MBps row, pcie_rx_MBps row)
              = match pcie_throughput_tx d, pcie_throughput_rx d with
                | Some tx, Some rx =>
                    (Float (inject_Z tx / inject_Z (1024 * 1024)),
                     Float (inject_Z rx / inject_Z (1024 * 1024)))
                | _, _ => (Int 0, Int 0)
                end
           /\ (encoder_util_pct row, decoder_util_pct row)
              = match encoder_utilization d, decoder_utilization d with
                | Some enc, Some dec => (fst enc, fst dec)
                | _, _ => (0%Z, 0%Z)
                end.
Proof.
  intros now before after d Hbefore.
  destruct (tick_from_readable_prefix now before (d :: after) 0 Hbefore)
    as (rows & Hidx & Htick).
  cbn [Nat.add] in Htick. unfold tick. rewrite Htick. clear Htick.
  assert (Hlen : List.length rows = List.length before)
    by (rewrite <- (length_map gpu_index rows), Hidx; apply length_seq).
  cbn [tick_from]. split.
  - intros H.
    assert (E : collect_row (now (List.length before)) (List.length before) d = None).
    { unfold collect_row.
      destruct (handle_by_index d); [| reflexivity].
      destruct (utilization_rates d); [| reflexivity].
      destruct (memory_info d); [| reflexivity].
      destruct (temperature d); [| reflexivity].
      destruct H as [H | [H | [H | H]]]; discriminate. }
    rewrite E. cbn [fst snd]. rewrite app_nil_r.
    exists rows. split; [reflexivity | exact Hidx].
  - intros util mem temp Hh Hu Hm Ht. unfold collect_row.
    destruct (handle_by_index d); [| congruence].
    rewrite Hu, Hm, Ht.
    destruct (pcie_throughput_tx d), (pcie_throughput_rx d),
             (encoder_utilization d), (decoder_utilization d);
      destruct (tick_from now (S (List.length before)) after) as [rows' err];
      cbn [fst]; eexists;
      (split; [rewrite nth_error_app2, Hlen, Nat.sub_diag by (rewrite Hlen; apply Nat.le_refl);
               reflexivity |]);
      cbn -[Z.mul Z.div Qdiv inject_Z]; repeat split.
Qed.

Lemma guarded_metrics_zero_basic_metrics_required_witness :
  (exists rows : list Row,
     tick (fun _ => 0) [Samples.healthy; Samples.util_fails; Samples.healthy]
     = (rows, Some 1%nat)
     /\ map gpu_index rows = [0%nat])
  /\ (exists row : Row,
        nth_error (fst (tick (fun _ => 0)
                          [Samples.healthy; Samples.pcie_rx_fails; Samples.healthy])) 1
        = Some row
        /\ gpu_index row = 1%nat
        /\ temp_C row = 55%Z
        /\ power_W row = Int 0
        /\ fan_speed_pct row = 30%Z
        /\ pcie_tx_MBps row = Int 0
        /\ pcie_rx_MBps row = Int 0).
Proof.
  assert (Hbefore : Forall (fun b => handle_by_index b <> None /\ utilization_rates b <> None
                                     /\ memory_info b <> None /\ temperature b <> None)
                           [Samples.healthy]).
  { constructor; [| constructor]. repeat split; discriminate. }
  split.
  - exact (proj1 (guarded_metrics_zero_basic_metrics_required
                    (fun _ => 0) [Samples.healthy] [Samples.healthy] Samples.util_fails
                    Hbefore)
                 (or_intror (or_introl eq_refl))).
  - destruct (proj2 (guarded_metrics_zero_basic_metrics_required
                       (fun _ => 0) [Samples.healthy] [Samples.healthy]
                       Samples.pcie_rx_fails Hbefore)
                    (mkUtil 45 12) (mkMem 1073741824 8589934592) 55%Z)
      as (row & Hnth & _ & Hidx & _ & _ & _ & _ & _ & Htemp & Hpow & _ & _ & _ & _
          & Hfan & Hpcie & _).
    + discriminate.
    + reflexivity.
    + reflexivity.
    + reflexivity.
    + exists row. split; [exact Hnth |]. split; [exact Hidx |]. split; [exact Htemp |].
      split; [exact Hpow |]. split; [exact Hfan |].
      split; [exact (f_equal fst Hpcie) | exact (f_equal snd Hpcie)].
Defined.

(** The claim of C3 fails on the code: when the utilization query of a
    device raises while all its other queries answer, no row is written for
    it, and the tick ends there, before the healthy device that follows;
    and a PCIe receive failure also discards the transmit reading. *)
Lemma basic_metric_failure_writes_no_row :
  collect_row 0 0 Samples.util_fails = None
  /\ tick (fun _ => 0) [Samples.util_fails; Samples.healthy] = ([], Some 0%nat)
  /\ (exists row, collect_row 0 0 Samples.pcie_rx_fails = Some row
                  /\ pcie_throughput_tx Samples.pcie_rx_fails = Some 2097152%Z
                  /\ pcie_tx_MBps row = Int 0)
  /\ ~ (forall (now : Q) (i : nat) (d : Device),
          handle_by_index d <> None ->
          exists row, collect_row now i d = Some row).
Proof.
  split; [reflexivity |]. split; [reflexivity |]. split.
  - eexists. split; [reflexivity |]. split; reflexivity.
  - intros H. destruct (H 0 0%nat Samples.util_fails) as [row Hrow].
    + discriminate.
    + discriminate.
Qed.

(** When every device answers its handle and basic queries, the tick writes
    one row per device and logs no error. *)
Lemma tick_all_devices :
  forall (now : nat -> Q) (devs : list Device) (i : nat),
    Forall (fun d => handle_by_index d <> None /\ utilization_rates d <> None
                     /\ memory_info d <> None /\ temperature d <> None) devs ->
    exists rows : list Row,
      tick_from now i devs = (rows, None)
      /\ map gpu_index rows = seq i (List.length devs).
Proof.
  intros now devs. induction devs as [| d devs IH]; intros i H.
  - exists []. split; reflexivity.
  - inversion H as [| x xs Hd Hrest]; subst.
    apply (collect_row_some_iff (now i) i d) in Hd. destruct Hd as [row Hrow].
    destruct (IH (S i) Hrest) as (rows & Hrows & Hidx).
    exists (row :: rows). cbn [tick_from]. rewrite Hrow, Hrows. split; [reflexivity |].
    cbn [map List.length seq]. rewrite Hidx.
    rewrite (collect_row_gpu_index _ _ _ _ Hrow). reflexivity.
Qed.

(** A device whose handle or basic metrics cannot be read ends the tick:
    the rows of the devices before it are written, its own row and those of
    the devices after it are not. *)
Lemma tick_stops_at_unreadable_device :
  forall (now : nat -> Q) (before after : list Device) (d : Device) (i : nat),
    Forall (fun d => handle_by_index d <> None /\ utilization_rates d <> None
                     /\ memory_info d <> None /\ temperature d <> None) before ->
    collect_row (now (i + List.length before)%nat) (i + List.length before) d = None ->
    exists rows : list Row,
      tick_from now i (before ++ d :: after) = (rows, Some (i + List.length before)%nat)
      /\ List.length rows = List.length before.
Proof.
  intros now before after d. induction before as [| b before IH]; intros i H Hd.
  - cbn [List.length] in Hd. rewrite Nat.add_0_r in Hd.
    exists []. cbn [app tick_from List.length]. rewrite Hd, Nat.add_0_r.
    split; reflexivity.
  - inversion H as [| x xs Hb Hrest]; subst.
    apply (collect_row_some_iff (now i) i b) in Hb. destruct Hb as [row Hrow].
    cbn [List.length] in Hd. rewrite Nat.add_succ_r in Hd.
    destruct (IH (S i) Hrest Hd) as (rows & Hrows & Hlen).
    exists (row :: rows). cbn [app tick_from]. rewrite Hrow, Hrows.
    cbn [List.length]. rewrite Nat.add_succ_r, Hlen. split; reflexivity.
Qed.

(** ** Telemetry sampler: the nvidia-smi fallback *)

(** The header of the fallback sink names the queried fields in the order
    of the query (the device index under the name [gpu_index]). *)
Lemma fallback_header_follows_query :
  tl (tl fallback_fieldnames) = tl (tl query_fields)
  /\ List.length fallback_fieldnames = 18%nat
  /\ List.length query_fields = 18%nat.
Proof. repeat split. Qed.

(** For a line of exactly 18 fields, the cell written at column [k]
    (columns 1 to 16) is field [k + 1] of the line, and the last column is
    the constant [0]: every value sits one column to the left of its
    name. *)
Lemma fallback_cells_shifted :
  forall (now_iso : string) (i : nat) (parts : list string),
    List.length parts = 18%nat ->
    (forall k : nat, (1 <= k <= 16)%nat ->
       nth_error (fallback_cells now_iso i parts) k = nth_error parts (S k))
    /\ nth_error (fallback_cells now_iso i parts) 17 = Some "0"
    /\ nth_error (fallback_cells now_iso i parts) 0 = Some now_iso.
Proof.
  intros now_iso i parts Hlen.
  do 19 (destruct parts as [| ? parts]; try discriminate Hlen).
  split; [| split; reflexivity].
  intros k [Hlo Hhi].
  do 17 (destruct k as [| k]; [try lia; try reflexivity |]).
  lia.
Qed.

(** C2 on the code.  For a well-formed line of 18 fields the fallback tick
    writes one row of 18 cells, but the cell under [gpu_index] is the GPU
    utilization the tool printed, the cell under [utilization.gpu] is the
    memory utilization, the cell under [temperature.gpu] is the power draw,
    the cell under [power.draw] is the graphics clock, and the last column
    holds the constant [0]. *)
Theorem fallback_row_misaligned_with_header :
  let r := run_cmd (mkProcess Samples.smi_line "" 0 1) None true in
  let parts := PyStr.split comma Samples.smi_line in
  exists cells : list string,
    fallback_tick Samples.now_iso r = [cells]
    /\ List.length parts = 18%nat
    /\ List.length cells = List.length fallback_fieldnames
    /\ queried_value parts "index" = Some " 0"
    /\ cell_under fallback_fieldnames cells "gpu_index" = Some " 45"
    /\ queried_value parts "utilization.gpu" = Some " 45"
    /\ cell_under fallback_fieldnames cells "utilization.gpu" = Some " 12"
    /\ queried_value parts "temperature.gpu" = Some " 55"
    /\ cell_under fallback_fieldnames cells "temperature.gpu" = Some " 120.50"
    /\ queried_value parts "power.draw" = Some " 120.50"
    /\ cell_under fallback_fieldnames cells "power.draw" = Some " 1500"
    /\ queried_value parts "decoder.stats.averageFps" = Some " 0"
    /\ cell_under fallback_fieldnames cells "decoder.stats.averageFps" = Some "0".
Proof.
  cbv zeta. eexists. split; [vm_compute; reflexivity |].
  vm_compute. repeat split.
Qed.

(** ** Aggregator: sorted keys without repetition *)

Import Aggregator.

Section SortUniq.
Variable A : Type.
Variable cmp : A -> A -> comparison.
Hypothesis cmp_eq : forall x y : A, cmp x y = Eq <-> x = y.
Hypothesis cmp_antisym : forall x y : A, cmp x y = CompOpp (cmp y x).
Hypothesis cmp_trans : forall x y z : A, cmp x y = Lt -> cmp y z = Lt -> cmp x z = Lt.

Lemma insert_uniq_in :
  forall (x y : A) (l : list A),
    In y (insert_uniq cmp x l) <-> y = x \/ In y l.
Proof.
  intros x y l. induction l as [| z l IH]; cbn [insert_uniq].
  - cbn. intuition.
  - destruct (cmp x z) eqn:E.
    + apply cmp_eq in E. subst z. cbn. intuition.
    + cbn. intuition.
    + cbn [In]. rewrite IH. intuition.
Qed.

Lemma sort_uniq_in :
  forall (y : A) (l : list A), In y (sort_uniq cmp l) <-> In y l.
Proof.
  intros y l. induction l as [| x l IH]; cbn [sort_uniq fold_right].
  - reflexivity.
  - fold (sort_uniq cmp l). rewrite insert_uniq_in, IH. cbn. intuition.
Qed.

Lemma insert_uniq_sorted :
  forall (x : A) (l : list A),
    StronglySorted (fun a b => cmp a b = Lt) l ->
    StronglySorted (fun a b => cmp a b = Lt) (insert_uniq cmp x l).
Proof.
  intros x l H. induction H as [| z l Hs IH Hz]; cbn [insert_uniq].
  - repeat constructor.
  - destruct (cmp x z) eqn:E.
    + constructor; assumption.
    + constructor; [constructor; assumption |].
      constructor; [exact E |].
      rewrite Forall_forall in *. intros u Hu. eapply cmp_trans; [exact E | auto].
    + constructor; [exact IH |].
      rewrite Forall_forall in *. intros u Hu.
      apply insert_uniq_in in Hu. destruct Hu as [-> | Hu]; [| auto].
      rewrite cmp_antisym, E. reflexivity.
Qed.

Lemma sort_uniq_sorted :
  forall l : list A, StronglySorted (fun a b => cmp a b = Lt) (sort_uniq cmp l).
Proof.
  induction l as [| x l IH]; cbn [sort_uniq fold_right].
  - constructor.
  - apply insert_uniq_sorted. exact IH.
Qed.

Lemma sort_uniq_nodup :
  forall l : list A, NoDup (sort_uniq cmp l).
Proof.
  intros l. pose proof (sort_uniq_sorted l) as H.
  induction H as [| z l' Hs IH Hz]; constructor; [| exact IH].
  intros Hin. rewrite Forall_forall in Hz. specialize (Hz z Hin).
  assert (E : cmp z z = Eq) by (apply cmp_eq; reflexivity). congruence.
Qed.

End SortUniq.

Lemma string_compare_trans :
  forall x y z : string,
    String.compare x y = Lt -> String.compare y z = Lt -> String.compare x z = Lt.
Proof.
  intros x y z H1 H2.
  apply String_as_OT.cmp_lt in H1. apply String_as_OT.cmp_lt in H2.
  apply String_as_OT.cmp_lt. eapply String_as_OT.lt_trans; eassumption.
Qed.

Lemma string_compare_eq :
  forall x y : string, String.compare x y = Eq <-> x = y.
Proof. exact String_as_OT.cmp_eq. Qed.

Lemma string_compare_refl :
  forall x : string, String.compare x x = Eq.
Proof. intros x. apply string_compare_eq. reflexivity. Qed.

Lemma key_compare_eq :
  forall a b : Key, key_compare a b = Eq <-> a = b.
Proof.
  intros [[ra ta] ma] [[rb tb] mb]. unfold key_compare. split.
  - destruct (String.compare ra rb) eqn:E1; try discriminate.
    destruct (String.compare ta tb) eqn:E2; try discriminate.
    intros E3.
    apply string_compare_eq in E1, E2, E3. congruence.
  - intros H. inversion H; subst.
    rewrite !string_compare_refl. reflexivity.
Qed.

Lemma key_compare_antisym :
  forall a b : Key, key_compare a b = CompOpp (key_compare b a).
Proof.
  intros [[ra ta] ma] [[rb tb] mb]. unfold key_compare.
  rewrite (String.compare_antisym ra rb), (String.compare_antisym ta tb),
          (String.compare_antisym ma mb).
  destruct (String.compare rb ra), (String.compare tb ta), (String.compare mb ma);
    reflexivity.
Qed.

Lemma key_compare_trans :
  forall a b c : Key,
    key_compare a b = Lt -> key_compare b c = Lt -> key_compare a c = Lt.
Proof.
  intros [[ra ta] ma] [[rb tb] mb] [[rc tc] mc]. unfold key_compare.
  destruct (String.compare ra rb) eqn:A1; try discriminate;
    destruct (String.compare rb rc) eqn:B1; try discriminate;
    try (apply string_compare_eq in A1; subst rb);
    try (apply string_compare_eq in B1; subst rc);
    try rewrite A1; try rewrite B1;
    try (rewrite (string_compare_trans _ _ _ A1 B1); reflexivity);
    try (intros; reflexivity).
  rewrite string_compare_refl.
  destruct (String.compare ta tb) eqn:A2; try discriminate;
    destruct (String.compare tb tc) eqn:B2; try discriminate;
    try (apply string_compare_eq in A2; subst tb);
    try (apply string_compare_eq in B2; subst tc);
    try rewrite A2; try rewrite B2;
    try (rewrite (string_compare_trans _ _ _ A2 B2); reflexivity);
    try (intros; reflexivity).
  rewrite string_compare_refl.
  apply string_compare_trans.
Qed.

(** ** Aggregator: group statistics *)

Lemma keys_of_in :
  forall (rows : list (string * CsvRow)) (k : Key),
    In k (keys_of rows) <-> exists r, In r rows /\ row_key r = Some k.
Proof.
  intros rows k. induction rows as [| r rows IH]; cbn [keys_of].
  - split; [intros [] | intros (r & [] & _)].
  - destruct (row_key r) as [k' |] eqn:E.
    + cbn [In]. rewrite IH. split.
      * intros [Heq | (r' & Hin & Hk)].
        -- exists r. split; [left; reflexivity | congruence].
        -- exists r'. split; [right; exact Hin | exact Hk].
      * intros (r' & [Heq | Hin] & Hk).
        -- left. congruence.
        -- right. exists r'. split; assumption.
    + rewrite IH. split.
      * intros (r' & Hin & Hk). exists r'. split; [right; exact Hin | exact Hk].
      * intros (r' & [Heq | Hin] & Hk).
        -- congruence.
        -- exists r'. split; assumption.
Qed.

Lemma a_key_agg_group :
  forall (rows : list (string * CsvRow)) (k : Key), a_key (agg_group rows k) = k.
Proof. intros rows [[r t] m]. reflexivity. Qed.

Lemma agg_keys :
  forall rows : list (string * CsvRow),
    map a_key (agg rows) = sort_uniq key_compare (keys_of rows).
Proof.
  intros rows. unfold agg. rewrite map_map.
  erewrite map_ext; [apply map_id |]. intros k. apply a_key_agg_group.
Qed.

Lemma count_notna_all :
  forall l : list (option Q),
    (forall x, In x l -> x <> None) -> count_notna l = List.length l.
Proof.
  unfold count_notna. induction l as [| [v |] l IH]; intros H; cbn.
  - reflexivity.
  - f_equal. apply IH. intros x Hx. apply H. right. exact Hx.
  - exfalso. apply (H None); [left |]; reflexivity.
Qed.

(** C8 as the code has it.  The aggregate has exactly one row per key that
    occurs in the result rows.  Its [duration_s] is the arithmetic mean of
    the group's durations (the cells that hold a number), and its [count] is
    the number of rows of the group whose timestamp parsed, which is the
    number of rows of the group when every timestamp parsed.  In particular
    a key with a single row, whose timestamp and duration are present,
    reports that row's duration and count 1. *)
Theorem agg_mean_and_timestamp_count :
  forall rows : list (string * CsvRow),
    NoDup (map a_key (agg rows))
    /\ (forall k : Key,
          In k (map a_key (agg rows)) <-> exists r, In r rows /\ row_key r = Some k)
    /\ (forall a : AggRow,
          In a (agg rows) ->
          let g := group (a_key a) rows in
          a_count a = List.length (dropna (map c_timestamp g))
          /\ ((forall r, In r g -> c_timestamp r <> None) -> a_count a = List.length g)
          /\ a_duration_s a
             = match dropna (map c_duration_s g) with
               | [] => None
               | vs => Some (Qsum vs / inject_Z (Z.of_nat (List.length vs)))
               end)
    /\ (forall (k : Key) (r : CsvRow) (ts d : Q),
          group k rows = [r] ->
          c_timestamp r = Some ts ->
          c_duration_s r = Some d ->
          exists a : AggRow,
            In a (agg rows) /\ a_key a = k /\ a_count a = 1%nat
            /\ exists d' : Q, a_duration_s a = Some d' /\ d' == d).
Proof.
  intros rows.
  assert (Hkeys : forall k, In k (map a_key (agg rows))
                            <-> exists r, In r rows /\ row_key r = Some k).
  { intros k. rewrite agg_keys.
    rewrite (sort_uniq_in Key key_compare key_compare_eq). apply keys_of_in. }
  assert (Hstat : forall a, In a (agg rows) ->
            a_count a = List.length (dropna (map c_timestamp (group (a_key a) rows)))
            /\ a_duration_s a = mean (map c_duration_s (group (a_key a) rows))).
  { intros a Ha. unfold agg in Ha. apply in_map_iff in Ha.
    destruct Ha as (k & <- & _). rewrite a_key_agg_group.
    destruct k as [[rf t] m]. split; reflexivity. }
  split; [| split; [exact Hkeys | split]].
  - rewrite agg_keys.
    apply (sort_uniq_nodup Key key_compare key_compare_eq key_compare_antisym
                           key_compare_trans).
  - intros a Ha. cbv zeta. destruct (Hstat a Ha) as [Hc Hd].
    split; [exact Hc |]. split.
    + intros Hall. rewrite Hc. fold (count_notna (map c_timestamp (group (a_key a) rows))).
      rewrite count_notna_all; [apply length_map |].
      intros x Hx. apply in_map_iff in Hx. destruct Hx as (r & <- & Hr). auto.
    + rewrite Hd. reflexivity.
  - intros k r ts d Hg Hts Hd.
    assert (Hin : In k (map a_key (agg rows))).
    { apply Hkeys. unfold group in Hg.
      assert (Hr : In r (map snd (filter
                 (fun r0 => match row_key r0 with
                            | Some k' => key_eqb k' k | None => false end) rows)))
        by (rewrite Hg; left; reflexivity).
      apply in_map_iff in Hr. destruct Hr as (r0 & _ & Hr0).
      apply filter_In in Hr0. destruct Hr0 as [Hr0 Hk].
      exists r0. split; [exact Hr0 |].
      destruct (row_key r0) as [k' |]; [| discriminate].
      unfold key_eqb in Hk. destruct (key_compare k' k) eqn:E; try discriminate.
      apply key_compare_eq in E. congruence. }
    apply in_map_iff in Hin. destruct Hin as (a & Hk & Ha).
    exists a. split; [exact Ha |]. split; [exact Hk |].
    destruct (Hstat a Ha) as [Hc Hm]. rewrite Hk, Hg in Hc, Hm.
    cbn [map] in Hc, Hm. rewrite Hts in Hc. rewrite Hd in Hm.
    split; [exact Hc |].
    eexists. split; [exact Hm |]. cbn. field.
Qed.

Lemma agg_mean_and_timestamp_count_witness :
  exists a : AggRow,
    In a (agg [Samples.row_ok])
    /\ a_key a = ("benchmark_results_A.csv", "t1.txt", "m1")
    /\ a_count a = 1%nat
    /\ exists d' : Q, a_duration_s a = Some d' /\ d' == 2.
Proof.
  apply (proj2 (proj2 (proj2 (agg_mean_and_timestamp_count [Samples.row_ok])))
           ("benchmark_results_A.csv", "t1.txt", "m1") (snd Samples.row_ok) 100 2);
    reflexivity.
Defined.

(** The claim of C8 fails on the code: a group whose only row has a
    timestamp that did not parse has one row and reports count 0. *)
Lemma count_skips_rows_without_timestamp :
  exists a : AggRow,
    agg [Samples.row_without_timestamp] = [a]
    /\ List.length (group (a_key a) [Samples.row_without_timestamp]) = 1%nat
    /\ a_count a = 0%nat
    /\ a_count a <> List.length (group (a_key a) [Samples.row_without_timestamp]).
Proof.
  eexists. split; [reflexivity |]. split; [reflexivity |]. split; [reflexivity |].
  discriminate.
Qed.

(** ** Aggregator: telemetry column resolution *)

Lemma find_first :
  forall (A : Type) (f : A -> bool) (l : list A) (x : A),
    find f l = Some x <->
    exists l1 l2, l = (l1 ++ x :: l2)%list /\ f x = true
                  /\ forall y, In y l1 -> f y = false.
Proof.
  intros A f l x. induction l as [| z l IH]; cbn [find].
  - split; [discriminate |]. intros (l1 & l2 & H & _). destruct l1; discriminate.
  - destruct (f z) eqn:E.
    + split.
      * intros H. inversion H; subst. exists [], l. repeat split; [assumption |].
        intros y [].
      * intros (l1 & l2 & H & Hx & Hno). destruct l1 as [| u l1].
        -- cbn in H. congruence.
        -- cbn in H. inversion H; subst. rewrite (Hno u) in E by (left; reflexivity).
           discriminate.
    + rewrite IH. split.
      * intros (l1 & l2 & -> & Hx & Hno). exists (z :: l1), l2. repeat split; [assumption |].
        intros y [<- | Hy]; auto.
      * intros (l1 & l2 & H & Hx & Hno). destruct l1 as [| u l1].
        -- cbn in H. inversion H; subst. congruence.
        -- cbn in H. inversion H; subst. exists l1, l2. repeat split; [assumption |].
           intros y Hy. apply Hno. right. exact Hy.
Qed.

Lemma find_none_iff :
  forall (A : Type) (f : A -> bool) (l : list A),
    find f l = None <-> forall y, In y l -> f y = false.
Proof.
  intros A f l. split.
  - intros H y Hy. exact (find_none f l H y Hy).
  - induction l as [| z l IH]; intros H; [reflexivity |].
    cbn [find]. rewrite (H z) by (left; reflexivity).
    apply IH. intros y Hy. apply H. right. exact Hy.
Qed.

(** [first_col_like] tries the candidates in order and, for the first
    candidate that some column matches, returns the first such column. *)
Lemma first_col_like_spec :
  forall (columns candidates : list string) (col : string),
    first_col_like columns candidates = Some col <->
    exists cands1 cand cands2 cols1 cols2,
      candidates = (cands1 ++ cand :: cands2)%list
      /\ columns = (cols1 ++ col :: cols2)%list
      /\ PyStr.contains cand (PyStr.lower col) = true
      /\ (forall c, In c cols1 -> PyStr.contains cand (PyStr.lower c) = false)
      /\ (forall cand' c, In cand' cands1 -> In c columns ->
                          PyStr.contains cand' (PyStr.lower c) = false).
Proof.
  intros columns candidates col.
  induction candidates as [| cand0 candidates IH]; cbn [first_col_like].
  - split; [discriminate |].
    intros (c1 & c & c2 & _ & _ & H & _). destruct c1; discriminate.
  - destruct (find (fun c => PyStr.contains cand0 (PyStr.lower c)) columns) as [c0 |] eqn:E.
    + split.
      * intros H. inversion H; subst c0.
        apply find_first in E. destruct E as (l1 & l2 & Hl & Hc & Hno).
        exists [], cand0, candidates, l1, l2. repeat split; try assumption.
        intros cand' c [].
      * intros (c1 & c & c2 & k1 & k2 & Hcands & Hcols & Hc & Hno & Hprev).
        destruct c1 as [| c1h c1].
        -- cbn in Hcands. inversion Hcands; subst c c2.
           assert (E' : find (fun c => PyStr.contains cand0 (PyStr.lower c)) columns
                        = Some col)
             by (apply find_first; exists k1, k2; auto).
           congruence.
        -- cbn in Hcands. inversion Hcands; subst c1h candidates.
           apply find_some in E. destruct E as [Hin Hm].
           rewrite (Hprev cand0 c0) in Hm; [discriminate | left; reflexivity | exact Hin].
    + rewrite IH. rewrite find_none_iff in E. split.
      * intros (c1 & c & c2 & k1 & k2 & Hcands & Hcols & Hc & Hno & Hprev).
        exists (cand0 :: c1), c, c2, k1, k2. subst candidates.
        repeat split; try assumption.
        intros cand' c' [<- | Hin] Hc'; [apply E; exact Hc' | apply Hprev; assumption].
      * intros (c1 & c & c2 & k1 & k2 & Hcands & Hcols & Hc & Hno & Hprev).
        destruct c1 as [| c1h c1].
        -- cbn in Hcands. inversion Hcands; subst c c2.
           rewrite (E col) in Hc; [discriminate |].
           rewrite Hcols. apply in_or_app. right. left. reflexivity.
        -- cbn in Hcands. inversion Hcands; subst c1h candidates.
           exists c1, c, c2, k1, k2. repeat split; try assumption.
           intros cand' c' Hin Hc'. apply Hprev; [right; exact Hin | exact Hc'].
Qed.

Lemma first_col_like_none :
  forall columns candidates : list string,
    first_col_like columns candidates = None <->
    forall cand c, In cand candidates -> In c columns ->
                   PyStr.contains cand (PyStr.lower c) = false.
Proof.
  intros columns candidates.
  induction candidates as [| cand0 candidates IH]; cbn [first_col_like].
  - split; [intros _ cand c [] | reflexivity].
  - destruct (find (fun c => PyStr.contains cand0 (PyStr.lower c)) columns) as [c0 |] eqn:E.
    + split; [discriminate |]. intros H.
      apply find_some in E. destruct E as [Hin Hm].
      rewrite (H cand0 c0) in Hm; [discriminate | left; reflexivity | exact Hin].
    + rewrite IH. rewrite find_none_iff in E. split.
      * intros H cand c [<- | Hin] Hc; [apply E; exact Hc | apply H; assumption].
      * intros H cand c Hin Hc. apply H; [right; exact Hin | exact Hc].
Qed.

Lemma contains_nonempty :
  forall (c : ascii) (needle hay : string),
    PyStr.contains (String c needle) hay = true -> PyStr.truthy hay = true.
Proof. intros c needle [| h hay] H; [discriminate | reflexivity]. Qed.

Lemma lower_truthy :
  forall s : string, PyStr.truthy (PyStr.lower s) = PyStr.truthy s.
Proof. intros [| c s]; reflexivity. Qed.

(** The aggregate of a telemetry frame for one key: when the head candidate
    [cand] matches the column [name] and no column before it, the key is
    computed from the cells of that column. *)
Lemma aggregate_first_matching_column :
  forall (c : ascii) (cand : string) (cands : list string)
         (f : list PyFloat -> PyFloat)
         (pre : Frame) (name : string) (cells : list PyFloat) (post : Frame),
    (forall col, In col pre -> PyStr.contains (String c cand) (PyStr.lower (fst col)) = false) ->
    PyStr.contains (String c cand) (PyStr.lower name) = true ->
    let tdf := (pre ++ (name, cells) :: post)%list in
    aggregate_col tdf (first_col_like (map fst tdf) (String c cand :: cands)) f
    = Some (f cells).
Proof.
  intros c cand cands f pre name cells post Hpre Hname tdf.
  assert (Hfind : find (fun col => PyStr.contains (String c cand) (PyStr.lower col))
                       (map fst tdf) = Some name).
  { apply find_first. exists (map fst pre), (map fst post). split; [| split].
    - unfold tdf. rewrite map_app. reflexivity.
    - exact Hname.
    - intros y Hy. apply in_map_iff in Hy. destruct Hy as (col & <- & Hcol). auto. }
  cbn [first_col_like]. rewrite Hfind. unfold aggregate_col.
  pose proof (contains_nonempty _ _ _ Hname) as Ht. rewrite lower_truthy in Ht. rewrite Ht.
  f_equal. f_equal. unfold tdf. clear Hfind tdf.
  induction pre as [| [n0 v0] pre IH]; cbn [app column].
  - rewrite String.eqb_refl. reflexivity.
  - destruct (String.eqb n0 name) eqn:E.
    + apply String.eqb_eq in E. subst n0.
      pose proof (Hpre (name, v0) (or_introl eq_refl)) as Hshadow.
      cbn [fst] in Hshadow. congruence.
    + apply IH. intros col Hcol. apply Hpre. right. exact Hcol.
Qed.

(** Both column spellings of the utilization column match the candidate
    [util] once lowercased. *)
Lemma utilization_names_match :
  PyStr.contains "util" (PyStr.lower "Utilization.GPU") = true
  /\ PyStr.contains "util" (PyStr.lower "util_gpu_pct") = true
  /\ PyStr.contains "util" (PyStr.lower "UTILIZATION.GPU") = true.
Proof. repeat split. Qed.

(** On the two headers the sampler writes, the three aggregates come from
    the GPU utilization, temperature and power draw columns. *)
Lemma resolution_on_sampler_headers :
  first_col_like Telemetry.fieldnames util_candidates = Some "util_gpu_pct"
  /\ first_col_like Telemetry.fieldnames temp_candidates = Some "temp_C"
  /\ first_col_like Telemetry.fieldnames power_candidates = Some "power_W"
  /\ first_col_like Telemetry.fallback_fieldnames util_candidates = Some "utilization.gpu"
  /\ first_col_like Telemetry.fallback_fieldnames temp_candidates = Some "temperature.gpu"
  /\ first_col_like Telemetry.fallback_fieldnames power_candidates = Some "power.draw".
Proof. repeat split. Qed.

(** C9 as the code has it.  [first_col_like] returns a column exactly when
    it is the first column, in sink order, whose lowercased name contains
    the first candidate, in priority order, that any column matches.  Hence
    a column whose lowercased name contains [util] (as [Utilization.GPU] and
    [util_gpu_pct] do, in any letter case) is the one averaged into
    [avg_util] provided no column before it contains [util]; likewise the
    first column containing [temp] gives [max_temp] and the first column
    containing [power] gives [avg_power]. *)
Theorem first_matching_column_is_aggregated :
  (forall (columns candidates : list string) (col : string),
     first_col_like columns candidates = Some col <->
     exists cands1 cand cands2 cols1 cols2,
       candidates = (cands1 ++ cand :: cands2)%list
       /\ columns = (cols1 ++ col :: cols2)%list
       /\ PyStr.contains cand (PyStr.lower col) = true
       /\ (forall c, In c cols1 -> PyStr.contains cand (PyStr.lower c) = false)
       /\ (forall cand' c, In cand' cands1 -> In c columns ->
                           PyStr.contains cand' (PyStr.lower c) = false))
  /\ (forall (pre : Frame) (name : string) (cells : list PyFloat) (post : Frame),
        (forall col, In col pre -> PyStr.contains "util" (PyStr.lower (fst col)) = false) ->
        PyStr.contains "util" (PyStr.lower name) = true ->
        avg_util (telemetry_aggregate (pre ++ (name, cells) :: post)%list) = Some (mean cells))
  /\ (forall (pre : Frame) (name : string) (cells : list PyFloat) (post : Frame),
        (forall col, In col pre -> PyStr.contains "temp" (PyStr.lower (fst col)) = false) ->
        PyStr.contains "temp" (PyStr.lower name) = true ->
        max_temp (telemetry_aggregate (pre ++ (name, cells) :: post)%list)
        = Some (max_skipna cells))
  /\ (forall (pre : Frame) (name : string) (cells : list PyFloat) (post : Frame),
        (forall col, In col pre -> PyStr.contains "power" (PyStr.lower (fst col)) = false) ->
        PyStr.contains "power" (PyStr.lower name) = true ->
        avg_power (telemetry_aggregate (pre ++ (name, cells) :: post)%list) = Some (mean cells))
  /\ PyStr.contains "util" (PyStr.lower "Utilization.GPU") = true
  /\ PyStr.contains "util" (PyStr.lower "util_gpu_pct") = true.
Proof.
  split; [exact first_col_like_spec |].
  split; [| split; [| split; [| split; reflexivity]]].
  - intros pre name cells post Hpre Hname.
    unfold telemetry_aggregate, util_candidates. cbn [avg_util].
    apply aggregate_first_matching_column; assumption.
  - intros pre name cells post Hpre Hname.
    unfold telemetry_aggregate, temp_candidates. cbn [max_temp].
    apply aggregate_first_matching_column; assumption.
  - intros pre name cells post Hpre Hname.
    unfold telemetry_aggregate, power_candidates. cbn [avg_power].
    apply aggregate_first_matching_column; assumption.
Qed.

Lemma first_matching_column_is_aggregated_witness :
  avg_util (telemetry_aggregate Samples.primary_frame) = Some (mean [Some 45; Some 55]).
Proof.
  apply (proj1 (proj2 first_matching_column_is_aggregated)
           [ ("timestamp", [None; None]); ("gpu_index", [Some 0; Some 0]) ]
           "util_gpu_pct" [Some 45; Some 55]
           [ ("util_memory_pct", [Some 12; Some 14]);
             ("temp_C", [Some 55; Some 61]); ("power_W", [Some 120; Some 130]) ]).
  - intros col [<- | [<- | []]]; reflexivity.
  - reflexivity.
Defined.

(** The claim of C9 fails on the code: in a sink that has the column
    [util_gpu_pct] after another column whose name contains [util], the
    aggregate [avg_util] is the mean of that earlier column, not of
    [util_gpu_pct]. *)
Lemma earlier_util_column_shadows_util_gpu_pct :
  In ("util_gpu_pct", [Some 90]) Samples.shadowed_frame
  /\ first_col_like (map fst Samples.shadowed_frame) util_candidates = Some "util_memory_pct"
  /\ avg_util (telemetry_aggregate Samples.shadowed_frame) = Some (mean [Some 10])
  /\ avg_util (telemetry_aggregate Samples.shadowed_frame) <> Some (mean [Some 90]).
Proof.
  split; [right; left; reflexivity |]. split; [reflexivity |]. split; [reflexivity |].
  vm_compute. discriminate.
Qed.

(** ** Aggregator: the payload *)

(** Entries built from the aggregate carry no telemetry key. *)
Lemma tests_of_run_no_telemetry :
  forall (ag : list AggRow) (run_file test_case : string)
         (ms : list ModelEntry) (m : ModelEntry),
    In (test_case, ms) (tests_of_run ag run_file) -> In m ms -> me_telemetry m = None.
Proof.
  intros ag run_file test_case ms m Ht Hm. unfold tests_of_run in Ht.
  apply in_map_iff in Ht. destruct Ht as (t & Heq & _). inversion Heq; subst.
  apply in_map_iff in Hm. destruct Hm as (a & <- & _). reflexivity.
Qed.

(** Whatever the input, in a written payload only the entries of the first
    run carry a telemetry field; the entries of every later run have
    none. *)
Lemma later_runs_lack_telemetry :
  forall (files : list ResultFile) (p : Payload),
    generate_master_dashboard files = Returns (Some p) ->
    (forall run_file tests test_case ms m,
       In (run_file, tests) (tl (runs p)) -> In (test_case, ms) tests -> In m ms ->
       me_telemetry m = None)
    /\ (forall run_file tests test_case ms m,
          hd_error (runs p) = Some (run_file, tests) ->
          In (test_case, ms) tests -> In m ms ->
          me_telemetry m = Some (attached (telemetry p) run_file)).
Proof.
  intros files p H. unfold generate_master_dashboard in H.
  destruct files as [| f files]; [discriminate |].
  destruct (frames (f :: files)); [discriminate |].
  destruct (payload_runs (agg (all_res (f :: files)))) as [| [run0 tests0] rest] eqn:E;
    [discriminate |].
  inversion H; subst p; clear H. cbn [runs telemetry tl hd_error]. split.
  - intros run_file tests test_case ms m Hin Ht Hm.
    assert (Hin' : In (run_file, tests) (payload_runs (agg (all_res (f :: files)))))
      by (rewrite E; right; exact Hin).
    unfold payload_runs in Hin'. apply in_map_iff in Hin'.
    destruct Hin' as (r & Heq & _). inversion Heq; subst.
    eapply tests_of_run_no_telemetry; eassumption.
  - intros run_file tests test_case ms m Hhd Ht Hm. inversion Hhd; subst.
    unfold attach in Ht. apply in_map_iff in Ht. destruct Ht as (t & Heq & _).
    inversion Heq; subst. apply in_map_iff in Hm. destruct Hm as (m0 & <- & _).
    reflexivity.
Qed.

(** C6 on the code.  With two runs A and B, each with a result row and a
    parsed telemetry sink, the written payload has the flat telemetry map
    for both runs and the telemetry aggregate in the entry of run A, but the
    entry of run B has no telemetry field at all, although the map holds an
    aggregate for B. *)
Theorem second_run_entries_have_no_telemetry :
  exists (p : Payload) (tel : TelemetryAgg) (ea eb : ModelEntry),
    generate_master_dashboard [Samples.file_a; Samples.file_b] = Returns (Some p)
    /\ map fst (runs p) = ["benchmark_results_A.csv"; "benchmark_results_B.csv"]
    /\ dict_get (telemetry p) "benchmark_results_A.csv" = Some (Some tel)
    /\ dict_get (telemetry p) "benchmark_results_B.csv" = Some (Some tel)
    /\ entries_of_run p "benchmark_results_A.csv" = [ea]
    /\ me_telemetry ea = Some (Some tel)
    /\ entries_of_run p "benchmark_results_B.csv" = [eb]
    /\ me_telemetry eb = None.
Proof.
  do 4 eexists. split; [vm_compute; reflexivity |].
  vm_compute. repeat split.
Qed.

(** * Further properties of the code *)

(** ** Model lifecycle: how many processes a model costs *)

Lemma ping_loop_spawned :
  forall (n : nat) (w : World) (host model : string) (est : Z) (s : State),
    (spawned s <= spawned (snd (ping_loop n w host model est s)) <= spawned s + 2 * n)%nat.
Proof.
  induction n as [| n IH]; intros w host model est s; [cbn; lia |].
  cbn [ping_loop]. rewrite ollama_exec_unfold.
  destruct (negb _).
  - match goal with |- context [ping_loop n w host model est ?s1] =>
      specialize (IH w host model est s1) end.
    cbn [sleep spawned] in IH |- *. lia.
  - rewrite ollama_exec_unfold.
    match goal with |- context [if ?c then _ else _] => destruct c end.
    + cbn [snd spawned]. lia.
    + match goal with |- context [ping_loop n w host model est ?s1] =>
        specialize (IH w host model est s1) end.
      cbn [sleep spawned] in IH |- *. lia.
Qed.

Lemma test_loop_spawned :
  forall (w : World) (host model : string) (tfs : list TestFile) (s : State),
    spawned (test_loop w host model tfs s) = (spawned s + List.length tfs)%nat.
Proof.
  intros w host model tfs. induction tfs as [| tf tfs IH]; intros s.
  - cbn. lia.
  - cbn [test_loop List.length]. rewrite IH, run_test_unfold. cbn [spawned]. lia.
Qed.

Lemma verify_stop_spawned :
  forall (n : nat) (w : World) (host model : string) (s : State),
    (spawned s <= spawned (snd (verify_stop n w host model s)) <= spawned s + n)%nat.
Proof.
  induction n as [| n IH]; intros w host model s; [cbn; lia |].
  cbn [verify_stop]. rewrite ollama_exec_unfold.
  destruct (negb _).
  - cbn [snd spawned sleep]. lia.
  - match goal with |- context [verify_stop n w host model ?s1] =>
      specialize (IH w host model s1) end.
    cbn [sleep spawned] in IH |- *. lia.
Qed.

Lemma cooldown_spawned :
  forall (n : nat) (s : State), spawned (cooldown n s) = spawned s.
Proof.
  induction n as [| n IH]; intros s; [reflexivity |].
  cbn [cooldown]. rewrite IH. reflexivity.
Qed.

(** X1. Whatever the commands answer, one model costs at most two
    processes per warm-up attempt (pull and ping, three attempts), one per
    test file, one stop request and six listings: retries and polls are
    bounded. *)
Theorem lifecycle_spawns_bounded :
  forall (e : Env) (host model : string) (s : State),
    (spawned s <= spawned (snd (model_lifecycle e host model s))
     <= spawned s + 2 * Config.PING_RETRIES + List.length (test_dir e) + 1 + 6)%nat.
Proof.
  intros e host model s. unfold model_lifecycle.
  pose proof (ping_loop_spawned Config.PING_RETRIES (world e) host model
                (estimate_load_time_mb (model_size_mb e model)) s) as Hping.
  destruct (ping_loop _ _ _ _ _ s) as [ping_ok s1]. cbn [snd] in Hping.
  destruct ping_ok; cbn [negb].
  - pose proof (Permutation_length (sorted_perm (test_dir e))) as Hlen.
    destruct (sorted (test_dir e)) as [| tf tfs] eqn:Hs.
    + cbn [snd write_benchmark_log spawned]. lia.
    + pose proof (test_loop_spawned (world e) host model (tf :: tfs) s1) as Htest.
      rewrite ollama_exec_unfold.
      match goal with |- context [verify_stop 6 ?w ?h ?m ?s3] =>
        pose proof (verify_stop_spawned 6 w h m s3) as Hver;
        destruct (verify_stop 6 w h m s3) as [stopped s4] end.
      cbn [snd spawned] in *. rewrite cooldown_spawned. lia.
  - cbn [snd write_benchmark_log spawned]. lia.
Qed.

(** X2. A listing of the active models that prints nothing, whatever its
    exit status, is taken as confirmation that the model has stopped: the
    poll ends after one wait of three seconds and one listing. *)
Theorem empty_listing_counts_as_stopped :
  forall (n : nat) (w : World) (host model : string) (s : State),
    PyStr.truthy model = true ->
    PyStr.strip (p_stdout (w (spawned s) (ReqShell (ollama_exec_cmd "ollama ps" host))))
    = EmptyString ->
    fst (verify_stop (S n) w host model s) = true
    /\ trace (snd (verify_stop (S n) w host model s))
       = (trace s ++ [EvSleep 3;
                      EvExec (ReqShell (ollama_exec_cmd "ollama ps" host)) None])%list.
Proof.
  intros n w host model s Hmodel Hempty.
  cbn [verify_stop]. rewrite ollama_exec_unfold. cbn [sleep spawned].
  unfold run_cmd, subprocess_run, completes_within. cbn [res_stdout fst].
  rewrite Hempty.
  assert (Hc : PyStr.contains model EmptyString = false)
    by (destruct model; [discriminate | reflexivity]).
  rewrite Hc. cbn [negb fst snd trace]. split; [reflexivity |].
  cbn [sleep trace]. rewrite <- app_assoc. reflexivity.
Qed.

Lemma empty_listing_counts_as_stopped_witness :
  fst (verify_stop 6 Samples.failing_world "h" "m1" Samples.s0) = true
  /\ trace (snd (verify_stop 6 Samples.failing_world "h" "m1" Samples.s0))
     = (trace Samples.s0
        ++ [EvSleep 3; EvExec (ReqShell (ollama_exec_cmd "ollama ps" "h")) None])%list.
Proof.
  apply (empty_listing_counts_as_stopped 5 Samples.failing_world "h" "m1" Samples.s0);
    reflexivity.
Defined.

(** ** Load-time estimate *)

Lemma py_int_floor :
  forall x : Q, 0 <= x -> Lifecycle.py_int x = Qfloor x.
Proof.
  intros [n d] Hx. unfold Lifecycle.py_int, Qfloor. cbn [Qnum Qden].
  apply Z.quot_div_nonneg; [| reflexivity].
  unfold Qle in Hx. cbn in Hx. lia.
Qed.

(** X3. The load-time estimate is 30 seconds for a model of unknown (or
    zero) size, is never below 15 seconds, and does not decrease when the
    size grows; so the ping timeout (estimate plus 30) is at least 45
    seconds. *)
Theorem estimate_load_time_bounds :
  estimate_load_time_mb None = 30%Z
  /\ (forall size_mb : option Q, (15 <= estimate_load_time_mb size_mb)%Z)
  /\ (forall a b : Q,
        0 < a -> a <= b ->
        (estimate_load_time_mb (Some a) <= estimate_load_time_mb (Some b))%Z).
Proof.
  split; [reflexivity |]. split.
  - intros [sz |]; cbn [estimate_load_time_mb]; [| lia].
    destruct (Qeq_bool sz 0); [lia | apply Z.le_max_l].
  - intros a b Ha Hab. cbn [estimate_load_time_mb].
    assert (Hb : 0 < b) by (eapply Qlt_le_trans; eassumption).
    assert (Ea : Qeq_bool a 0 = false).
    { destruct (Qeq_bool a 0) eqn:E; [| reflexivity].
      apply Qeq_bool_iff in E. rewrite E in Ha. exfalso. apply (Qlt_irrefl 0 Ha). }
    assert (Eb : Qeq_bool b 0 = false).
    { destruct (Qeq_bool b 0) eqn:E; [| reflexivity].
      apply Qeq_bool_iff in E. rewrite E in Hb. exfalso. apply (Qlt_irrefl 0 Hb). }
    rewrite Ea, Eb.
    apply Z.max_le_compat_l.
    rewrite !py_int_floor.
    + apply Qfloor_resp_le. unfold Qdiv.
      apply Qplus_le_r. apply Qmult_le_compat_r; [| discriminate].
      apply Qmult_le_compat_r; [exact Hab | discriminate].
    + unfold Qdiv. apply Qle_trans with (y := 10); [discriminate |].
      rewrite <- (Qplus_0_r 10) at 1. apply Qplus_le_r.
      apply Qmult_le_0_compat; [| discriminate].
      apply Qmult_le_0_compat; [apply Qlt_le_weak; exact Hb | discriminate].
    + unfold Qdiv. apply Qle_trans with (y := 10); [discriminate |].
      rewrite <- (Qplus_0_r 10) at 1. apply Qplus_le_r.
      apply Qmult_le_0_compat; [| discriminate].
      apply Qmult_le_0_compat; [apply Qlt_le_weak; exact Ha | discriminate].
Qed.

Lemma estimate_load_time_bounds_witness :
  (estimate_load_time_mb (Some 100%Q) <= estimate_load_time_mb (Some 4096%Q))%Z.
Proof.
  apply (proj2 (proj2 estimate_load_time_bounds) 100 4096); [reflexivity | discriminate].
Defined.

(** ** Telemetry sampler: what a tick writes *)



(** A string free of the separator. *)
Lemma split_free :
  forall (sep : ascii) (s : string),
    PyStr.all_chars (fun c => negb (Ascii.eqb c sep)) s = true ->
    PyStr.split sep s = [s].
Proof.
  intros sep s. induction s as [| c s IH]; cbn [PyStr.all_chars PyStr.split]; intros H.
  - reflexivity.
  - apply andb_true_iff in H. destruct H as [Hc Hs].
    apply negb_true_iff in Hc. rewrite Hc, (IH Hs). reflexivity.
Qed.

Lemma split_app_sep :
  forall (sep : ascii) (x rest : string),
    PyStr.all_chars (fun c => negb (Ascii.eqb c sep)) x = true ->
    PyStr.split sep (x ++ String sep rest) = x :: PyStr.split sep rest.
Proof.
  intros sep x rest. induction x as [| c x IH]; cbn [PyStr.all_chars String.append PyStr.split];
    intros H.
  - rewrite Ascii.eqb_refl. reflexivity.
  - apply andb_true_iff in H. destruct H as [Hc Hx].
    apply negb_true_iff in Hc. rewrite Hc, (IH Hx). reflexivity.
Qed.

(** The pieces [split] returns hold no separator. *)
Lemma split_pieces_free :
  forall (sep : ascii) (s : string),
    Forall (fun p => PyStr.all_chars (fun c => negb (Ascii.eqb c sep)) p = true)
           (PyStr.split sep s).
Proof.
  intros sep s. induction s as [| c s IH]; cbn [PyStr.split].
  - repeat constructor.
  - destruct (Ascii.eqb c sep) eqn:E.
    + constructor; [reflexivity | exact IH].
    + destruct (PyStr.split sep s) as [| w ws]; [repeat constructor; cbn; rewrite E; reflexivity |].
      inversion IH; subst. constructor; [| assumption].
      cbn [PyStr.all_chars]. rewrite E. cbn. assumption.
Qed.

(** Joining separator-free pieces and splitting again gives the pieces
    back. *)
Lemma split_join :
  forall (sep : ascii) (l : list string),
    l <> [] ->
    Forall (fun p => PyStr.all_chars (fun c => negb (Ascii.eqb c sep)) p = true) l ->
    PyStr.split sep (PyStr.join (String sep EmptyString) l) = l.
Proof.
  intros sep l Hne H. unfold PyStr.join.
  induction H as [| x l Hx Hl IH]; [congruence |].
  destruct l as [| y l].
  - cbn [String.concat]. apply split_free. exact Hx.
  - cbn [String.concat]. cbn [String.concat] in IH.
    change (String sep EmptyString ++ ?r) with (String sep r).
    rewrite split_app_sep by exact Hx.
    f_equal. apply IH. discriminate.
Qed.

Lemma part_or_free :
  forall (sep : ascii) (parts : list string) (k : nat) (default : string),
    Forall (fun p => PyStr.all_chars (fun c => negb (Ascii.eqb c sep)) p = true) parts ->
    PyStr.all_chars (fun c => negb (Ascii.eqb c sep)) default = true ->
    PyStr.all_chars (fun c => negb (Ascii.eqb c sep)) (part_or parts k default) = true.
Proof.
  intros sep parts k default Hparts Hd. unfold part_or.
  destruct (k <? List.length parts)%nat eqn:E; [| exact Hd].
  apply Nat.ltb_lt in E. rewrite Forall_forall in Hparts.
  apply Hparts. apply nth_In. exact E.
Qed.

(** X5. The text a fallback tick writes for an output line parses back, at
    the commas, into exactly the 18 cells it was built from: no cell can
    smuggle in a comma, because the cells are pieces of a line split at the
    commas (the time stamp holding none). *)
Theorem fallback_line_round_trip :
  forall (now_iso : string) (i : nat) (line : string),
    PyStr.all_chars (fun c => negb (Ascii.eqb c comma)) now_iso = true ->
    (18 <= List.length (PyStr.split comma line))%nat ->
    PyStr.split comma (fallback_line now_iso i (PyStr.split comma line))
    = fallback_cells now_iso i (PyStr.split comma line)
    /\ List.length (PyStr.split comma
                      (fallback_line now_iso i (PyStr.split comma line))) = 18%nat.
Proof.
  intros now_iso i line Hnow Hlen.
  pose proof (split_pieces_free comma line) as Hfree.
  assert (E : PyStr.split comma (fallback_line now_iso i (PyStr.split comma line))
              = fallback_cells now_iso i (PyStr.split comma line)).
  { unfold fallback_line. apply (split_join comma); [discriminate |].
    unfold fallback_cells.
    assert (H2 : (2 <? List.length (PyStr.split comma line))%nat = true)
      by (apply Nat.ltb_lt; lia).
    repeat (constructor; [first [exact Hnow | apply part_or_free; [exact Hfree | reflexivity]
                                | idtac] |]); try constructor.
    unfold part_or. rewrite H2.
    rewrite Forall_forall in Hfree. apply Hfree. apply nth_In. lia. }
  split; [exact E | rewrite E; reflexivity].
Qed.

Lemma fallback_line_round_trip_witness :
  PyStr.split comma (fallback_line Samples.now_iso 0 (PyStr.split comma Samples.smi_line))
  = fallback_cells Samples.now_iso 0 (PyStr.split comma Samples.smi_line)
  /\ List.length (PyStr.split comma
                    (fallback_line Samples.now_iso 0 (PyStr.split comma Samples.smi_line)))
     = 18%nat.
Proof.
  apply (fallback_line_round_trip Samples.now_iso 0 Samples.smi_line).
  - reflexivity.
  - vm_compute. lia.
Defined.

(** X6. The rows of a primary tick are those of the devices up to the first
    one whose handle or basic metrics cannot be read, in device order and
    without gaps: their indices are 0, 1, 2, ...; when no error is logged
    there is a row for every device, and the logged index is the number of
    rows written, the index of a device that has no row. *)
Theorem tick_rows_are_a_device_prefix :
  forall (now : nat -> Q) (devs : list Device),
    map gpu_index (fst (tick now devs)) = seq 0 (List.length (fst (tick now devs)))
    /\ (List.length (fst (tick now devs)) <= List.length devs)%nat
    /\ match snd (tick now devs) with
       | None => List.length (fst (tick now devs)) = List.length devs
       | Some i =>
           i = List.length (fst (tick now devs))
           /\ exists d, nth_error devs i = Some d /\ collect_row (now i) i d = None
       end.
Proof.
  intros now devs. unfold tick.
  assert (H : forall i,
             map gpu_index (fst (tick_from now i devs))
             = seq i (List.length (fst (tick_from now i devs)))
             /\ (List.length (fst (tick_from now i devs)) <= List.length devs)%nat
             /\ match snd (tick_from now i devs) with
                | None => List.length (fst (tick_from now i devs)) = List.length devs
                | Some j =>
                    j = (i + List.length (fst (tick_from now i devs)))%nat
                    /\ exists d, nth_error devs (j - i) = Some d
                                 /\ collect_row (now j) j d = None
                end).
  { induction devs as [| d devs IH]; intros i; cbn [tick_from].
    - cbn. repeat split; lia.
    - destruct (collect_row (now i) i d) as [row |] eqn:E.
      + specialize (IH (S i)).
        destruct (tick_from now (S i) devs) as [rows err]. cbn [fst snd] in *.
        destruct IH as (Hidx & Hlen & Herr).
        cbn [map List.length seq]. rewrite Hidx, (collect_row_gpu_index _ _ _ _ E).
        split; [reflexivity |]. split; [lia |].
        destruct err as [j |]; [| lia].
        destruct Herr as (Hj & d' & Hnth & Hd'). split; [lia |].
        exists d'. split; [| exact Hd'].
        replace (j - i)%nat with (S (j - S i)) by lia. exact Hnth.
      + cbn [fst snd map List.length seq]. split; [reflexivity |]. split; [lia |].
        split; [lia |]. exists d.
        rewrite Nat.sub_diag. split; [reflexivity | exact E]. }
  specialize (H 0%nat).
  destruct (tick_from now 0 devs) as [rows err]. cbn [fst snd] in *.
  destruct H as (Hidx & Hlen & Herr). split; [exact Hidx |]. split; [exact Hlen |].
  destruct err as [j |]; [| exact Herr].
  destruct Herr as (Hj & d & Hnth & Hd). rewrite Nat.sub_0_r in Hnth.
  split; [exact Hj | exists d; split; assumption].
Qed.

(** X7. In a row, the memory figures are whole MiB rounded down, the free
    figure being computed from total minus used: for a sane reading
    (0 <= used <= total) they are non-negative, used plus free never
    exceeds total, and falls short of it by at most one MiB. *)
Theorem memory_columns_add_up_within_one_MiB :
  forall (now : Q) (i : nat) (d : Device) (row : Row) (mem : MemoryInfo),
    collect_row now i d = Some row ->
    memory_info d = Some mem ->
    (0 <= used mem <= total mem)%Z ->
    (0 <= mem_used_MiB row)%Z /\ (0 <= mem_free_MiB row)%Z
    /\ (mem_used_MiB row + mem_free_MiB row <= mem_total_MiB row)%Z
    /\ (mem_total_MiB row <= mem_used_MiB row + mem_free_MiB row + 1)%Z.
Proof.
  intros now i d row mem Hrow Hmem Hrange. unfold collect_row in Hrow.
  rewrite Hmem in Hrow.
  destruct (handle_by_index d), (utilization_rates d), (temperature d); try discriminate.
  assert (Hfields : mem_used_MiB row = (used mem / MiB)%Z
                    /\ mem_total_MiB row = (total mem / MiB)%Z
                    /\ mem_free_MiB row = ((total mem - used mem) / MiB)%Z).
  { destruct (pcie_throughput_tx d), (pcie_throughput_rx d),
             (encoder_utilization d), (decoder_utilization d);
      inversion Hrow; repeat split. }
  destruct Hfields as (-> & -> & ->).
  unfold MiB. change (1024 * 1024)%Z with 1048576%Z.
  pose proof (Z.div_mod (used mem) 1048576 ltac:(lia)) as Hu.
  pose proof (Z.div_mod (total mem) 1048576 ltac:(lia)) as Ht.
  pose proof (Z.div_mod (total mem - used mem) 1048576 ltac:(lia)) as Hf.
  pose proof (Z.mod_pos_bound (used mem) 1048576 ltac:(lia)) as Bu.
  pose proof (Z.mod_pos_bound (total mem) 1048576 ltac:(lia)) as Bt.
  pose proof (Z.mod_pos_bound (total mem - used mem) 1048576 ltac:(lia)) as Bf.
  repeat split; lia.
Qed.

Lemma memory_columns_add_up_within_one_MiB_witness :
  exists row : Row,
    collect_row 0 0 Samples.healthy = Some row
    /\ (0 <= mem_used_MiB row)%Z /\ (0 <= mem_free_MiB row)%Z
    /\ (mem_used_MiB row + mem_free_MiB row <= mem_total_MiB row)%Z
    /\ (mem_total_MiB row <= mem_used_MiB row + mem_free_MiB row + 1)%Z.
Proof.
  eexists. split; [reflexivity |].
  eapply (memory_columns_add_up_within_one_MiB 0 0 Samples.healthy _
            (mkMem 1073741824 8589934592)); [reflexivity | reflexivity | cbn; lia].
Defined.

(** ** Aggregator: outcomes, payload structure and telemetry map *)

Lemma sort_uniq_nil_iff :
  forall (A : Type) (cmp : A -> A -> comparison) (l : list A),
    (forall x y : A, cmp x y = Eq <-> x = y) ->
    (sort_uniq cmp l = [] <-> l = []).
Proof.
  intros A cmp l Heq. split.
  - intros H. destruct l as [| x l]; [reflexivity |]. exfalso.
    assert (Hin : In x (sort_uniq cmp (x :: l)))
      by (apply (sort_uniq_in A cmp Heq); left; reflexivity).
    rewrite H in Hin. exact Hin.
  - intros ->. reflexivity.
Qed.

Lemma payload_runs_nil_iff :
  forall rows : list (string * CsvRow),
    payload_runs (agg rows) = [] <-> keys_of rows = [].
Proof.
  intros rows. unfold payload_runs, agg. split.
  - intros H. apply map_eq_nil in H.
    apply (proj1 (sort_uniq_nil_iff _ _ _ string_compare_eq)) in H.
    apply map_eq_nil in H. apply map_eq_nil in H.
    apply (proj1 (sort_uniq_nil_iff _ _ _ key_compare_eq)) in H. exact H.
  - intros H. rewrite H. reflexivity.
Qed.

Lemma frames_nil_iff :
  forall files : list ResultFile,
    frames files = [] <-> forall f, In f files -> rf_rows f = None.
Proof.
  intros files. unfold frames. induction files as [| f files IH]; cbn [flat_map].
  - split; [intros _ f [] | reflexivity].
  - destruct (rf_rows f) as [rows |] eqn:E; cbn [app].
    + split; [discriminate |]. intros H.
      specialize (H f (or_introl eq_refl)). congruence.
    + rewrite IH. split.
      * intros H g [<- | Hg]; [exact E | apply H; exact Hg].
      * intros H g Hg. apply H. right. exact Hg.
Qed.

(** X8. What a call of the dashboard generator does, case by case: it
    raises when no results file is readable (none found, or all
    unreadable); when some file is readable but no row has both a model and
    a test case (header-only files), it returns without raising and without
    writing a page; and as soon as one row has a key it writes a page whose
    payload has at least one run. *)
Theorem dashboard_outcomes :
  forall files : list ResultFile,
    ((forall f, In f files -> rf_rows f = None) ->
     exists msg, generate_master_dashboard files = Raises msg)
    /\ ((exists f, In f files /\ rf_rows f <> None) ->
        keys_of (all_res files) = [] ->
        generate_master_dashboard files = Returns None)
    /\ ((exists r, In r (all_res files) /\ row_key r <> None) ->
        exists p, generate_master_dashboard files = Returns (Some p)
                  /\ runs p <> []
                  /\ map fst (runs p) = map fst (payload_runs (agg (all_res files)))).
Proof.
  intros files. unfold generate_master_dashboard. split; [| split].
  - intros H. destruct files as [| f files]; [eexists; reflexivity |].
    apply frames_nil_iff in H. rewrite H. eexists. reflexivity.
  - intros (f & Hf & Hrows) Hkeys.
    destruct files as [| f0 files]; [destruct Hf |].
    destruct (frames (f0 :: files)) eqn:E.
    + exfalso. apply Hrows. apply (proj1 (frames_nil_iff (f0 :: files)) E f Hf).
    + apply payload_runs_nil_iff in Hkeys. rewrite Hkeys. reflexivity.
  - intros (r & Hr & Hk).
    assert (Hkeys : keys_of (all_res files) <> []).
    { destruct (row_key r) as [k |] eqn:Ek; [| congruence].
      intros Hnil.
      assert (Hin : In k (keys_of (all_res files)))
        by (apply keys_of_in; exists r; split; assumption).
      rewrite Hnil in Hin. exact Hin. }
    destruct files as [| f0 files]; [destruct Hr |].
    destruct (frames (f0 :: files)) eqn:E.
    + exfalso. unfold all_res in Hr. rewrite E in Hr. exact Hr.
    + destruct (payload_runs (agg (all_res (f0 :: files)))) as [| [run0 tests0] rest] eqn:Ep.
      * exfalso. apply Hkeys. apply payload_runs_nil_iff. exact Ep.
      * eexists. split; [reflexivity |]. cbn [runs map fst]. split; [discriminate | reflexivity].
Qed.

Lemma dashboard_outcomes_witness :
  generate_master_dashboard
    [mkResultFile "benchmark_results_A.csv" (Some []) NoSink] = Returns None.
Proof.
  apply (proj1 (proj2 (dashboard_outcomes
                         [mkResultFile "benchmark_results_A.csv" (Some []) NoSink]))).
  - eexists. split; [left; reflexivity | discriminate].
  - reflexivity.
Defined.

(** X9. The nested payload is a regrouping of the aggregate that neither
    loses nor invents anything: every aggregate row appears as an entry
    under its run and its test case, every entry under a run and test case
    comes from an aggregate row with that run and test case, no run has an
    empty test list and no test case an empty model list, and run names are
    not repeated. *)
Theorem payload_runs_regroups_aggregate :
  forall ag : list AggRow,
    (forall a, In a ag ->
       exists tests ms,
         In (a_run_file a, tests) (payload_runs ag)
         /\ In (a_test_case a, ms) tests
         /\ In (entry_of a) ms)
    /\ (forall run_file tests test_case ms m,
          In (run_file, tests) (payload_runs ag) ->
          In (test_case, ms) tests -> In m ms ->
          exists a, In a ag /\ a_run_file a = run_file
                    /\ a_test_case a = test_case /\ m = entry_of a)
    /\ (forall run_file tests,
          In (run_file, tests) (payload_runs ag) ->
          tests <> [] /\ forall test_case ms, In (test_case, ms) tests -> ms <> [])
    /\ NoDup (map fst (payload_runs ag)).
Proof.
  intros ag.
  assert (Hrun : forall run_file tests,
             In (run_file, tests) (payload_runs ag) ->
             tests = tests_of_run ag run_file
             /\ exists a, In a ag /\ a_run_file a = run_file).
  { intros run_file tests H. unfold payload_runs in H. apply in_map_iff in H.
    destruct H as (r & Heq & Hr). inversion Heq; subst. split; [reflexivity |].
    apply (proj1 (sort_uniq_in _ _ string_compare_eq _ _)) in Hr. apply in_map_iff in Hr.
    destruct Hr as (a & Ha & Hin). exists a. split; assumption. }
  assert (Htest : forall run_file test_case ms,
             In (test_case, ms) (tests_of_run ag run_file) ->
             ms = map entry_of
                    (filter (fun a => String.eqb (a_test_case a) test_case)
                            (filter (fun a => String.eqb (a_run_file a) run_file) ag))
             /\ exists a, In a ag /\ a_run_file a = run_file /\ a_test_case a = test_case).
  { intros run_file test_case ms H. unfold tests_of_run in H. apply in_map_iff in H.
    destruct H as (t & Heq & Ht). inversion Heq; subst. split; [reflexivity |].
    apply (proj1 (sort_uniq_in _ _ string_compare_eq _ _)) in Ht. apply in_map_iff in Ht.
    destruct Ht as (a & Ha & Hin). apply filter_In in Hin. destruct Hin as [Hin Hr].
    apply String.eqb_eq in Hr. exists a. repeat split; assumption. }
  split; [| split; [| split]].
  - intros a Ha.
    exists (tests_of_run ag (a_run_file a)).
    exists (map entry_of
              (filter (fun x => String.eqb (a_test_case x) (a_test_case a))
                      (filter (fun x => String.eqb (a_run_file x) (a_run_file a)) ag))).
    split; [| split].
    + unfold payload_runs. apply in_map_iff. exists (a_run_file a). split; [reflexivity |].
      apply (proj2 (sort_uniq_in _ _ string_compare_eq _ _)). apply in_map. exact Ha.
    + unfold tests_of_run. apply in_map_iff. exists (a_test_case a). split; [reflexivity |].
      apply (proj2 (sort_uniq_in _ _ string_compare_eq _ _)). apply in_map.
      apply filter_In. split; [exact Ha | apply String.eqb_refl].
    + apply in_map. apply filter_In. split; [| apply String.eqb_refl].
      apply filter_In. split; [exact Ha | apply String.eqb_refl].
  - intros run_file tests test_case ms m Hr Ht Hm.
    destruct (Hrun _ _ Hr) as [-> _].
    destruct (Htest _ _ _ Ht) as [-> _].
    apply in_map_iff in Hm. destruct Hm as (a & <- & Ha).
    apply filter_In in Ha. destruct Ha as [Ha Htc].
    apply filter_In in Ha. destruct Ha as [Ha Hrf].
    apply String.eqb_eq in Htc, Hrf. exists a. repeat split; assumption.
  - intros run_file tests Hr. destruct (Hrun _ _ Hr) as [-> (a & Ha & Hrf)]. split.
    + intros Hnil.
      assert (Hin : In (a_test_case a,
                        map entry_of
                          (filter (fun x => String.eqb (a_test_case x) (a_test_case a))
                                  (filter (fun x => String.eqb (a_run_file x) run_file) ag)))
                       (tests_of_run ag run_file)).
      { unfold tests_of_run. apply in_map_iff. exists (a_test_case a).
        split; [reflexivity |].
        apply (proj2 (sort_uniq_in _ _ string_compare_eq _ _)). apply in_map.
        apply filter_In. split; [exact Ha | apply String.eqb_eq; exact Hrf]. }
      rewrite Hnil in Hin. exact Hin.
    + intros test_case ms Ht. destruct (Htest _ _ _ Ht) as [-> (b & Hb & Hbr & Hbt)].
      intros Hnil. apply map_eq_nil in Hnil.
      assert (Hin : In b (filter (fun x => String.eqb (a_test_case x) test_case)
                                 (filter (fun x => String.eqb (a_run_file x) run_file) ag))).
      { apply filter_In. split; [| apply String.eqb_eq; exact Hbt].
        apply filter_In. split; [exact Hb | apply String.eqb_eq; exact Hbr]. }
      rewrite Hnil in Hin. exact Hin.
  - unfold payload_runs. rewrite map_map. cbn [fst]. rewrite map_id.
    apply (sort_uniq_nodup _ _ string_compare_eq String.compare_antisym
                           string_compare_trans).
Qed.

Lemma dict_get_set_same :
  forall (V : Type) (d : list (string * V)) (k : string) (v : V),
    dict_get (dict_set d k v) k = Some v.
Proof.
  intros V d k v. induction d as [| [k' v'] d IH]; cbn [dict_set dict_get].
  - rewrite String.eqb_refl. reflexivity.
  - destruct (String.eqb k' k) eqn:E; cbn [dict_get].
    + rewrite String.eqb_refl. reflexivity.
    + rewrite E. exact IH.
Qed.

Lemma dict_get_set_other :
  forall (V : Type) (d : list (string * V)) (k k' : string) (v : V),
    k' <> k -> dict_get (dict_set d k v) k' = dict_get d k'.
Proof.
  intros V d k k' v Hneq. induction d as [| [k0 v0] d IH]; cbn [dict_set dict_get].
  - destruct (String.eqb k k') eqn:E; [| reflexivity].
    apply String.eqb_eq in E. congruence.
  - destruct (String.eqb k0 k) eqn:E; cbn [dict_get].
    + apply String.eqb_eq in E. subst k0.
      destruct (String.eqb k k') eqn:E'; [| reflexivity].
      apply String.eqb_eq in E'. congruence.
    + destruct (String.eqb k0 k'); [reflexivity | exact IH].
Qed.

(** The value recorded for a results file in the flat telemetry map. *)
Lemma payload_telemetry_fold :
  forall (files : list ResultFile) (d : list (string * option TelemetryAgg)) (k : string),
    ~ In k (map rf_name files) ->
    dict_get
      (fold_left (fun d f =>
                    dict_set d (rf_name f)
                      match rf_sink f with
                      | Sink tdf => Some (telemetry_aggregate tdf)
                      | Unreadable => None
                      | NoSink => None
                      end) files d) k
    = dict_get d k.
Proof.
  induction files as [| f files IH]; intros d k Hk; cbn [fold_left]; [reflexivity |].
  cbn [map] in Hk. rewrite IH by (intros H; apply Hk; right; exact H).
  apply dict_get_set_other. intros H. apply Hk. left. symmetry. exact H.
Qed.

(** X10. The flat telemetry map has an entry for every results file found,
    readable or not: the aggregate of its telemetry file when that was
    read, and null when there is no telemetry file or it could not be read
    (file names being distinct, as in a directory). *)
Theorem telemetry_map_covers_every_file :
  forall (files : list ResultFile) (f : ResultFile),
    NoDup (map rf_name files) ->
    In f files ->
    dict_get (payload_telemetry files) (rf_name f)
    = Some match rf_sink f with
           | Sink tdf => Some (telemetry_aggregate tdf)
           | Unreadable => None
           | NoSink => None
           end.
Proof.
  intros files f Hnd Hin. unfold payload_telemetry.
  generalize (@nil (string * option TelemetryAgg)) as d.
  induction files as [| g files IH]; intros d; [destruct Hin |].
  cbn [map] in Hnd. inversion Hnd as [| x xs Hnotin Hnd']; subst.
  cbn [fold_left]. destruct Hin as [-> | Hin].
  - rewrite payload_telemetry_fold by exact Hnotin. apply dict_get_set_same.
  - apply IH; assumption.
Qed.

Lemma telemetry_map_covers_every_file_witness :
  dict_get (payload_telemetry [Samples.file_a; Samples.file_b]) (rf_name Samples.file_b)
  = Some match rf_sink Samples.file_b with
         | Sink tdf => Some (telemetry_aggregate tdf)
         | Unreadable => None
         | NoSink => None
         end.
Proof.
  apply (telemetry_map_covers_every_file [Samples.file_a; Samples.file_b] Samples.file_b).
  - repeat constructor; simpl; intuition discriminate.
  - right. left. reflexivity.
Defined.

(** X11. A telemetry file that was read but has no column whose lowercased
    name contains one of the candidates yields an aggregate without any key;
    such an aggregate is stored as it is in the flat map, but counts as
    absent when it is copied into the entries, which get null. *)
Theorem empty_aggregate_is_null_in_entries :
  forall tdf : Frame,
    (forall cand col,
       In cand (util_candidates ++ temp_candidates ++ power_candidates)%list ->
       In col (map fst tdf) ->
       PyStr.contains cand (PyStr.lower col) = false) ->
    telemetry_aggregate tdf = mkTelAgg None None None
    /\ forall (tel : list (string * option TelemetryAgg)) (run_file : string),
         dict_get tel run_file = Some (Some (telemetry_aggregate tdf)) ->
         attached tel run_file = None.
Proof.
  intros tdf H.
  assert (E : telemetry_aggregate tdf = mkTelAgg None None None).
  { unfold telemetry_aggregate.
    rewrite (proj2 (first_col_like_none (map fst tdf) util_candidates)).
    rewrite (proj2 (first_col_like_none (map fst tdf) temp_candidates)).
    rewrite (proj2 (first_col_like_none (map fst tdf) power_candidates)).
    - reflexivity.
    - intros cand c Hc Hin. apply H; [| exact Hin].
      apply in_or_app. right. apply in_or_app. right. exact Hc.
    - intros cand c Hc Hin. apply H; [| exact Hin].
      apply in_or_app. right. apply in_or_app. left. exact Hc.
    - intros cand c Hc Hin. apply H; [| exact Hin].
      apply in_or_app. left. exact Hc. }
  split; [exact E |].
  intros tel run_file Hget. unfold attached. rewrite Hget, E. reflexivity.
Qed.

Lemma empty_aggregate_is_null_in_entries_witness :
  telemetry_aggregate [("timestamp", [None]); ("gpu_index", [Some 0])]
  = mkTelAgg None None None.
Proof.
  refine (proj1 (empty_aggregate_is_null_in_entries
                   [("timestamp", [None]); ("gpu_index", [Some 0])] _)).
  intros cand col Hcand Hcol.
  cbn in Hcand, Hcol.
  repeat (destruct Hcand as [<- | Hcand]; [destruct Hcol as [<- | [<- | []]]; reflexivity |]).
  destruct Hcand.
Defined.

(** ** Aggregator: extreme values *)

Lemma Qmaxb_cases :
  forall a b : Q, (Qmaxb a b = a \/ Qmaxb a b = b) /\ a <= Qmaxb a b /\ b <= Qmaxb a b.
Proof.
  intros a b. unfold Qmaxb. destruct (Qle_bool a b) eqn:E.
  - apply Qle_bool_iff in E. repeat split; [right; reflexivity | exact E | apply Qle_refl].
  - assert (H : ~ a <= b) by (intros H; apply Qle_bool_iff in H; congruence).
    apply Qnot_le_lt, Qlt_le_weak in H.
    repeat split; [left; reflexivity | apply Qle_refl | exact H].
Qed.

Lemma Qminb_cases :
  forall a b : Q, (Qminb a b = a \/ Qminb a b = b) /\ Qminb a b <= a /\ Qminb a b <= b.
Proof.
  intros a b. unfold Qminb. destruct (Qle_bool a b) eqn:E.
  - apply Qle_bool_iff in E. repeat split; [left; reflexivity | apply Qle_refl | exact E].
  - assert (H : ~ a <= b) by (intros H; apply Qle_bool_iff in H; congruence).
    apply Qnot_le_lt, Qlt_le_weak in H.
    repeat split; [right; reflexivity | exact H | apply Qle_refl].
Qed.

Lemma fold_Qmaxb :
  forall (vs : list Q) (v : Q),
    (fold_left Qmaxb vs v = v \/ In (fold_left Qmaxb vs v) vs)
    /\ v <= fold_left Qmaxb vs v
    /\ forall x, In x vs -> x <= fold_left Qmaxb vs v.
Proof.
  induction vs as [| x vs IH]; intros v; cbn [fold_left].
  - repeat split; [left; reflexivity | apply Qle_refl | intros x []].
  - destruct (IH (Qmaxb v x)) as (Hin & Hle & Hall).
    destruct (Qmaxb_cases v x) as (Hc & Hv & Hx).
    split; [| split].
    + destruct Hin as [Hin | Hin]; [| right; right; exact Hin].
      rewrite Hin. destruct Hc as [-> | ->]; [left; reflexivity | right; left; reflexivity].
    + eapply Qle_trans; eassumption.
    + intros y [<- | Hy]; [eapply Qle_trans; eassumption | apply Hall; exact Hy].
Qed.

Lemma fold_Qminb :
  forall (vs : list Q) (v : Q),
    (fold_left Qminb vs v = v \/ In (fold_left Qminb vs v) vs)
    /\ fold_left Qminb vs v <= v
    /\ forall x, In x vs -> fold_left Qminb vs v <= x.
Proof.
  induction vs as [| x vs IH]; intros v; cbn [fold_left].
  - repeat split; [left; reflexivity | apply Qle_refl | intros x []].
  - destruct (IH (Qminb v x)) as (Hin & Hle & Hall).
    destruct (Qminb_cases v x) as (Hc & Hv & Hx).
    split; [| split].
    + destruct Hin as [Hin | Hin]; [| right; right; exact Hin].
      rewrite Hin. destruct Hc as [-> | ->]; [left; reflexivity | right; left; reflexivity].
    + eapply Qle_trans; eassumption.
    + intros y [<- | Hy]; [eapply Qle_trans; eassumption | apply Hall; exact Hy].
Qed.

(** X12. The maximum taken for [max_temp] and the minimum taken for a
    group's [start_time] skip the missing cells; each is NaN exactly when no
    cell holds a value, and otherwise is one of the values present and
    bounds all of them. *)
Theorem extremes_are_attained_bounds :
  forall l : list PyFloat,
    match max_skipna l with
    | None => dropna l = []
    | Some m => In m (dropna l) /\ forall v, In v (dropna l) -> v <= m
    end
    /\ match min_skipna l with
       | None => dropna l = []
       | Some m => In m (dropna l) /\ forall v, In v (dropna l) -> m <= v
       end.
Proof.
  intros l. unfold max_skipna, min_skipna.
  destruct (dropna l) as [| v vs]; [split; reflexivity |].
  destruct (fold_Qmaxb vs v) as (Hin & Hle & Hall).
  destruct (fold_Qminb vs v) as (Hin' & Hle' & Hall').
  split; split.
  - destruct Hin as [-> | Hin]; [left; reflexivity | right; exact Hin].
  - intros x [<- | Hx]; [exact Hle | apply Hall; exact Hx].
  - destruct Hin' as [-> | Hin']; [left; reflexivity | right; exact Hin'].
  - intros x [<- | Hx]; [exact Hle' | apply Hall'; exact Hx].
Qed.

(** ** Command executor: stripped output *)

Lemma rstrip_idempotent :
  forall s : string, PyStr.rstrip (PyStr.rstrip s) = PyStr.rstrip s.
Proof.
  induction s as [| c s IH]; [reflexivity |].
  cbn [PyStr.rstrip]. destruct (PyStr.rstrip s) as [| c' r] eqn:E.
  - destruct (PyStr.is_space c) eqn:Ec; [reflexivity |].
    cbn [PyStr.rstrip]. rewrite Ec. reflexivity.
  - cbn [PyStr.rstrip]. cbn [PyStr.rstrip] in IH. rewrite IH. reflexivity.
Qed.

Lemma lstrip_head :
  forall s : string,
    match PyStr.lstrip s with
    | EmptyString => True
    | String c _ => PyStr.is_space c = false
    end.
Proof.
  induction s as [| c s IH]; cbn [PyStr.lstrip]; [exact I |].
  destruct (PyStr.is_space c) eqn:E; [exact IH | exact E].
Qed.

Lemma rstrip_keeps_head :
  forall (c : ascii) (s : string),
    PyStr.is_space c = false ->
    exists r, PyStr.rstrip (String c s) = String c r.
Proof.
  intros c s Hc. cbn [PyStr.rstrip]. destruct (PyStr.rstrip s) as [| c' r].
  - rewrite Hc. eexists. reflexivity.
  - eexists. reflexivity.
Qed.

Lemma strip_head :
  forall s : string,
    match PyStr.strip s with
    | EmptyString => True
    | String c _ => PyStr.is_space c = false
    end.
Proof.
  intros s. unfold PyStr.strip. pose proof (lstrip_head s) as H.
  destruct (PyStr.lstrip s) as [| c t]; [exact I |].
  destruct (rstrip_keeps_head c t H) as [r ->]. exact H.
Qed.

Lemma strip_idempotent :
  forall s : string, PyStr.strip (PyStr.strip s) = PyStr.strip s.
Proof.
  intros s. pose proof (strip_head s) as H.
  unfold PyStr.strip at 1.
  destruct (PyStr.strip s) as [| c t] eqn:E; [reflexivity |].
  cbn [PyStr.lstrip]. rewrite H.
  rewrite <- E. unfold PyStr.strip. apply rstrip_idempotent.
Qed.

(** X13. In capture mode the output and error text [run_cmd] returns for a
    completed process are already stripped: stripping them again changes
    nothing and they do not begin with white space; so a caller's test
    [out and out.strip()] is the test [out] alone. *)
Theorem run_cmd_returns_stripped_text :
  forall (p : Process) (timeout : option Q) (out err : string) (rc : Z),
    run_cmd p timeout true = (Some out, err, rc) ->
    PyStr.strip out = out /\ PyStr.strip err = err
    /\ PyStr.truthy (PyStr.strip out) = PyStr.truthy out
    /\ match out with
       | EmptyString => True
       | String c _ => PyStr.is_space c = false
       end.
Proof.
  intros p timeout out err rc H. unfold run_cmd, subprocess_run in H.
  destruct (completes_within p timeout); [| discriminate].
  inversion H; subst.
  rewrite !strip_idempotent. repeat split. apply strip_head.
Qed.

Lemma run_cmd_returns_stripped_text_witness :
  PyStr.strip "OK" = "OK" /\ PyStr.strip EmptyString = EmptyString
  /\ PyStr.truthy (PyStr.strip "OK") = PyStr.truthy "OK"
  /\ PyStr.is_space "O" = false.
Proof.
  apply (run_cmd_returns_stripped_text Samples.ok_process (Some 5) "OK" EmptyString 0%Z).
  reflexivity.
Defined.

(** ** Run recorder: order of the rows of a model *)

Lemma leb_compare :
  forall a b : string, String.leb a b = true <-> String.compare a b <> Gt.
Proof.
  intros a b. unfold String.leb. destruct (String.compare a b); split; congruence.
Qed.

Lemma string_leb_trans :
  forall a b c : string,
    String.leb a b = true -> String.leb b c = true -> String.leb a c = true.
Proof.
  intros a b c Hab Hbc. apply leb_compare in Hab, Hbc. apply leb_compare.
  destruct (String.compare a b) eqn:E1; [| | congruence];
    destruct (String.compare b c) eqn:E2; try congruence.
  - apply string_compare_eq in E1, E2. subst.
    rewrite string_compare_refl. discriminate.
  - apply string_compare_eq in E1. subst. rewrite E2. discriminate.
  - apply string_compare_eq in E2. subst. rewrite E1. discriminate.
  - rewrite (string_compare_trans _ _ _ E1 E2). discriminate.
Qed.

Lemma insert_by_name_sorted :
  forall (f : TestFile) (l : list TestFile),
    StronglySorted (fun a b => String.leb (tf_name a) (tf_name b) = true) l ->
    StronglySorted (fun a b => String.leb (tf_name a) (tf_name b) = true)
                   (insert_by_name f l).
Proof.
  intros f l H. induction H as [| g l Hs IH Hg]; cbn [insert_by_name].
  - repeat constructor.
  - destruct (String.leb (tf_name f) (tf_name g)) eqn:E.
    + constructor; [constructor; assumption |].
      constructor; [exact E |].
      rewrite Forall_forall in *. intros x Hx.
      eapply string_leb_trans; [exact E | apply Hg; exact Hx].
    + constructor; [exact IH |].
      rewrite Forall_forall in *. intros x Hx.
      apply (Permutation_in _ (insert_by_name_perm f l)) in Hx.
      destruct Hx as [<- | Hx]; [| apply Hg; exact Hx].
      destruct (String.leb_total (tf_name f) (tf_name g)) as [H | H]; [congruence | exact H].
Qed.

Lemma sorted_is_sorted :
  forall l : list TestFile,
    StronglySorted (fun a b => String.leb (tf_name a) (tf_name b) = true) (sorted l).
Proof.
  induction l as [| f l IH]; cbn [sorted]; [constructor |].
  apply insert_by_name_sorted. exact IH.
Qed.

(** X14. A model that passed warm-up gets its rows in the order of the
    test file names: the test_case column of its block is the list of the
    file names in ascending order, each name once per file. *)
Theorem rows_follow_test_file_order :
  forall (e : Env) (host model : string) (s : State),
    fst (model_lifecycle e host model s) <> Failed ->
    exists block : list ResultRecord,
      results_csv (snd (model_lifecycle e host model s)) = (results_csv s ++ block)%list
      /\ map r_test_case block = map tf_name (sorted (test_dir e))
      /\ Permutation (map r_test_case block) (map tf_name (test_dir e))
      /\ StronglySorted (fun a b => String.leb a b = true) (map r_test_case block).
Proof.
  intros e host model s Hst.
  destruct (model_lifecycle_block e host model s) as (block & Hcsv & Hblock).
  exists block. split; [exact Hcsv |].
  assert (HF : Forall2 (records_invocation (world e) host model) (sorted (test_dir e)) block).
  { unfold model_block in Hblock. cbn [fst snd] in Hblock.
    destruct (fst (model_lifecycle e host model s)); [congruence | exact Hblock | exact Hblock]. }
  assert (E : map r_test_case block = map tf_name (sorted (test_dir e))).
  { clear - HF. induction HF as [| tf r tfs block Hr _ IH]; [reflexivity |].
    cbn [map]. rewrite IH. f_equal.
    apply (records_invocation_key _ _ _ _ _ Hr). }
  split; [exact E |]. rewrite E. split.
  - apply Permutation_map, sorted_perm.
  - pose proof (sorted_is_sorted (test_dir e)) as Hs. clear - Hs.
    induction Hs as [| f l Hs IH Hf]; cbn [map]; [constructor |].
    constructor; [exact IH |].
    rewrite Forall_forall in *. intros x Hx. apply in_map_iff in Hx.
    destruct Hx as (g & <- & Hg). apply Hf. exact Hg.
Qed.

Lemma rows_follow_test_file_order_witness :
  exists block : list ResultRecord,
    results_csv (snd (model_lifecycle (Samples.env_of Samples.scenario_world) "h" "m1"
                        Samples.s0))
    = (results_csv Samples.s0 ++ block)%list
    /\ map r_test_case block
       = map tf_name (sorted (test_dir (Samples.env_of Samples.scenario_world)))
    /\ Permutation (map r_test_case block)
                   (map tf_name (test_dir (Samples.env_of Samples.scenario_world)))
    /\ StronglySorted (fun a b => String.leb a b = true) (map r_test_case block).
Proof.
  apply (rows_follow_test_file_order (Samples.env_of Samples.scenario_world) "h" "m1"
           Samples.s0).
  vm_compute. discriminate.
Defined.

(** ** Interactive selection *)

Import Selection.

(** X15. The GPU mode is CPU-only ([None]) exactly when no GPU was detected
    or the answer is 1; any answer other than 1 and 3 (2, or anything not
    understood) selects all detected GPUs; and with answer 3, when no token
    of the second answer consists of digits, the result is the empty
    string, not CPU-only. *)
Theorem gpu_mode_cpu_only_iff :
  forall (gpus : list Gpu) (input1 input2 : string),
    (choose_gpu_mode_interactive gpus input1 input2 = None
     <-> gpus = [] \/ PyStr.strip input1 = "1")
    /\ (gpus <> [] -> PyStr.strip input1 <> "1" -> PyStr.strip input1 <> "3" ->
        choose_gpu_mode_interactive gpus input1 input2 = Some (all_gpu_indices gpus))
    /\ (gpus <> [] -> PyStr.strip input1 = "3" ->
        (forall p, In p (PyStr.split Telemetry.comma (PyStr.strip input2)) ->
                   PyStr.isdigit (PyStr.strip p) = false) ->
        choose_gpu_mode_interactive gpus input1 input2 = Some EmptyString).
Proof.
  intros gpus input1 input2. unfold choose_gpu_mode_interactive.
  destruct gpus as [| g gpus].
  - split; [split; auto |]. split; intros H; congruence.
  - destruct (String.eqb (PyStr.strip input1) "1") eqn:E1.
    + apply String.eqb_eq in E1. split; [split; auto |].
      split; intros; congruence.
    + apply String.eqb_neq in E1.
      destruct (String.eqb (PyStr.strip input1) "2") eqn:E2.
      * apply String.eqb_eq in E2.
        split; [split; [discriminate | intros [H | H]; congruence] |].
        split; [reflexivity |]. intros _ H. rewrite H in E2. discriminate.
      * destruct (String.eqb (PyStr.strip input1) "3") eqn:E3.
        -- apply String.eqb_eq in E3.
           split; [split; [discriminate | intros [H | H]; congruence] |].
           split; [congruence |]. intros _ _ Hnone.
           assert (Hf : filter (fun p => PyStr.isdigit (PyStr.strip p))
                               (PyStr.split Telemetry.comma (PyStr.strip input2)) = []).
           { induction (PyStr.split Telemetry.comma (PyStr.strip input2)) as [| p l IH];
               [reflexivity |].
             cbn [filter]. rewrite (Hnone p (or_introl eq_refl)).
             apply IH. intros q Hq. apply Hnone. right. exact Hq. }
           rewrite Hf. reflexivity.
        -- apply String.eqb_neq in E3.
           split; [split; [discriminate | intros [H | H]; congruence] |].
           split; [reflexivity |]. intros; congruence.
Qed.

Lemma gpu_mode_cpu_only_iff_witness :
  choose_gpu_mode_interactive [mkGpu 0 "RTX"; mkGpu 1 "T4"] "3" "a, b" = Some EmptyString.
Proof.
  apply (proj2 (proj2 (gpu_mode_cpu_only_iff [mkGpu 0 "RTX"; mkGpu 1 "T4"] "3" "a, b"))).
  - discriminate.
  - reflexivity.
  - intros p Hp. vm_compute in Hp. destruct Hp as [<- | [<- | []]]; reflexivity.
Defined.

Lemma set_add_spec :
  forall (x : string) (chosen : list string),
    (forall y, In y (set_add x chosen) <-> y = x \/ In y chosen)
    /\ (NoDup chosen -> NoDup (set_add x chosen)).
Proof.
  intros x chosen. unfold set_add.
  destruct (existsb (String.eqb x) chosen) eqn:E.
  - apply existsb_exists in E. destruct E as (z & Hz & Ez).
    apply String.eqb_eq in Ez. subst z. split; [| auto].
    intros y. split; [auto |]. intros [-> | H]; assumption.
  - split.
    + intros y. rewrite in_app_iff. cbn [In]. intuition congruence.
    + intros Hnd. apply NoDup_app; [exact Hnd | repeat constructor; intros [] |].
      intros y Hy [Heq | []]. subst y.
      assert (Hex : existsb (String.eqb x) chosen = true)
        by (apply existsb_exists; exists x; split; [exact Hy | apply String.eqb_refl]).
      congruence.
Qed.

(** What one more index or token keeps true of the chosen names: they are
    names of models, without repetition. *)
Lemma add_index_keeps :
  forall (models : list Model) (i : Z) (chosen : list string),
    incl chosen (map m_name models) -> NoDup chosen ->
    incl (add_index models i chosen) (map m_name models)
    /\ NoDup (add_index models i chosen).
Proof.
  intros models i chosen Hincl Hnd. unfold add_index.
  destruct ((1 <=? i)%Z && (i <=? Z.of_nat (List.length models))%Z); [| auto].
  destruct (nth_error models (Z.to_nat (i - 1))) as [m |] eqn:E; [| auto].
  destruct (set_add_spec (m_name m) chosen) as [Hin Hnd']. split; [| auto].
  intros y Hy. apply Hin in Hy. destruct Hy as [-> | Hy]; [| apply Hincl; exact Hy].
  apply in_map. eapply nth_error_In. exact E.
Qed.

Lemma add_token_keeps :
  forall (models : list Model) (token : string) (chosen : list string),
    incl chosen (map m_name models) -> NoDup chosen ->
    incl (add_token models chosen token) (map m_name models)
    /\ NoDup (add_token models chosen token).
Proof.
  intros models token chosen Hincl Hnd. unfold add_token.
  destruct (PyStr.contains "-" (PyStr.strip token)).
  - destruct (PyStr.split1 (ascii_of_nat 45) (PyStr.strip token)) as [| a [| b [| c l]]];
      auto.
    destruct (PyStr.int_of_str a) as [a' |]; [| auto].
    destruct (PyStr.int_of_str b) as [b' |]; [| auto].
    generalize (range_from a' (Z.to_nat (b' + 1 - a'))) as r.
    intros r. revert chosen Hincl Hnd.
    induction r as [| i r IH]; intros chosen Hincl Hnd; cbn [fold_left]; [auto |].
    destruct (add_index_keeps models i chosen Hincl Hnd) as [H1 H2].
    apply IH; assumption.
  - destruct (PyStr.int_of_str (PyStr.strip token)) as [i |]; [| auto].
    apply add_index_keeps; assumption.
Qed.

(** X16. Whatever is typed, the models selected are names of installed
    models; when the installed names are distinct the selection has no
    repetition; and unless the answer is q or empty, the selection of a
    non-empty model list is never empty (an answer that selects nothing
    selects all models). *)
Theorem model_selection_is_sound :
  forall (models : list Model) (input1 : string),
    incl (choose_models_interactive models input1) (map m_name models)
    /\ (NoDup (map m_name models) -> NoDup (choose_models_interactive models input1))
    /\ (models <> [] ->
        PyStr.lower (PyStr.strip input1) <> "q" -> PyStr.strip input1 <> EmptyString ->
        choose_models_interactive models input1 <> []).
Proof.
  intros models input1. unfold choose_models_interactive.
  destruct models as [| m0 models]; [repeat split; [intros x [] | constructor | congruence] |].
  set (ms := m0 :: models).
  destruct (String.eqb (PyStr.lower (PyStr.strip input1)) "a") eqn:Ea.
  - repeat split; [apply incl_refl | auto | discriminate].
  - destruct (String.eqb (PyStr.lower (PyStr.strip input1)) "q") eqn:Eq.
    + apply String.eqb_eq in Eq. cbn [orb].
      repeat split; [intros x [] | constructor | congruence].
    + destruct (String.eqb (PyStr.strip input1) EmptyString) eqn:Ee.
      * apply String.eqb_eq in Ee. cbn [orb].
        repeat split; [intros x [] | constructor | congruence].
      * cbn [orb].
        assert (H : incl (fold_left (add_token ms)
                                    (PyStr.split Telemetry.comma (PyStr.strip input1)) [])
                         (map m_name ms)
                    /\ NoDup (fold_left (add_token ms)
                                (PyStr.split Telemetry.comma (PyStr.strip input1)) [])).
        { generalize (PyStr.split Telemetry.comma (PyStr.strip input1)) as tokens.
          assert (H0 : incl (@nil string) (map m_name ms)) by (intros x []).
          assert (H1 : NoDup (@nil string)) by constructor.
          revert H0 H1. generalize (@nil string) as chosen.
          intros chosen H0 H1 tokens. revert chosen H0 H1.
          induction tokens as [| t tokens IH]; intros chosen H0 H1; cbn [fold_left]; [auto |].
          destruct (add_token_keeps ms t chosen H0 H1) as [H2 H3].
          apply IH; assumption. }
        destruct H as [Hincl Hnd].
        destruct (fold_left (add_token ms)
                            (PyStr.split Telemetry.comma (PyStr.strip input1)) [])
          as [| c chosen].
        -- repeat split; [apply incl_refl | auto | discriminate].
        -- repeat split; [exact Hincl | auto | discriminate].
Qed.

Lemma model_selection_is_sound_witness :
  choose_models_interactive
    [mkModel "a" "1" None EmptyString; mkModel "b" "2" None EmptyString] "7,x" <> [].
Proof.
  apply (proj2 (proj2 (model_selection_is_sound
           [mkModel "a" "1" None EmptyString; mkModel "b" "2" None EmptyString] "7,x")));
    discriminate.
Defined.

Lemma lower_single :
  forall (s : string) (c : ascii),
    PyStr.lower s = String c EmptyString ->
    exists c', s = String c' EmptyString /\ PyStr.lower_char c' = c.
Proof.
  intros [| c' [| c'' s]] c H; cbn [PyStr.lower] in H; inversion H.
  exists c'. split; reflexivity.
Qed.

(** A one-letter answer m or d, in either case, is not an integer. *)
Lemma letter_is_no_integer :
  forall c : ascii,
    PyStr.lower_char c = "m"%char \/ PyStr.lower_char c = "d"%char ->
    PyStr.int_of_str (String c EmptyString) = None.
Proof.
  intros c.
  destruct c as [[|] [|] [|] [|] [|] [|] [|] [|]];
    intros [H | H]; try reflexivity; vm_compute in H; discriminate H.
Qed.

Lemma int_of_str_strip :
  forall s : string, PyStr.int_of_str (PyStr.strip s) = PyStr.int_of_str s.
Proof.
  intros s. unfold PyStr.int_of_str. rewrite strip_idempotent. reflexivity.
Qed.

(** X17. When the answer to the service prompt is an integer i and n
    services are listed, the host is that of service i for 1 <= i <= n;
    for 1 - n <= i <= 0 the index wraps around, so that 0 picks the last
    service and -1 the one before it; any other integer gives the default
    host.  A service without port gives port 11434. *)
Theorem service_choice_by_number :
  forall (ports : list (option string)) (input1 input2 : string) (i : Z),
    PyStr.int_of_str (PyStr.strip input1) = Some i ->
    let n := Z.of_nat (List.length ports) in
    let host_of := fun chosen : option string =>
      "127.0.0.1:" ++ match chosen with
                       | Some p => if PyStr.truthy p then p else "11434"
                       | None => "11434"
                       end in
    ((1 <= i <= n)%Z ->
     exists chosen, nth_error ports (Z.to_nat (i - 1)) = Some chosen
                    /\ choose_service_interactive ports input1 input2 = host_of chosen)
    /\ ((1 - n <= i <= 0)%Z ->
        exists chosen, nth_error ports (Z.to_nat (n + i - 1)) = Some chosen
                       /\ choose_service_interactive ports input1 input2 = host_of chosen)
    /\ ((i < 1 - n \/ n < i)%Z ->
        choose_service_interactive ports input1 input2 = default_host).
Proof.
  intros ports input1 input2 i Hint n host_of.
  assert (Hm : String.eqb (PyStr.lower (PyStr.strip input1)) "m" = false).
  { apply String.eqb_neq. intros H. apply lower_single in H.
    destruct H as (c & Hc & Hl). rewrite Hc in Hint.
    rewrite letter_is_no_integer in Hint by (left; exact Hl). discriminate. }
  assert (Hd : String.eqb (PyStr.lower (PyStr.strip input1)) "d" = false).
  { apply String.eqb_neq. intros H. apply lower_single in H.
    destruct H as (c & Hc & Hl). rewrite Hc in Hint.
    rewrite letter_is_no_integer in Hint by (right; exact Hl). discriminate. }
  assert (He : String.eqb (PyStr.strip input1) EmptyString = false).
  { apply String.eqb_neq. intros H. rewrite H in Hint. discriminate. }
  unfold choose_service_interactive. rewrite Hm, Hd, He. cbn [orb]. rewrite Hint.
  unfold py_index. fold n.
  split; [| split].
  - intros Hi.
    replace ((0 <=? i - 1)%Z && (i - 1 <? n)%Z) with true
      by (symmetry; apply andb_true_iff; split; [apply Z.leb_le | apply Z.ltb_lt]; lia).
    destruct (nth_error ports (Z.to_nat (i - 1))) as [chosen |] eqn:E.
    + exists chosen. split; reflexivity.
    + exfalso. apply nth_error_None in E. unfold n in Hi. lia.
  - intros Hi.
    replace ((0 <=? i - 1)%Z && (i - 1 <? n)%Z) with false
      by (symmetry; apply andb_false_iff; left; apply Z.leb_gt; lia).
    replace ((- n <=? i - 1)%Z && (i - 1 <? 0)%Z) with true
      by (symmetry; apply andb_true_iff; split; [apply Z.leb_le | apply Z.ltb_lt]; lia).
    replace (i - 1 + n)%Z with (n + i - 1)%Z by lia.
    destruct (nth_error ports (Z.to_nat (n + i - 1))) as [chosen |] eqn:E.
    + exists chosen. split; reflexivity.
    + exfalso. apply nth_error_None in E. unfold n in Hi. lia.
  - intros Hi.
    replace ((0 <=? i - 1)%Z && (i - 1 <? n)%Z) with false
      by (symmetry; apply andb_false_iff;
          destruct (Z.le_gt_cases 0 (i - 1));
          [right; apply Z.ltb_ge; unfold n in *; lia | left; apply Z.leb_gt; lia]).
    replace ((- n <=? i - 1)%Z && (i - 1 <? 0)%Z) with false
      by (symmetry; apply andb_false_iff;
          destruct (Z.le_gt_cases 0 (i - 1));
          [right; apply Z.ltb_ge; lia | left; apply Z.leb_gt; unfold n in *; lia]).
    reflexivity.
Qed.

Lemma service_choice_by_number_witness :
  exists chosen,
    nth_error [Some "11435"; None; Some "11437"] (Z.to_nat (3 + 0 - 1)) = Some chosen
    /\ choose_service_interactive [Some "11435"; None; Some "11437"] "0" EmptyString
       = "127.0.0.1:" ++ match chosen with
                          | Some p => if PyStr.truthy p then p else "11434"
                          | None => "11434"
                          end.
Proof.
  refine (proj1 (proj2 (service_choice_by_number
                          [Some "11435"; None; Some "11437"] "0" EmptyString 0 _)) _).
  - reflexivity.
  - cbn. lia.
Defined.

Lemma find_model_file_size_ignores_name :
  forall (dirs : list (option (list (option Q)))) (name1 name2 : string),
    find_model_file_size name1 dirs = find_model_file_size name2 dirs.
Proof.
  intros dirs name1 name2. induction dirs as [| [blobs |] dirs IH]; cbn [find_model_file_size].
  - reflexivity.
  - rewrite IH. reflexivity.
  - exact IH.
Qed.

(** [find_model_file_size] returns the size of the first blob that can be
    read, going through the directories that exist in their order. *)
Lemma find_model_file_size_first_blob :
  forall (dirs : list (option (list (option Q)))) (name : string),
    find_model_file_size name dirs
    = first_blob (flat_map (fun dir => match dir with Some blobs => blobs | None => [] end)
                           dirs).
Proof.
  assert (A : forall a b, first_blob (a ++ b)
                          = match first_blob a with Some v => Some v | None => first_blob b end).
  { intros a b. induction a as [| [v |] a IH]; cbn [app first_blob]; auto. }
  intros dirs name. induction dirs as [| [blobs |] dirs IH];
    cbn [find_model_file_size flat_map]; [reflexivity | | exact IH].
  rewrite A, IH. reflexivity.
Qed.

(** X18. Enriching the model list keeps the models, their order, names,
    identifiers and size strings, and never changes a known size.  Every
    model of unknown size receives the same value, which does not depend
    on the model: the size of the first readable blob of the model
    directories, taken in their order; the size stays unknown when there
    is no such blob or its size is zero. *)
Theorem enrich_fills_unknown_sizes_uniformly :
  forall (dirs : list (option (list (option Q)))) (models : list Model),
    Forall2 (fun m m' =>
               m_name m' = m_name m /\ m_id m' = m_id m
               /\ m_size_str m' = m_size_str m
               /\ m_size_mb m'
                  = match m_size_mb m with
                    | Some v => Some v
                    | None =>
                        match first_blob
                                (flat_map (fun dir => match dir with
                                                      | Some blobs => blobs
                                                      | None => []
                                                      end) dirs) with
                        | Some sz => if Qeq_bool sz 0 then None else Some sz
                        | None => None
                        end
                    end)
            models (enrich_models_with_sizes dirs models).
Proof.
  intros dirs models. unfold enrich_models_with_sizes.
  induction models as [| m models IH]; cbn [map]; constructor; [| exact IH].
  unfold enrich_model.
  rewrite (find_model_file_size_first_blob dirs (m_name m)).
  destruct (m_size_mb m) as [v |] eqn:E.
  - repeat split. exact E.
  - destruct (first_blob _) as [sz |].
    + destruct (Qeq_bool sz 0); cbn [m_name m_id m_size_str m_size_mb];
        repeat split; exact E.
    + repeat split. exact E.
Qed.

(** ** Test files on disk *)

Import TestFiles.

Lemma backup_name_prefix :
  forall name ts : string, String.prefix "backup_" (backup_name name ts) = true.
Proof.
  intros name ts. unfold backup_name. cbn.
  repeat (match goal with |- context [ascii_dec ?a ?b] =>
            destruct (ascii_dec a b); [| congruence] end).
  destruct (name ++ String "_" ts); reflexivity.
Qed.

Lemma write_one_get_same :
  forall (ts : string -> string) (d : Dir) (fname content : string),
    exists c',
      dict_get (write_one ts d (fname, content)) fname = Some c'
      /\ PyStr.strip c' = PyStr.strip content.
Proof.
  intros ts d fname content. cbn [write_one].
  destruct (dict_get d fname) as [old |] eqn:E.
  - destruct (String.eqb (PyStr.strip old) (PyStr.strip content)) eqn:Es.
    + exists old. split; [exact E | apply String.eqb_eq; exact Es].
    + exists content. split; [apply dict_get_set_same | reflexivity].
  - exists content. split; [apply dict_get_set_same | reflexivity].
Qed.

Lemma write_one_get_other :
  forall (ts : string -> string) (d : Dir) (fname content g : string),
    g <> fname -> String.prefix "backup_" g = false ->
    dict_get (write_one ts d (fname, content)) g = dict_get d g.
Proof.
  intros ts d fname content g Hneq Hg. cbn [write_one].
  destruct (dict_get d fname) as [old |] eqn:E.
  - destruct (String.eqb (PyStr.strip old) (PyStr.strip content)); [reflexivity |].
    rewrite dict_get_set_other by exact Hneq.
    unfold backup_if_exists. rewrite E.
    apply dict_get_set_other. intros H.
    pose proof (backup_name_prefix fname (ts fname)) as Hp. rewrite <- H in Hp. congruence.
  - apply dict_get_set_other. exact Hneq.
Qed.

Lemma write_all_get_other :
  forall (ts : string -> string) (lc : list (string * string)) (d : Dir) (g : string),
    ~ In g (map fst lc) -> String.prefix "backup_" g = false ->
    dict_get (fold_left (write_one ts) lc d) g = dict_get d g.
Proof.
  intros ts lc. induction lc as [| [f c] lc IH]; intros d g Hnotin Hg; cbn [fold_left];
    [reflexivity |].
  cbn [map fst] in Hnotin.
  rewrite IH by (auto; intros H; apply Hnotin; right; exact H).
  apply write_one_get_other; [| exact Hg]. intros H. apply Hnotin. left. symmetry. exact H.
Qed.

Lemma write_all_up_to_date :
  forall (ts : string -> string) (lc : list (string * string)) (d : Dir),
    NoDup (map fst lc) ->
    (forall f, In f (map fst lc) -> String.prefix "backup_" f = false) ->
    forall f c, In (f, c) lc ->
      exists c', dict_get (fold_left (write_one ts) lc d) f = Some c'
                 /\ PyStr.strip c' = PyStr.strip c.
Proof.
  intros ts lc. induction lc as [| [f0 c0] lc IH]; intros d Hnd Hnames f c Hin;
    [destruct Hin |].
  cbn [map fst] in Hnd, Hnames. inversion Hnd as [| x xs Hnotin Hnd']; subst.
  cbn [fold_left]. destruct Hin as [Heq | Hin].
  - inversion Heq; subst f0 c0.
    rewrite write_all_get_other; [apply write_one_get_same | exact Hnotin |].
    apply Hnames. left. reflexivity.
  - apply IH; [exact Hnd' | | exact Hin]. intros g Hg. apply Hnames. right. exact Hg.
Qed.

Lemma write_all_nothing_to_do :
  forall (ts : string -> string) (lc : list (string * string)) (d : Dir),
    (forall f c, In (f, c) lc ->
       exists c', dict_get d f = Some c' /\ PyStr.strip c' = PyStr.strip c) ->
    fold_left (write_one ts) lc d = d.
Proof.
  intros ts lc. induction lc as [| [f c] lc IH]; intros d H; cbn [fold_left]; [reflexivity |].
  assert (E : write_one ts d (f, c) = d).
  { destruct (H f c (or_introl eq_refl)) as (c' & Hget & Hs).
    cbn [write_one]. rewrite Hget, Hs, String.eqb_refl. reflexivity. }
  rewrite E. apply IH. intros g c1 Hin. apply H. right. exact Hin.
Qed.

(** X19. Writing the test files is idempotent: after one run every file of
    the selected language is on disk with the wanted content (up to
    surrounding white space), and a second run, at whatever time, changes
    nothing: no file is rewritten and no further backup is made.  An
    unknown language changes nothing.  (File names are distinct and none
    starts like a backup.) *)
Theorem write_test_files_idempotent :
  forall (table : list (string * list (string * string))) (lang : string)
         (ts ts' : string -> string) (d : Dir),
    (dict_get table lang = None -> write_test_files table lang ts d = d)
    /\ forall lc : list (string * string),
         dict_get table lang = Some lc ->
         NoDup (map fst lc) ->
         (forall f, In f (map fst lc) -> String.prefix "backup_" f = false) ->
         (forall f c, In (f, c) lc ->
            exists c', dict_get (write_test_files table lang ts d) f = Some c'
                       /\ PyStr.strip c' = PyStr.strip c)
         /\ write_test_files table lang ts' (write_test_files table lang ts d)
            = write_test_files table lang ts d.
Proof.
  intros table lang ts ts' d. unfold write_test_files. split.
  - intros ->. reflexivity.
  - intros lc -> Hnd Hnames.
    pose proof (write_all_up_to_date ts lc d Hnd Hnames) as Hup.
    split; [exact Hup |]. apply write_all_nothing_to_do. exact Hup.
Qed.

Lemma write_test_files_idempotent_witness :
  let table := [("en", [("phase1.txt", "first prompt"); ("phase2.txt", "second prompt")])] in
  let d := [("phase1.txt", "old text")] in
  (forall f c, In (f, c) [("phase1.txt", "first prompt"); ("phase2.txt", "second prompt")] ->
     exists c', dict_get (write_test_files table "en" (fun _ => "t1") d) f = Some c'
                /\ PyStr.strip c' = PyStr.strip c)
  /\ write_test_files table "en" (fun _ => "t2")
       (write_test_files table "en" (fun _ => "t1") d)
     = write_test_files table "en" (fun _ => "t1") d.
Proof.
  cbv zeta.
  apply (proj2 (write_test_files_idempotent
                  [("en", [("phase1.txt", "first prompt"); ("phase2.txt", "second prompt")])]
                  "en" (fun _ => "t1") (fun _ => "t2") [("phase1.txt", "old text")])).
  - reflexivity.
  - repeat constructor; simpl; intuition discriminate.
  - intros f [<- | [<- | []]]; reflexivity.
Defined.

(** ** GPU detection

    [detect_gpus] reads back the index that [str] prints: the digits of a
    printed integer parse to that integer. *)

Lemma all_chars_impl :
  forall (f g : ascii -> bool) (s : string),
    (forall c, f c = true -> g c = true) ->
    PyStr.all_chars f s = true -> PyStr.all_chars g s = true.
Proof.
  intros f g s Hfg. induction s as [| c s IH]; cbn [PyStr.all_chars]; [reflexivity |].
  intros H. apply andb_true_iff in H. destruct H as [Hc Hs].
  rewrite (Hfg c Hc), (IH Hs). reflexivity.
Qed.

Lemma all_chars_app :
  forall (f : ascii -> bool) (a b : string),
    PyStr.all_chars f (a ++ b) = PyStr.all_chars f a && PyStr.all_chars f b.
Proof.
  intros f a b. induction a as [| c a IH]; cbn [String.append PyStr.all_chars];
    [reflexivity |].
  rewrite IH. apply andb_assoc.
Qed.

Lemma rstrip_no_space :
  forall s : string,
    PyStr.all_chars (fun c => negb (PyStr.is_space c)) s = true ->
    PyStr.rstrip s = s.
Proof.
  induction s as [| c s IH]; cbn [PyStr.all_chars PyStr.rstrip]; [reflexivity |].
  intros H. apply andb_true_iff in H. destruct H as [Hc Hs].
  rewrite (IH Hs). apply negb_true_iff in Hc.
  destruct s; [rewrite Hc |]; reflexivity.
Qed.

Lemma strip_no_space :
  forall s : string,
    PyStr.all_chars (fun c => negb (PyStr.is_space c)) s = true ->
    PyStr.strip s = s.
Proof.
  intros s H. unfold PyStr.strip.
  assert (E : PyStr.lstrip s = s).
  { destruct s as [| c s]; [reflexivity |].
    cbn [PyStr.all_chars] in H. apply andb_true_iff in H. destruct H as [Hc _].
    apply negb_true_iff in Hc. cbn [PyStr.lstrip]. rewrite Hc. reflexivity. }
  rewrite E. apply rstrip_no_space. exact H.
Qed.

Lemma printed_digits :
  forall d : Decimal.uint,
    PyStr.all_chars PyStr.is_ascii_digit (DecimalString.NilEmpty.string_of_uint d) = true.
Proof.
  induction d; cbn [DecimalString.NilEmpty.string_of_uint PyStr.all_chars];
    [reflexivity | rewrite IHd; reflexivity ..].
Qed.

Lemma parse_digits_acc :
  forall (d : Decimal.uint) (acc : positive),
    PyStr.parse_digits (Z.pos acc) true (DecimalString.NilEmpty.string_of_uint d)
    = Some (Z.pos (Pos.of_uint_acc d acc)).
Proof.
  induction d; intros acc;
    cbn [DecimalString.NilEmpty.string_of_uint PyStr.parse_digits Pos.of_uint_acc];
    [reflexivity | ..];
    match goal with
    | |- context [PyStr.is_ascii_digit ?c] =>
        change (PyStr.is_ascii_digit c) with true; cbv iota;
        let v := eval vm_compute in (PyStr.digit_value c) in
        change (PyStr.digit_value c) with v
    end;
    match goal with
    | |- PyStr.parse_digits ?a true _ = Some (Z.pos (Pos.of_uint_acc _ ?p)) =>
        replace a with (Z.pos p) by lia
    end;
    apply IHd.
Qed.

Lemma parse_digits_printed :
  forall d : Decimal.uint,
    PyStr.parse_digits 0 true (DecimalString.NilEmpty.string_of_uint d)
    = Some (Z.of_N (Pos.of_uint d)).
Proof.
  induction d;
    cbn [DecimalString.NilEmpty.string_of_uint PyStr.parse_digits Pos.of_uint];
    [reflexivity | ..];
    match goal with
    | |- context [PyStr.is_ascii_digit ?c] =>
        change (PyStr.is_ascii_digit c) with true; cbv iota;
        let v := eval vm_compute in (PyStr.digit_value c) in
        change (PyStr.digit_value c) with v
    end;
    change (0 * 10 + 0)%Z with 0%Z; try exact IHd;
    match goal with
    | |- PyStr.parse_digits ?a true _ = _ =>
        let v := eval vm_compute in a in change a with v
    end;
    rewrite parse_digits_acc; reflexivity.
Qed.

(** What [str] prints for an integer: digits, after a minus sign for a
    negative one. *)
Lemma printed_uint_nonnil :
  forall d : Decimal.uint,
    d <> Decimal.Nil ->
    DecimalString.NilZero.string_of_uint d = DecimalString.NilEmpty.string_of_uint d
    /\ exists c r, DecimalString.NilEmpty.string_of_uint d = String c r
                   /\ PyStr.is_ascii_digit c = true.
Proof.
  intros d Hd. destruct d; [contradiction Hd; reflexivity | ..];
    (split; [reflexivity |]); eexists; eexists; (split; [reflexivity | reflexivity]).
Qed.

Lemma parse_digits_first :
  forall (c : ascii) (r : string) (b : bool),
    PyStr.is_ascii_digit c = true ->
    PyStr.parse_digits 0 b (String c r) = PyStr.parse_digits 0 true (String c r).
Proof.
  intros c r b Hc. cbn [PyStr.parse_digits]. rewrite Hc. reflexivity.
Qed.

Lemma digit_is_plain :
  forall c : ascii,
    PyStr.is_ascii_digit c || Ascii.eqb c "-" = true ->
    PyStr.is_space c = false
    /\ Ascii.eqb c comma = false
    /\ PyStr.is_linebreak c = false.
Proof.
  intros c.
  destruct c as [[|] [|] [|] [|] [|] [|] [|] [|]];
    intros H; try (repeat split; reflexivity); vm_compute in H; discriminate H.
Qed.

Lemma digit_is_no_sign :
  forall c : ascii,
    PyStr.is_ascii_digit c = true ->
    (nat_of_ascii c =? 43)%nat = false /\ (nat_of_ascii c =? 45)%nat = false.
Proof.
  intros c.
  destruct c as [[|] [|] [|] [|] [|] [|] [|] [|]];
    intros H; try (split; reflexivity); vm_compute in H; discriminate H.
Qed.

Lemma str_of_Z_chars :
  forall i : Z,
    PyStr.all_chars (fun c => PyStr.is_ascii_digit c || Ascii.eqb c "-")
      (PyStr.str_of_Z i) = true.
Proof.
  assert (D : forall d, PyStr.all_chars (fun c => PyStr.is_ascii_digit c || Ascii.eqb c "-")
                          (DecimalString.NilZero.string_of_uint d) = true).
  { intros d. destruct (Decimal.uint_eq_dec d Decimal.Nil) as [-> | Hd]; [reflexivity |].
    rewrite (proj1 (printed_uint_nonnil d Hd)).
    apply (all_chars_impl PyStr.is_ascii_digit); [| apply printed_digits].
    intros c ->. reflexivity. }
  intros [| p | p]; unfold PyStr.str_of_Z;
    cbn [Z.to_int DecimalString.NilZero.string_of_int]; [reflexivity | apply D |].
  cbn [PyStr.all_chars]. rewrite D. reflexivity.
Qed.

Lemma str_of_Z_strip :
  forall i : Z, PyStr.strip (PyStr.str_of_Z i) = PyStr.str_of_Z i.
Proof.
  intros i. apply strip_no_space.
  apply (all_chars_impl (fun c => PyStr.is_ascii_digit c || Ascii.eqb c "-"));
    [| apply str_of_Z_chars].
  intros c Hc. rewrite (proj1 (digit_is_plain c Hc)). reflexivity.
Qed.

(** [int(str(i)) == i]. *)
Lemma int_of_str_str_of_Z :
  forall i : Z, PyStr.int_of_str (PyStr.str_of_Z i) = Some i.
Proof.
  intros i. unfold PyStr.int_of_str. rewrite str_of_Z_strip.
  destruct i as [| p | p]; unfold PyStr.str_of_Z;
    cbn [Z.to_int DecimalString.NilZero.string_of_int]; [reflexivity | |].
  - pose proof (DecimalPos.Unsigned.to_uint_nonnil p) as Hd.
    destruct (printed_uint_nonnil _ Hd) as (E & c & r & Ecr & Hc).
    rewrite E, Ecr. destruct (digit_is_no_sign c Hc) as [-> ->].
    rewrite (parse_digits_first c r false Hc), <- Ecr, parse_digits_printed.
    rewrite DecimalPos.Unsigned.of_to. reflexivity.
  - change (nat_of_ascii "-" =? 43)%nat with false.
    change (nat_of_ascii "-" =? 45)%nat with true. cbv iota.
    pose proof (DecimalPos.Unsigned.to_uint_nonnil p) as Hd.
    destruct (printed_uint_nonnil _ Hd) as (E & c & r & Ecr & Hc).
    rewrite E, Ecr.
    rewrite (parse_digits_first c r false Hc), <- Ecr, parse_digits_printed.
    rewrite DecimalPos.Unsigned.of_to. reflexivity.
Qed.

Lemma split1_at_first :
  forall (sep : ascii) (x rest : string),
    PyStr.all_chars (fun c => negb (Ascii.eqb c sep)) x = true ->
    PyStr.split1 sep (x ++ String sep rest) = [x; rest].
Proof.
  intros sep x rest. induction x as [| c x IH];
    cbn [String.append PyStr.all_chars PyStr.split1].
  - intros _. rewrite Ascii.eqb_refl. reflexivity.
  - intros H. apply andb_true_iff in H. destruct H as [Hc Hx].
    apply negb_true_iff in Hc. rewrite Hc, (IH Hx). reflexivity.
Qed.

Lemma splitlines_line_then_rest :
  forall l rest : string,
    PyStr.all_chars (fun c => negb (PyStr.is_linebreak c)) l = true ->
    PyStr.splitlines_from false (l ++ String newline rest)
    = l :: PyStr.splitlines_from false rest.
Proof.
  intros l rest. induction l as [| c l IH];
    cbn [String.append PyStr.all_chars PyStr.splitlines_from andb].
  - intros _. reflexivity.
  - intros H. apply andb_true_iff in H. destruct H as [Hc Hl].
    apply negb_true_iff in Hc. rewrite Hc, (IH Hl). reflexivity.
Qed.

Lemma splitlines_last_line :
  forall l : string,
    l <> "" ->
    PyStr.all_chars (fun c => negb (PyStr.is_linebreak c)) l = true ->
    PyStr.splitlines_from false l = [l].
Proof.
  induction l as [| c l IH]; intros Hne H; [contradiction Hne; reflexivity |].
  cbn [PyStr.all_chars] in H. apply andb_true_iff in H. destruct H as [Hc Hl].
  apply negb_true_iff in Hc. cbn [PyStr.splitlines_from andb]. rewrite Hc.
  destruct l as [| c' l']; [reflexivity |].
  rewrite (IH ltac:(discriminate) Hl). reflexivity.
Qed.

(** Joining lines with line feeds and splitting again gives the lines
    back, when no line is empty or contains a line boundary. *)
Lemma splitlines_join :
  forall lines : list string,
    Forall (fun l => l <> ""
                     /\ PyStr.all_chars (fun c => negb (PyStr.is_linebreak c)) l = true)
           lines ->
    PyStr.splitlines (PyStr.join (String newline "") lines) = lines.
Proof.
  unfold PyStr.splitlines, PyStr.join.
  induction lines as [| l lines IH]; intros H; [reflexivity |].
  inversion H as [| ? ? [Hne Hl] Hrest]; subst.
  destruct lines as [| l' lines'].
  - cbn [String.concat]. apply splitlines_last_line; assumption.
  - change (String.concat (String newline "") (l :: l' :: lines'))
      with (l ++ String newline (String.concat (String newline "") (l' :: lines'))).
    rewrite (splitlines_line_then_rest l _ Hl), (IH Hrest). reflexivity.
Qed.

(** One well-formed line of the query output. *)
Lemma gpu_of_line_well_formed :
  forall (i : Z) (name : string),
    gpu_of_line (PyStr.str_of_Z i ++ ", " ++ name) = [mkGpu i (PyStr.strip name)].
Proof.
  intros i name. unfold gpu_of_line.
  change (", " ++ name) with (String comma (String " " name)).
  rewrite split1_at_first.
  - rewrite str_of_Z_strip, int_of_str_str_of_Z. reflexivity.
  - apply (all_chars_impl (fun c => PyStr.is_ascii_digit c || Ascii.eqb c "-"));
      [| apply str_of_Z_chars].
    intros c Hc. destruct (digit_is_plain c Hc) as (_ & -> & _). reflexivity.
Qed.

Lemma gpu_line_is_one_line :
  forall (i : Z) (name : string),
    PyStr.all_chars (fun c => negb (PyStr.is_linebreak c)) name = true ->
    PyStr.str_of_Z i ++ ", " ++ name <> ""
    /\ PyStr.all_chars (fun c => negb (PyStr.is_linebreak c))
         (PyStr.str_of_Z i ++ ", " ++ name) = true.
Proof.
  intros i name Hname. split.
  - destruct (PyStr.str_of_Z i); discriminate.
  - rewrite !all_chars_app, Hname.
    rewrite (all_chars_impl (fun c => PyStr.is_ascii_digit c || Ascii.eqb c "-")
               (fun c => negb (PyStr.is_linebreak c)) (PyStr.str_of_Z i)).
    + reflexivity.
    + intros c Hc. destruct (digit_is_plain c Hc) as (_ & _ & ->). reflexivity.
    + apply str_of_Z_chars.
Qed.

(** X20. GPU detection reads the query output back: when the output lists
    the GPUs one per line as index, comma, name (no line boundary inside a
    name), the result has one entry per GPU, in the same order, with the
    printed index as an integer and the name without surrounding white
    space.  The error text and the return code play no part. *)
Theorem detect_gpus_reads_listing :
  forall (gpus : list Gpu) (err : string) (rc : Z),
    Forall (fun g => PyStr.all_chars (fun c => negb (PyStr.is_linebreak c)) (g_name g) = true)
           gpus ->
    detect_gpus
      (Some (PyStr.join (String newline "")
               (map (fun g => PyStr.str_of_Z (g_index g) ++ ", " ++ g_name g) gpus)),
       err, rc)
    = map (fun g => mkGpu (g_index g) (PyStr.strip (g_name g))) gpus.
Proof.
  intros gpus err rc H. unfold detect_gpus. cbn [res_stdout fst].
  rewrite splitlines_join.
  - assert (E : flat_map gpu_of_line
                  (map (fun g => PyStr.str_of_Z (g_index g) ++ ", " ++ g_name g) gpus)
                = map (fun g => mkGpu (g_index g) (PyStr.strip (g_name g))) gpus).
    { clear H. induction gpus as [| g gpus IH]; [reflexivity |].
      cbn [map flat_map]. rewrite gpu_of_line_well_formed, IH. reflexivity. }
    rewrite E. destruct gpus as [| g gpus]; [reflexivity |].
    destruct (PyStr.join _ _) eqn:J; [| reflexivity].
    exfalso. unfold PyStr.join in J. cbn [map String.concat] in J.
    destruct (PyStr.str_of_Z (g_index g)); destruct gpus; discriminate J.
  - induction H as [| g gpus Hg _ IH]; cbn [map]; constructor; [| exact IH].
    apply gpu_line_is_one_line. exact Hg.
Qed.

Lemma detect_gpus_reads_listing_witness :
  detect_gpus
    (Some (PyStr.join (String newline "")
             (map (fun g => PyStr.str_of_Z (g_index g) ++ ", " ++ g_name g)
                [mkGpu 0 "NVIDIA GeForce RTX 3090"; mkGpu 1 " Tesla T4 "])),
     "", 0%Z)
  = map (fun g => mkGpu (g_index g) (PyStr.strip (g_name g)))
      [mkGpu 0 "NVIDIA GeForce RTX 3090"; mkGpu 1 " Tesla T4 "].
Proof.
  apply (detect_gpus_reads_listing
           [mkGpu 0 "NVIDIA GeForce RTX 3090"; mkGpu 1 " Tesla T4 "] "" 0%Z).
  repeat constructor.
Defined.
